(** * Merchantnode peer records, announcements and pings

    A shallow embedding of [src/tpos/merchantnode.cpp]: the peer record
    [CMerchantnode] with its lifecycle re-evaluation [Check], the
    announcement [CMerchantnodeBroadcast] ([Update], [CheckOutpoint],
    [CheckSignature]) and the heartbeat [CMerchantnodePing]
    ([SimpleCheck], [CheckSignature], [CheckAndUpdate]).

    Conventions.
    - C++ [int], [int64_t] and [CAmount] values are integers of [Z].
      Heights, scores, clock readings and an announcement's [sigTime]
      (bounded from above by [SimpleCheck] and from below by
      [CheckOutpoint]) stay far from the bounds of their types, and the
      arithmetic on them is exact.  A heartbeat's [sigTime] is any 64-bit
      value off the wire, bounded from above only, so the two subtractions
      it enters ([IsPingedWithin] and line 227 of [Check]) are written with
      the two's-complement wrap-around of the compiled program
      ([int64_sub]).
    - Everything the functions read from the rest of the node (clock, chain
      state, UTXO set, synchronisation flags, the local node's identity, the
      outcome of [TRY_LOCK(cs_main)]) is the read-only record [Env].
    - Everything they write outside the record they work on (the registry's
      seen-message maps, relayed inventory, calls into the sync and
      active-node objects) is the record [Node], passed in and returned.
    - [LogPrint]/[LogPrintf] and the blocking [LOCK]s have no effect on the
      values computed and are left out. *)

From stdpp Require Import base decidable option list gmap strings pretty.
From Stdlib Require Import ZArith Lia.
From Stdlib.Strings Require Import Byte.

Open Scope Z_scope.

(** ** Data model *)

Abbreviation uint256 := Z (only parsing).
Abbreviation bytes := (list Byte.byte) (only parsing).

#[global] Instance byte_eq_dec : EqDecision Byte.byte.
Proof.
  intros a b. destruct (Byte.eqb a b) eqn:E.
  - left. by apply Byte.byte_dec_bl.
  - right. intros ->. rewrite Byte.byte_dec_lb in E; done.
Defined.

(** The value an [int64_t] holds after a computation whose exact result is
    [z]: [z] reduced into [-2^63, 2^63). *)
Definition int64_wrap (z : Z) : Z := (z + 2 ^ 63) mod 2 ^ 64 - 2 ^ 63.

(** [a - b] on [int64_t]. *)
Definition int64_sub (a b : Z) : Z := int64_wrap (a - b).

(** [COutPoint]: transaction id and output index. *)
Record COutPoint := { hash : uint256; n : Z }.

#[global] Instance COutPoint_eq_dec : EqDecision COutPoint.
Proof. solve_decision. Defined.

#[global] Instance COutPoint_countable : Countable COutPoint.
Proof.
  refine (inj_countable' (fun o => (hash o, n o))
                         (fun p => {| hash := p.1; n := p.2 |}) _).
  by intros [].
Defined.

(** [CTxIn]: the outpoint named and its unlock script. *)
Record CTxIn := { prevout : COutPoint; scriptSig : bytes }.

#[global] Instance CTxIn_eq_dec : EqDecision CTxIn.
Proof. solve_decision. Defined.

(** [CService]: network address and port. *)
Record CService := { ip : N; port : Z }.

#[global] Instance CService_eq_dec : EqDecision CService.
Proof. solve_decision. Defined.

Abbreviation CPubKey := (list Byte.byte) (only parsing).
Abbreviation CScript := (list Byte.byte) (only parsing).

(** [CTxOut], [CTransaction], [Coin], [CBlockIndex]: the parts the code reads. *)
Record CTxOut := { nValue : Z; scriptPubKey : CScript }.
Record CTransaction := { vout : list CTxOut }.
Record Coin := { out : CTxOut; nHeight : Z }.
Record CBlockIndex := { bi_nHeight : Z; GetBlockHash : uint256; GetBlockTime : Z }.

(** The lifecycle states of a record ([nActiveState]). *)
Inductive state :=
| MERCHANTNODE_PRE_ENABLED
| MERCHANTNODE_ENABLED
| MERCHANTNODE_EXPIRED
| MERCHANTNODE_OUTPOINT_SPENT
| MERCHANTNODE_UPDATE_REQUIRED
| MERCHANTNODE_WATCHDOG_EXPIRED
| MERCHANTNODE_NEW_START_REQUIRED
| MERCHANTNODE_POSE_BAN.

#[global] Instance state_eq_dec : EqDecision state.
Proof. solve_decision. Defined.

Inductive CollateralStatus :=
| COLLATERAL_OK
| COLLATERAL_UTXO_NOT_FOUND
| COLLATERAL_INVALID_AMOUNT.

#[global] Instance CollateralStatus_eq_dec : EqDecision CollateralStatus.
Proof. solve_decision. Defined.

(** [CMerchantnodePing]. *)
Record CMerchantnodePing := {
  ping_vin : CTxIn;
  ping_blockHash : uint256;
  ping_sigTime : Z;
  ping_vchSig : bytes
}.

#[global] Instance CMerchantnodePing_eq_dec : EqDecision CMerchantnodePing.
Proof. solve_decision. Defined.

(** [CMerchantnode]: the fields of [merchantnode_info_t] the code uses,
    followed by the class's own members (those of the copy constructor). *)
Record CMerchantnode := {
  nActiveState : state;
  nProtocolVersion : Z;
  sigTime : Z;
  vin : CTxIn;
  addr : CService;
  pubKeyCollateralAddress : CPubKey;
  pubKeyMerchantnode : CPubKey;
  nTimeLastWatchdogVote : Z;
  nTimeLastChecked : Z;
  lastPing : CMerchantnodePing;
  vchSig : bytes;
  nCollateralMinConfBlockHash : uint256;
  nBlockLastPaid : Z;
  nPoSeBanScore : Z;
  nPoSeBanHeight : Z;
  fUnitTest : bool
}.

(** [CMerchantnodeBroadcast] derives from [CMerchantnode] and adds
    [fRecovery]. *)
Record CMerchantnodeBroadcast := {
  mnb_base :> CMerchantnode;
  fRecovery : bool
}.

(** *** Field assignments *)

Definition set_nActiveState (v : state) (r : CMerchantnode) : CMerchantnode :=
  {| nActiveState := v; nProtocolVersion := nProtocolVersion r;
     sigTime := sigTime r; vin := vin r; addr := addr r;
     pubKeyCollateralAddress := pubKeyCollateralAddress r;
     pubKeyMerchantnode := pubKeyMerchantnode r;
     nTimeLastWatchdogVote := nTimeLastWatchdogVote r;
     nTimeLastChecked := nTimeLastChecked r; lastPing := lastPing r;
     vchSig := vchSig r;
     nCollateralMinConfBlockHash := nCollateralMinConfBlockHash r;
     nBlockLastPaid := nBlockLastPaid r; nPoSeBanScore := nPoSeBanScore r;
     nPoSeBanHeight := nPoSeBanHeight r; fUnitTest := fUnitTest r |}.

Definition set_nTimeLastChecked (v : Z) (r : CMerchantnode) : CMerchantnode :=
  {| nActiveState := nActiveState r; nProtocolVersion := nProtocolVersion r;
     sigTime := sigTime r; vin := vin r; addr := addr r;
     pubKeyCollateralAddress := pubKeyCollateralAddress r;
     pubKeyMerchantnode := pubKeyMerchantnode r;
     nTimeLastWatchdogVote := nTimeLastWatchdogVote r;
     nTimeLastChecked := v; lastPing := lastPing r;
     vchSig := vchSig r;
     nCollateralMinConfBlockHash := nCollateralMinConfBlockHash r;
     nBlockLastPaid := nBlockLastPaid r; nPoSeBanScore := nPoSeBanScore r;
     nPoSeBanHeight := nPoSeBanHeight r; fUnitTest := fUnitTest r |}.

Definition set_nPoSeBanScore (v : Z) (r : CMerchantnode) : CMerchantnode :=
  {| nActiveState := nActiveState r; nProtocolVersion := nProtocolVersion r;
     sigTime := sigTime r; vin := vin r; addr := addr r;
     pubKeyCollateralAddress := pubKeyCollateralAddress r;
     pubKeyMerchantnode := pubKeyMerchantnode r;
     nTimeLastWatchdogVote := nTimeLastWatchdogVote r;
     nTimeLastChecked := nTimeLastChecked r; lastPing := lastPing r;
     vchSig := vchSig r;
     nCollateralMinConfBlockHash := nCollateralMinConfBlockHash r;
     nBlockLastPaid := nBlockLastPaid r; nPoSeBanScore := v;
     nPoSeBanHeight := nPoSeBanHeight r; fUnitTest := fUnitTest r |}.

Definition set_nPoSeBanHeight (v : Z) (r : CMerchantnode) : CMerchantnode :=
  {| nActiveState := nActiveState r; nProtocolVersion := nProtocolVersion r;
     sigTime := sigTime r; vin := vin r; addr := addr r;
     pubKeyCollateralAddress := pubKeyCollateralAddress r;
     pubKeyMerchantnode := pubKeyMerchantnode r;
     nTimeLastWatchdogVote := nTimeLastWatchdogVote r;
     nTimeLastChecked := nTimeLastChecked r; lastPing := lastPing r;
     vchSig := vchSig r;
     nCollateralMinConfBlockHash := nCollateralMinConfBlockHash r;
     nBlockLastPaid := nBlockLastPaid r; nPoSeBanScore := nPoSeBanScore r;
     nPoSeBanHeight := v; fUnitTest := fUnitTest r |}.

Definition set_lastPing (v : CMerchantnodePing) (r : CMerchantnode) : CMerchantnode :=
  {| nActiveState := nActiveState r; nProtocolVersion := nProtocolVersion r;
     sigTime := sigTime r; vin := vin r; addr := addr r;
     pubKeyCollateralAddress := pubKeyCollateralAddress r;
     pubKeyMerchantnode := pubKeyMerchantnode r;
     nTimeLastWatchdogVote := nTimeLastWatchdogVote r;
     nTimeLastChecked := nTimeLastChecked r; lastPing := v;
     vchSig := vchSig r;
     nCollateralMinConfBlockHash := nCollateralMinConfBlockHash r;
     nBlockLastPaid := nBlockLastPaid r; nPoSeBanScore := nPoSeBanScore r;
     nPoSeBanHeight := nPoSeBanHeight r; fUnitTest := fUnitTest r |}.

Definition set_nCollateralMinConfBlockHash (v : uint256) (r : CMerchantnode) : CMerchantnode :=
  {| nActiveState := nActiveState r; nProtocolVersion := nProtocolVersion r;
     sigTime := sigTime r; vin := vin r; addr := addr r;
     pubKeyCollateralAddress := pubKeyCollateralAddress r;
     pubKeyMerchantnode := pubKeyMerchantnode r;
     nTimeLastWatchdogVote := nTimeLastWatchdogVote r;
     nTimeLastChecked := nTimeLastChecked r; lastPing := lastPing r;
     vchSig := vchSig r;
     nCollateralMinConfBlockHash := v;
     nBlockLastPaid := nBlockLastPaid r; nPoSeBanScore := nPoSeBanScore r;
     nPoSeBanHeight := nPoSeBanHeight r; fUnitTest := fUnitTest r |}.

(** ** What the file takes from its headers and from the rest of the node *)

(** Constants, hashing, string rendering and signature verification are
    declared in headers and sources outside [merchantnode.cpp]
    ([merchantnode.h], [amount.h], [version.h], [chainparams.h],
    [messagesigner.h], ...).  They are parameters of the development: every
    theorem holds for each choice of them. *)
Class Header := {
  MERCHANTNODE_CHECK_SECONDS : Z;
  MERCHANTNODE_MIN_MNB_SECONDS : Z;
  MERCHANTNODE_MIN_MNP_SECONDS : Z;
  MERCHANTNODE_EXPIRATION_SECONDS : Z;
  MERCHANTNODE_WATCHDOG_MAX_SECONDS : Z;
  MERCHANTNODE_NEW_START_REQUIRED_SECONDS : Z;
  MERCHANTNODE_POSE_BAN_MAX_SCORE : Z;
  PROTOCOL_VERSION : Z;
  COIN : Z;
  (** [Params().GetConsensus().nMasternodeMinimumConfirmations] *)
  nMasternodeMinimumConfirmations : Z;
  (** [CMessageSigner::VerifyMessage(pubkey, vchSig, strMessage, strError)] *)
  VerifyMessage : CPubKey -> bytes -> string -> bool;
  (** [addr.ToString(false)], [pubkey.GetID().ToString()], [vin.ToString()],
      [blockHash.ToString()] *)
  CService_ToString : CService -> string;
  CKeyID_ToString : CPubKey -> string;
  CTxIn_ToString : CTxIn -> string;
  uint256_ToString : uint256 -> string;
  (** [GetScriptForDestination(pubkey.GetID())] *)
  GetScriptForDestination : CPubKey -> CScript;
  (** [CMerchantnodePing()] and [operator==] on pings *)
  CMerchantnodePing_default : CMerchantnodePing;
  CMerchantnodePing_eq : CMerchantnodePing -> CMerchantnodePing -> bool;
  (** [GetHash()] of the two messages *)
  CMerchantnodeBroadcast_GetHash : CMerchantnodeBroadcast -> uint256;
  CMerchantnodePing_GetHash : CMerchantnodePing -> uint256
}.

(** Read-only inputs of one call. *)
Record Env := {
  ShutdownRequested : bool;
  GetTime : Z;
  GetAdjustedTime : Z;
  (** whether [TRY_LOCK(cs_main, lockMain)] obtains the lock *)
  lockMain : bool;
  (** the unspent outputs [GetUTXOCoin] finds *)
  pcoinsTip : gmap COutPoint Coin;
  (** [chainActive.Height()] and [chainActive[h]] (a null pointer is [None]) *)
  chainActive_Height : Z;
  chainActive : Z -> option CBlockIndex;
  (** [mapBlockIndex]: block hash to a (possibly null) [CBlockIndex*] *)
  mapBlockIndex : gmap Z (option CBlockIndex);
  (** [GetTransaction(txid, tx, ..., hashBlock, true)] *)
  GetTransaction : uint256 -> option (CTransaction * uint256);
  (** [merchantnodeman.size()], [merchantnodeman.IsWatchdogActive()] *)
  merchantnodeman_size : Z;
  IsWatchdogActive : bool;
  (** [merchantnodeSync] *)
  IsMerchantnodeListSynced : bool;
  IsSynced : bool;
  (** [fMerchantNode] and [activeMerchantnode] *)
  fMerchantNode : bool;
  activeMerchantnode_pubKeyMerchantnode : CPubKey;
  activeMerchantnode_outpoint : COutPoint
}.

(** Calls that leave this file, in the order they are made. *)
Inductive InvKind := MSG_MERCHANTNODE_ANNOUNCE | MSG_MERCHANTNODE_PING.

Inductive Event :=
| RelayInv (kind : InvKind) (h : uint256)
| BumpAssetLastTime (who : string)
| ManageState.

#[global] Instance InvKind_eq_dec : EqDecision InvKind.
Proof. solve_decision. Defined.

#[global] Instance Event_eq_dec : EqDecision Event.
Proof. solve_decision. Defined.

(** The registry's seen-message maps and the trace of outgoing calls (most
    recent first).  [activeMerchantnode.ManageState] is recorded as an
    event; what it does to the active node is outside this file. *)
Record Node := {
  mapSeenMerchantnodeBroadcast : gmap Z (Z * CMerchantnodeBroadcast);
  mapSeenMerchantnodePing : gmap Z CMerchantnodePing;
  trace : list Event
}.

Definition emit (ev : Event) (st : Node) : Node :=
  {| mapSeenMerchantnodeBroadcast := mapSeenMerchantnodeBroadcast st;
     mapSeenMerchantnodePing := mapSeenMerchantnodePing st;
     trace := ev :: trace st |}.

Definition set_mapSeenMerchantnodeBroadcast
  (m : gmap Z (Z * CMerchantnodeBroadcast)) (st : Node) : Node :=
  {| mapSeenMerchantnodeBroadcast := m;
     mapSeenMerchantnodePing := mapSeenMerchantnodePing st;
     trace := trace st |}.

Definition set_mapSeenMerchantnodePing
  (m : gmap Z CMerchantnodePing) (st : Node) : Node :=
  {| mapSeenMerchantnodeBroadcast := mapSeenMerchantnodeBroadcast st;
     mapSeenMerchantnodePing := m;
     trace := trace st |}.

(** The inventory items relayed so far. *)
Definition relayed (st : Node) : list (InvKind * uint256) :=
  omap (fun ev => match ev with RelayInv k h => Some (k, h) | _ => None end)
       (trace st).

Section Merchantnode.
Context `{Header}.

(** ** Inline helpers of the record *)

(** Modelled from the spec: [IsOutpointSpent] is an inline member of the
    absent [merchantnode.h]; the record's lifecycleState is OUTPOINT_SPENT. *)
Definition IsOutpointSpent (mn : CMerchantnode) : bool :=
  bool_decide (nActiveState mn = MERCHANTNODE_OUTPOINT_SPENT).

(** Modelled from the spec: [IsPoSeBanned] is an inline member of the absent
    [merchantnode.h]; the record is currently PoSe-banned. *)
Definition IsPoSeBanned (mn : CMerchantnode) : bool :=
  bool_decide (nActiveState mn = MERCHANTNODE_POSE_BAN).

(** Modelled from the spec: [IsEnabled] is an inline member of the absent
    [merchantnode.h]; the state is ENABLED. *)
Definition IsEnabled (mn : CMerchantnode) : bool :=
  bool_decide (nActiveState mn = MERCHANTNODE_ENABLED).

(** Modelled from the spec: [IsExpired] is an inline member of the absent
    [merchantnode.h]; the state is EXPIRED. *)
Definition IsExpired (mn : CMerchantnode) : bool :=
  bool_decide (nActiveState mn = MERCHANTNODE_EXPIRED).

(** Modelled from the spec: [IsWatchdogExpired] is an inline member of the
    absent [merchantnode.h]; the state is WATCHDOG_EXPIRED. *)
Definition IsWatchdogExpired (mn : CMerchantnode) : bool :=
  bool_decide (nActiveState mn = MERCHANTNODE_WATCHDOG_EXPIRED).

(** Modelled from the spec: [IsNewStartRequired] is an inline member of the
    absent [merchantnode.h]; the state is NEW_START_REQUIRED (the record
    requires a full restart). *)
Definition IsNewStartRequired (mn : CMerchantnode) : bool :=
  bool_decide (nActiveState mn = MERCHANTNODE_NEW_START_REQUIRED).

(** Modelled from the spec: [IsUpdateRequired] is an inline member of the
    absent [merchantnode.h]; the state is UPDATE_REQUIRED (the record requires
    a protocol update). *)
Definition IsUpdateRequired (mn : CMerchantnode) : bool :=
  bool_decide (nActiveState mn = MERCHANTNODE_UPDATE_REQUIRED).

(** Modelled from the spec: [IsPingedWithin(nSeconds, nTimeToCheckAt = -1)] is
    an inline member of the absent [merchantnode.h]; a record with the empty
    ("never") heartbeat was not pinged, otherwise the heartbeat's timestamp
    is less than [nSeconds] before the time checked at.  The time checked at
    is an [int64_t] whose value [-1] stands for the adjusted time: that is
    the default of the callers that give none, and a caller that passes
    [-1] is read the same way.  The difference is taken on [int64_t]. *)
Definition IsPingedWithin (e : Env) (mn : CMerchantnode) (nSeconds : Z)
    (nTimeToCheckAt : Z) : bool :=
  if CMerchantnodePing_eq (lastPing mn) CMerchantnodePing_default then false
  else
    let nTimeToCheckAt :=
      if bool_decide (nTimeToCheckAt = -1) then GetAdjustedTime e
      else nTimeToCheckAt in
    bool_decide (int64_sub nTimeToCheckAt (ping_sigTime (lastPing mn)) < nSeconds).

(** Modelled from the spec: [IsBroadcastedWithin(nSeconds)] is an inline
    member of the absent [merchantnode.h]; the record's own announcement
    timestamp is less than [nSeconds] before the adjusted time. *)
Definition IsBroadcastedWithin (e : Env) (mn : CMerchantnode) (nSeconds : Z) : bool :=
  bool_decide (GetAdjustedTime e - sigTime mn < nSeconds).

(** Modelled from the spec: [DecreasePoSeBanScore] is an inline member of the
    absent [merchantnode.h]; the ban score decays downward by one and is
    clamped at minus the ban maximum. *)
Definition DecreasePoSeBanScore (mn : CMerchantnode) : CMerchantnode :=
  if bool_decide (nPoSeBanScore mn > - MERCHANTNODE_POSE_BAN_MAX_SCORE)
  then set_nPoSeBanScore (nPoSeBanScore mn - 1) mn
  else mn.

(** ** [CMerchantnode::CheckCollateral] *)

(** [GetUTXOCoin(outpoint, coin)]: the unspent output at [outpoint], if any. *)
Definition GetUTXOCoin (e : Env) (outpoint : COutPoint) : option Coin :=
  pcoinsTip e !! outpoint.

(** The two-argument overload.  [nHeightRet] is the caller's variable: it is
    returned as it was unless the status is [COLLATERAL_OK]. *)
Definition CheckCollateral (e : Env) (outpoint : COutPoint) (nHeightRet : Z)
    : CollateralStatus * Z :=
  match GetUTXOCoin e outpoint with
  | None => (COLLATERAL_UTXO_NOT_FOUND, nHeightRet)
  | Some coin =>
      if bool_decide (nValue (out coin) ≠ 1000 * COIN)
      then (COLLATERAL_INVALID_AMOUNT, nHeightRet)
      else (COLLATERAL_OK, nHeight coin)
  end.

(** The one-argument overload: a local [nHeight], dropped on return. *)
Definition CheckCollateral1 (e : Env) (outpoint : COutPoint) : CollateralStatus :=
  (CheckCollateral e outpoint 0).1.

(** ** [CMerchantnode::Check] *)

(** Lines 151-239: from the PoSe-ban test on, with the height [nHeight]
    the first part has worked out. *)
Definition Check_states (e : Env) (nHeight : Z) (mn : CMerchantnode) : CMerchantnode :=
  let after_ban (mn : CMerchantnode) : CMerchantnode :=
    let fOurMasternode :=
      fMerchantNode e &&
      bool_decide (activeMerchantnode_pubKeyMerchantnode e = pubKeyMerchantnode mn) in
    let fRequireUpdate :=
      fOurMasternode && bool_decide (nProtocolVersion mn < PROTOCOL_VERSION) in
    if fRequireUpdate then set_nActiveState MERCHANTNODE_UPDATE_REQUIRED mn
    else
      let fWaitForPing :=
        negb (IsMerchantnodeListSynced e) &&
        negb (IsPingedWithin e mn MERCHANTNODE_MIN_MNP_SECONDS (-1)) in
      if fWaitForPing && negb fOurMasternode &&
         (IsExpired mn || IsWatchdogExpired mn || IsNewStartRequired mn)
      then mn
      else
        let last :=
          if bool_decide (int64_sub (ping_sigTime (lastPing mn)) (sigTime mn)
                          < MERCHANTNODE_MIN_MNP_SECONDS)
          then set_nActiveState MERCHANTNODE_PRE_ENABLED mn
          else set_nActiveState MERCHANTNODE_ENABLED mn in
        if negb fWaitForPing || fOurMasternode then
          if negb (IsPingedWithin e mn MERCHANTNODE_NEW_START_REQUIRED_SECONDS (-1))
          then set_nActiveState MERCHANTNODE_NEW_START_REQUIRED mn
          else
            let fWatchdogActive := IsSynced e && IsWatchdogActive e in
            let fWatchdogExpired :=
              fWatchdogActive &&
              bool_decide (GetAdjustedTime e - nTimeLastWatchdogVote mn
                           > MERCHANTNODE_WATCHDOG_MAX_SECONDS) in
            if fWatchdogExpired
            then set_nActiveState MERCHANTNODE_WATCHDOG_EXPIRED mn
            else if negb (IsPingedWithin e mn MERCHANTNODE_EXPIRATION_SECONDS (-1))
            then set_nActiveState MERCHANTNODE_EXPIRED mn
            else last
        else last in
  if IsPoSeBanned mn then
    if bool_decide (nHeight < nPoSeBanHeight mn) then mn
    else after_ban (DecreasePoSeBanScore mn)
  else if bool_decide (nPoSeBanScore mn >= MERCHANTNODE_POSE_BAN_MAX_SCORE) then
    set_nPoSeBanHeight (nHeight + merchantnodeman_size e)
      (set_nActiveState MERCHANTNODE_POSE_BAN mn)
  else after_ban mn.

(** [Check(fForce)], lines 122-149, continuing with [Check_states]. *)
Definition Check (e : Env) (fForce : bool) (mn : CMerchantnode) : CMerchantnode :=
  if ShutdownRequested e then mn
  else if negb fForce &&
          bool_decide (GetTime e - nTimeLastChecked mn < MERCHANTNODE_CHECK_SECONDS)
  then mn
  else
    let mn := set_nTimeLastChecked (GetTime e) mn in
    if IsOutpointSpent mn then mn
    else if fUnitTest mn then Check_states e 0 mn
    else if negb (lockMain e) then mn
    else if bool_decide (CheckCollateral1 e (prevout (vin mn)) = COLLATERAL_UTXO_NOT_FOUND)
    then set_nActiveState MERCHANTNODE_OUTPOINT_SPENT mn
    else Check_states e (chainActive_Height e) mn.

(** ** [CMerchantnodePing] *)

(** [boost::lexical_cast<std::string>] of an integer: its decimal digits. *)
Definition lexical_cast (z : Z) : string := pretty z.

(** [CMerchantnodePing::SimpleCheck(nDos)]: the result and [nDos]. *)
Definition CMerchantnodePing_SimpleCheck (e : Env) (mnp : CMerchantnodePing)
    : bool * Z :=
  if bool_decide (ping_sigTime mnp > GetAdjustedTime e + 60 * 60) then (false, 1)
  else match mapBlockIndex e !! ping_blockHash mnp with
       | None => (false, 0)
       | Some _ => (true, 0)
       end.

(** [CMerchantnodePing::CheckSignature(pubKeyMasternode, nDos)]. *)
Definition CMerchantnodePing_CheckSignature (mnp : CMerchantnodePing)
    (pubKeyMasternode : CPubKey) : bool * Z :=
  let strMessage :=
    CTxIn_ToString (ping_vin mnp) +:+ uint256_ToString (ping_blockHash mnp)
    +:+ lexical_cast (ping_sigTime mnp) in
  if negb (VerifyMessage pubKeyMasternode (ping_vchSig mnp) strMessage)
  then (false, 33)
  else (true, 0).

(** [CMerchantnodePing::Relay] and [CMerchantnodeBroadcast::Relay]: nothing
    is relayed until the node is fully synced. *)
Definition Relay (e : Env) (kind : InvKind) (h : uint256) (st : Node) : Node :=
  if negb (IsSynced e) then st else emit (RelayInv kind h) st.

(** Modelled from the spec: the converting constructor
    [CMerchantnodeBroadcast(const CMerchantnode&)] of the absent
    [merchantnode.h]; the announcement carries the record's fields, and the
    recovery flag is unset unless a node re-announces itself. *)
Definition CMerchantnodeBroadcast_of (mn : CMerchantnode) : CMerchantnodeBroadcast :=
  {| mnb_base := mn; fRecovery := false |}.

(** [CheckAndUpdate], lines 709-773: the target record exists. *)
Definition CheckAndUpdate_found (e : Env) (mnp : CMerchantnodePing)
    (mn : CMerchantnode) (fFromNewBroadcast : bool) (nDos : Z) (st : Node)
    : bool * Z * CMerchantnode * Node :=
  if negb fFromNewBroadcast && IsUpdateRequired mn then (false, nDos, mn, st)
  else if negb fFromNewBroadcast && IsNewStartRequired mn then (false, nDos, mn, st)
  else if match mapBlockIndex e !! ping_blockHash mnp with
          | Some (Some pindex) =>
              bool_decide (bi_nHeight pindex < chainActive_Height e - 24)
          | _ => false
          end
  then (false, nDos, mn, st)
  else if IsPingedWithin e mn (MERCHANTNODE_MIN_MNP_SECONDS - 60) (ping_sigTime mnp)
  then (false, nDos, mn, st)
  else
    let '(fSig, nDos) := CMerchantnodePing_CheckSignature mnp (pubKeyMerchantnode mn) in
    if negb fSig then (false, nDos, mn, st)
    else
      let st :=
        if negb (IsMerchantnodeListSynced e) &&
           negb (IsPingedWithin e mn (MERCHANTNODE_EXPIRATION_SECONDS `quot` 2) (-1))
        then emit (BumpAssetLastTime "CMerchantnodePing::CheckAndUpdate") st
        else st in
      let mn := set_lastPing mnp mn in
      let h := CMerchantnodeBroadcast_GetHash (CMerchantnodeBroadcast_of mn) in
      let st :=
        match mapSeenMerchantnodeBroadcast st !! h with
        | Some (t, mnb) =>
            set_mapSeenMerchantnodeBroadcast
              (<[h := (t, {| mnb_base := set_lastPing mnp (mnb_base mnb);
                             fRecovery := fRecovery mnb |})]>
                 (mapSeenMerchantnodeBroadcast st)) st
        | None => st
        end in
      let mn := Check e true mn in
      if negb (IsEnabled mn) && negb (IsExpired mn) && negb (IsWatchdogExpired mn)
      then (false, nDos, mn, st)
      else (true, nDos, mn,
            Relay e MSG_MERCHANTNODE_PING (CMerchantnodePing_GetHash mnp) st).

(** [CMerchantnodePing::CheckAndUpdate(pmn, fFromNewBroadcast, nDos, connman)];
    [pmn] is [None] for a null pointer.  The lookup of line 723 repeats the
    one [SimpleCheck] has just made with success. *)
Definition CheckAndUpdate (e : Env) (mnp : CMerchantnodePing)
    (pmn : option CMerchantnode) (fFromNewBroadcast : bool) (st : Node)
    : bool * Z * option CMerchantnode * Node :=
  let '(fSimple, nDos) := CMerchantnodePing_SimpleCheck e mnp in
  if negb fSimple then (false, nDos, pmn, st)
  else match pmn with
       | None => (false, nDos, None, st)
       | Some mn =>
           let '(r, nDos, mn, st) :=
             CheckAndUpdate_found e mnp mn fFromNewBroadcast nDos st in
           (r, nDos, Some mn, st)
       end.

(** ** [CMerchantnode::UpdateFromNewBroadcast] *)

(** [std::map::insert]: an existing entry is kept. *)
Definition map_insert_new `{Countable K} {V} (k : K) (v : V) (m : gmap K V)
    : gmap K V :=
  match m !! k with
  | Some _ => m
  | None => <[k := v]> m
  end.

(** Lines 57-64: the fields taken from the announcement. *)
Definition take_fields (mnb : CMerchantnodeBroadcast) (r : CMerchantnode)
    : CMerchantnode :=
  {| nActiveState := nActiveState r;
     nProtocolVersion := nProtocolVersion mnb;
     sigTime := sigTime mnb; vin := vin r; addr := addr mnb;
     pubKeyCollateralAddress := pubKeyCollateralAddress r;
     pubKeyMerchantnode := pubKeyMerchantnode mnb;
     nTimeLastWatchdogVote := nTimeLastWatchdogVote r;
     nTimeLastChecked := 0; lastPing := lastPing r;
     vchSig := vchSig mnb;
     nCollateralMinConfBlockHash := nCollateralMinConfBlockHash r;
     nBlockLastPaid := nBlockLastPaid r; nPoSeBanScore := 0;
     nPoSeBanHeight := 0; fUnitTest := fUnitTest r |}.

(** [UpdateFromNewBroadcast(mnb, connman)] on the record [mn].  The ping's
    [operator!=] is the negation of its [operator==], so the second disjunct
    of line 66 is the call of [CheckAndUpdate]. *)
Definition UpdateFromNewBroadcast (e : Env) (mn : CMerchantnode)
    (mnb : CMerchantnodeBroadcast) (st : Node) : bool * CMerchantnode * Node :=
  if bool_decide (sigTime mnb <= sigTime mn) && negb (fRecovery mnb)
  then (false, mn, st)
  else
    let mn := take_fields mnb mn in
    let '(fPing, mn, st) :=
      if CMerchantnodePing_eq (lastPing mnb) CMerchantnodePing_default
      then (true, mn, st)
      else
        let '(r, _, pmn, st) := CheckAndUpdate e (lastPing mnb) (Some mn) true st in
        (r, default mn pmn, st) in
    let '(mn, st) :=
      if fPing
      then
        let mn := set_lastPing (lastPing mnb) mn in
        (mn, set_mapSeenMerchantnodePing
               (map_insert_new (CMerchantnodePing_GetHash (lastPing mn)) (lastPing mn)
                               (mapSeenMerchantnodePing st)) st)
      else (mn, st) in
    if fMerchantNode e &&
       bool_decide (pubKeyMerchantnode mn = activeMerchantnode_pubKeyMerchantnode e)
    then
      let mn := set_nPoSeBanScore (- MERCHANTNODE_POSE_BAN_MAX_SCORE) mn in
      if bool_decide (nProtocolVersion mn = PROTOCOL_VERSION)
      then (true, mn, emit ManageState st)
      else (false, mn, st)
    else (true, mn, st).

(** ** [CMerchantnodeBroadcast] *)

(** [CMerchantnodeBroadcast::CheckSignature(nDos)]. *)
Definition CMerchantnodeBroadcast_CheckSignature (mnb : CMerchantnodeBroadcast)
    : bool * Z :=
  let strMessage :=
    CService_ToString (addr mnb) +:+ lexical_cast (sigTime mnb)
    +:+ CKeyID_ToString (pubKeyCollateralAddress mnb)
    +:+ CKeyID_ToString (pubKeyMerchantnode mnb)
    +:+ lexical_cast (nProtocolVersion mnb) in
  if negb (VerifyMessage (pubKeyCollateralAddress mnb) (vchSig mnb) strMessage)
  then (false, 100)
  else (true, 0).

(** [CMerchantnodeBroadcast::Update(pmn, nDos, connman)]: the result, [nDos],
    the record and the node afterwards.  [pmn->Check()] is the unforced
    check. *)
Definition Update (e : Env) (mnb : CMerchantnodeBroadcast) (pmn : CMerchantnode)
    (st : Node) : bool * Z * CMerchantnode * Node :=
  let nDos := 0 in
  if bool_decide (sigTime pmn = sigTime mnb) && negb (fRecovery mnb)
  then (false, nDos, pmn, st)
  else if bool_decide (sigTime pmn > sigTime mnb) then (false, nDos, pmn, st)
  else
    let pmn := Check e false pmn in
    if IsPoSeBanned pmn then (false, nDos, pmn, st)
    else if bool_decide (pubKeyCollateralAddress pmn ≠ pubKeyCollateralAddress mnb)
    then (false, 33, pmn, st)
    else
      let '(fSig, nDos) := CMerchantnodeBroadcast_CheckSignature mnb in
      if negb fSig then (false, nDos, pmn, st)
      else if negb (IsBroadcastedWithin e pmn MERCHANTNODE_MIN_MNB_SECONDS) ||
              (fMerchantNode e &&
               bool_decide (pubKeyMerchantnode mnb
                            = activeMerchantnode_pubKeyMerchantnode e))
      then
        let '(fUpdated, pmn, st) := UpdateFromNewBroadcast e pmn mnb st in
        let '(pmn, st) :=
          if fUpdated
          then (Check e false pmn,
                Relay e MSG_MERCHANTNODE_ANNOUNCE (CMerchantnodeBroadcast_GetHash mnb) st)
          else (pmn, st) in
        (true, nDos, pmn,
         emit (BumpAssetLastTime "CMerchantnodeBroadcast::Update") st)
      else (true, nDos, pmn, st).

(** [CMerchantnode::IsInputAssociatedWithPubkey]. *)
Definition IsInputAssociatedWithPubkey (e : Env) (mn : CMerchantnode) : bool :=
  let payee := GetScriptForDestination (pubKeyCollateralAddress mn) in
  match GetTransaction e (hash (prevout (vin mn))) with
  | Some (tx, _) =>
      existsb (fun o => bool_decide (nValue o = 1000 * COIN) &&
                        bool_decide (scriptPubKey o = payee))
              (vout tx)
  | None => false
  end.

Definition erase_seen (mnb : CMerchantnodeBroadcast) (st : Node) : Node :=
  set_mapSeenMerchantnodeBroadcast
    (delete (CMerchantnodeBroadcast_GetHash mnb) (mapSeenMerchantnodeBroadcast st)) st.

(** [CMerchantnodeBroadcast::CheckOutpoint(nDos)]: the result, [nDos], the
    announcement (whose [nCollateralMinConfBlockHash] is set on the way) and
    the node afterwards.  [nDos] comes in because the first return leaves
    it as the caller had it.  [None] is the dereference of a null
    [chainActive[h]], which the C++ does not guard. *)
Definition CheckOutpoint (e : Env) (mnb : CMerchantnodeBroadcast) (nDos : Z)
    (st : Node) : option (bool * Z * CMerchantnodeBroadcast * Node) :=
  if fMerchantNode e &&
     bool_decide (prevout (vin mnb) = activeMerchantnode_outpoint e) &&
     bool_decide (pubKeyMerchantnode mnb = activeMerchantnode_pubKeyMerchantnode e)
  then Some (false, nDos, mnb, st)
  else
    let '(fSig, nDos) := CMerchantnodeBroadcast_CheckSignature mnb in
    if negb fSig then Some (false, nDos, mnb, st)
    else if negb (lockMain e) then Some (false, nDos, mnb, erase_seen mnb st)
    else
      (* [int nHeight;] is read only after [COLLATERAL_OK] has set it *)
      let '(err, nHeight) := CheckCollateral e (prevout (vin mnb)) 0 in
      if bool_decide (err = COLLATERAL_UTXO_NOT_FOUND) then Some (false, nDos, mnb, st)
      else if bool_decide (err = COLLATERAL_INVALID_AMOUNT) then Some (false, nDos, mnb, st)
      else if bool_decide (chainActive_Height e - nHeight + 1
                           < nMasternodeMinimumConfirmations)
      then Some (false, nDos, mnb, erase_seen mnb st)
      else
        match chainActive e (nHeight + nMasternodeMinimumConfirmations - 1) with
        | None => None
        | Some pindex =>
            let mnb :=
              {| mnb_base := set_nCollateralMinConfBlockHash (GetBlockHash pindex)
                               (mnb_base mnb);
                 fRecovery := fRecovery mnb |} in
            if negb (IsInputAssociatedWithPubkey e mnb) then Some (false, 33, mnb, st)
            else
              let hashBlock :=
                match GetTransaction e (hash (prevout (vin mnb))) with
                | Some (_, hb) => hb
                | None => 0
                end in
              match mapBlockIndex e !! hashBlock with
              | Some (Some pMNIndex) =>
                  match chainActive e (bi_nHeight pMNIndex
                                       + nMasternodeMinimumConfirmations - 1) with
                  | None => None
                  | Some pConfIndex =>
                      if bool_decide (GetBlockTime pConfIndex > sigTime mnb)
                      then Some (false, nDos, mnb, st)
                      else Some (true, nDos, mnb, st)
                  end
              | _ => Some (true, nDos, mnb, st)
              end
        end.

End Merchantnode.

(** ** The other functions of the file *)

(** What they take from outside, beside [Header] and [Env]: the network the
    node runs on and its name constants ([chainparamsbase.h]), the address
    predicates of [netbase.h]/[net.h], and [CMessageSigner::SignMessage],
    which answers whether it signed and what it left in [vchSig]. *)
Class Platform := {
  NetworkIDString : string;
  CBaseChainParams_MAIN : string;
  CBaseChainParams_REGTEST : string;
  (** [Params(CBaseChainParams::MAIN).GetDefaultPort()] *)
  mainnetDefaultPort : Z;
  IsIPv4 : CService -> bool;
  IsReachable : CService -> bool;
  IsRoutable : CService -> bool;
  (** [SignMessage(strMessage, vchSig, key)], from the message, the
      signature buffer as it was, and the key *)
  SignMessage : string -> list Byte.byte -> list Byte.byte -> bool * list Byte.byte
}.

Definition set_sigTime (v : Z) (r : CMerchantnode) : CMerchantnode :=
  {| nActiveState := nActiveState r; nProtocolVersion := nProtocolVersion r;
     sigTime := v; vin := vin r; addr := addr r;
     pubKeyCollateralAddress := pubKeyCollateralAddress r;
     pubKeyMerchantnode := pubKeyMerchantnode r;
     nTimeLastWatchdogVote := nTimeLastWatchdogVote r;
     nTimeLastChecked := nTimeLastChecked r; lastPing := lastPing r;
     vchSig := vchSig r;
     nCollateralMinConfBlockHash := nCollateralMinConfBlockHash r;
     nBlockLastPaid := nBlockLastPaid r; nPoSeBanScore := nPoSeBanScore r;
     nPoSeBanHeight := nPoSeBanHeight r; fUnitTest := fUnitTest r |}.

Definition set_vchSig (v : list Byte.byte) (r : CMerchantnode) : CMerchantnode :=
  {| nActiveState := nActiveState r; nProtocolVersion := nProtocolVersion r;
     sigTime := sigTime r; vin := vin r; addr := addr r;
     pubKeyCollateralAddress := pubKeyCollateralAddress r;
     pubKeyMerchantnode := pubKeyMerchantnode r;
     nTimeLastWatchdogVote := nTimeLastWatchdogVote r;
     nTimeLastChecked := nTimeLastChecked r; lastPing := lastPing r;
     vchSig := v;
     nCollateralMinConfBlockHash := nCollateralMinConfBlockHash r;
     nBlockLastPaid := nBlockLastPaid r; nPoSeBanScore := nPoSeBanScore r;
     nPoSeBanHeight := nPoSeBanHeight r; fUnitTest := fUnitTest r |}.

Definition set_nTimeLastWatchdogVote (v : Z) (r : CMerchantnode) : CMerchantnode :=
  {| nActiveState := nActiveState r; nProtocolVersion := nProtocolVersion r;
     sigTime := sigTime r; vin := vin r; addr := addr r;
     pubKeyCollateralAddress := pubKeyCollateralAddress r;
     pubKeyMerchantnode := pubKeyMerchantnode r;
     nTimeLastWatchdogVote := v;
     nTimeLastChecked := nTimeLastChecked r; lastPing := lastPing r;
     vchSig := vchSig r;
     nCollateralMinConfBlockHash := nCollateralMinConfBlockHash r;
     nBlockLastPaid := nBlockLastPaid r; nPoSeBanScore := nPoSeBanScore r;
     nPoSeBanHeight := nPoSeBanHeight r; fUnitTest := fUnitTest r |}.

(** An assignment to a member the announcement inherits. *)
Definition on_base (f : CMerchantnode -> CMerchantnode)
    (mnb : CMerchantnodeBroadcast) : CMerchantnodeBroadcast :=
  {| mnb_base := f (mnb_base mnb); fRecovery := fRecovery mnb |}.

Definition set_ping_sigTime (v : Z) (p : CMerchantnodePing) : CMerchantnodePing :=
  {| ping_vin := ping_vin p; ping_blockHash := ping_blockHash p;
     ping_sigTime := v; ping_vchSig := ping_vchSig p |}.

Definition set_ping_vchSig (v : list Byte.byte) (p : CMerchantnodePing)
    : CMerchantnodePing :=
  {| ping_vin := ping_vin p; ping_blockHash := ping_blockHash p;
     ping_sigTime := ping_sigTime p; ping_vchSig := v |}.

(** The value an [int64_t] takes from a [uint64_t] (two's complement). *)
Definition int64_of_uint64 (v : Z) : Z :=
  let u := v mod 2 ^ 64 in
  if bool_decide (u < 2 ^ 63) then u else u - 2 ^ 64.

(** [CMerchantnode::StateToString(nStateIn)]; [None] is an integer that is
    none of the enumerators. *)
Definition StateToString (nStateIn : option state) : string :=
  match nStateIn with
  | Some MERCHANTNODE_PRE_ENABLED => "PRE_ENABLED"
  | Some MERCHANTNODE_ENABLED => "ENABLED"
  | Some MERCHANTNODE_EXPIRED => "EXPIRED"
  | Some MERCHANTNODE_OUTPOINT_SPENT => "OUTPOINT_SPENT"
  | Some MERCHANTNODE_UPDATE_REQUIRED => "UPDATE_REQUIRED"
  | Some MERCHANTNODE_WATCHDOG_EXPIRED => "WATCHDOG_EXPIRED"
  | Some MERCHANTNODE_NEW_START_REQUIRED => "NEW_START_REQUIRED"
  | Some MERCHANTNODE_POSE_BAN => "POSE_BAN"
  | None => "UNKNOWN"
  end.

(** [CMerchantnode::GetStateString] and [CMerchantnode::GetStatus]. *)
Definition GetStateString (mn : CMerchantnode) : string :=
  StateToString (Some (nActiveState mn)).

Definition GetStatus (mn : CMerchantnode) : string := GetStateString mn.

(** [CMerchantnode::UpdateWatchdogVoteTime(nVoteTime)]: [nVoteTime] is a
    [uint64_t], so the conditional is evaluated at that type and converted
    back on assignment. *)
Definition UpdateWatchdogVoteTime (e : Env) (nVoteTime : Z) (mn : CMerchantnode)
    : CMerchantnode :=
  set_nTimeLastWatchdogVote
    (int64_of_uint64
       (if bool_decide (nVoteTime = 0) then GetAdjustedTime e else nVoteTime))
    mn.

Section MerchantnodeRest.
Context `{Header} `{Platform}.

(** [CMerchantnode::IsValidNetAddr(addrIn)]. *)
Definition IsValidNetAddr (addrIn : CService) : bool :=
  bool_decide (NetworkIDString = CBaseChainParams_REGTEST) ||
  (IsIPv4 addrIn && IsReachable addrIn && IsRoutable addrIn).

(** [CMerchantnodeBroadcast::SimpleCheck(nDos)]: the result, [nDos] and the
    announcement, whose state the empty or failing ping sets to EXPIRED.
    The ping's [SimpleCheck] writes the same [nDos]. *)
Definition CMerchantnodeBroadcast_SimpleCheck (e : Env)
    (mnb : CMerchantnodeBroadcast) : bool * Z * CMerchantnodeBroadcast :=
  let nDos := 0 in
  if negb (IsValidNetAddr (addr mnb)) then (false, nDos, mnb)
  else if bool_decide (sigTime mnb > GetAdjustedTime e + 60 * 60)
  then (false, 1, mnb)
  else
    let '(mnb, nDos) :=
      if CMerchantnodePing_eq (lastPing mnb) CMerchantnodePing_default
      then (on_base (set_nActiveState MERCHANTNODE_EXPIRED) mnb, nDos)
      else
        let '(fPing, nDos) := CMerchantnodePing_SimpleCheck e (lastPing mnb) in
        if negb fPing
        then (on_base (set_nActiveState MERCHANTNODE_EXPIRED) mnb, nDos)
        else (mnb, nDos) in
    if bool_decide (nProtocolVersion mnb < PROTOCOL_VERSION)
    then (false, nDos, mnb)
    else if bool_decide
              (Z.of_nat (length (GetScriptForDestination (pubKeyCollateralAddress mnb)))
               ≠ 25)
    then (false, 100, mnb)
    else if bool_decide
              (Z.of_nat (length (GetScriptForDestination (pubKeyMerchantnode mnb)))
               ≠ 25)
    then (false, 100, mnb)
    else if negb (bool_decide (scriptSig (vin mnb) = []))
    then (false, 100, mnb)
    else if bool_decide (NetworkIDString = CBaseChainParams_MAIN)
    then if bool_decide (port (addr mnb) ≠ mainnetDefaultPort)
         then (false, nDos, mnb)
         else (true, nDos, mnb)
    else if bool_decide (port (addr mnb) = mainnetDefaultPort)
    then (false, nDos, mnb)
    else (true, nDos, mnb).

(** [CMerchantnodeBroadcast::Sign(keyCollateralAddress)]: the result and the
    announcement with its new [sigTime] and signature buffer. *)
Definition CMerchantnodeBroadcast_Sign (e : Env) (mnb : CMerchantnodeBroadcast)
    (keyCollateralAddress : list Byte.byte) : bool * CMerchantnodeBroadcast :=
  let mnb := on_base (set_sigTime (GetAdjustedTime e)) mnb in
  let strMessage :=
    CService_ToString (addr mnb) +:+ lexical_cast (sigTime mnb)
    +:+ CKeyID_ToString (pubKeyCollateralAddress mnb)
    +:+ CKeyID_ToString (pubKeyMerchantnode mnb)
    +:+ lexical_cast (nProtocolVersion mnb) in
  let '(fSigned, sig) := SignMessage strMessage (vchSig mnb) keyCollateralAddress in
  let mnb := on_base (set_vchSig sig) mnb in
  if negb fSigned then (false, mnb)
  else if negb (VerifyMessage (pubKeyCollateralAddress mnb) (vchSig mnb) strMessage)
  then (false, mnb)
  else (true, mnb).

(** [CMerchantnodePing::Sign(keyMasternode, pubKeyMasternode)]. *)
Definition CMerchantnodePing_Sign (e : Env) (mnp : CMerchantnodePing)
    (keyMasternode pubKeyMasternode : list Byte.byte) : bool * CMerchantnodePing :=
  let mnp := set_ping_sigTime (GetAdjustedTime e) mnp in
  let strMessage :=
    CTxIn_ToString (ping_vin mnp) +:+ uint256_ToString (ping_blockHash mnp)
    +:+ lexical_cast (ping_sigTime mnp) in
  let '(fSigned, sig) := SignMessage strMessage (ping_vchSig mnp) keyMasternode in
  let mnp := set_ping_vchSig sig mnp in
  if negb fSigned then (false, mnp)
  else if negb (VerifyMessage pubKeyMasternode (ping_vchSig mnp) strMessage)
  then (false, mnp)
  else (true, mnp).

(** [CMerchantnodePing::CMerchantnodePing(outpoint)].  Without a tip, or
    below height 12, the members keep their initial values, those of
    [CMerchantnodePing()]; otherwise the ping names the outpoint (with an
    empty unlock script), the block 12 below the tip and the adjusted time.
    [None] is the dereference of a null [chainActive[h]]. *)
Definition CMerchantnodePing_new (e : Env) (outpoint : COutPoint)
    : option CMerchantnodePing :=
  match chainActive e (chainActive_Height e) with
  | None => Some CMerchantnodePing_default
  | Some _ =>
      if bool_decide (chainActive_Height e < 12) then Some CMerchantnodePing_default
      else
        match chainActive e (chainActive_Height e - 12) with
        | None => None
        | Some pindex =>
            Some {| ping_vin := {| prevout := outpoint; scriptSig := [] |};
                    ping_blockHash := GetBlockHash pindex;
                    ping_sigTime := GetAdjustedTime e;
                    ping_vchSig := ping_vchSig CMerchantnodePing_default |}
        end
  end.

End MerchantnodeRest.

(** ** A concrete header and concrete inputs

    Used by the examples, witnesses and counterexamples below: the Dash
    values of the constants, a toy signature scheme in which the signature
    of a message under a key is the key itself, and sums for hashes. *)

Definition null_ping : CMerchantnodePing :=
  {| ping_vin := {| prevout := {| hash := 0; n := 4294967295 |}; scriptSig := [] |};
     ping_blockHash := 0; ping_sigTime := 0; ping_vchSig := [] |}.

Definition example_header : Header :=
  {| MERCHANTNODE_CHECK_SECONDS := 5;
     MERCHANTNODE_MIN_MNB_SECONDS := 5 * 60;
     MERCHANTNODE_MIN_MNP_SECONDS := 10 * 60;
     MERCHANTNODE_EXPIRATION_SECONDS := 65 * 60;
     MERCHANTNODE_WATCHDOG_MAX_SECONDS := 120 * 60;
     MERCHANTNODE_NEW_START_REQUIRED_SECONDS := 180 * 60;
     MERCHANTNODE_POSE_BAN_MAX_SCORE := 5;
     PROTOCOL_VERSION := 70208;
     COIN := 100000000;
     nMasternodeMinimumConfirmations := 15;
     VerifyMessage := fun pk sig _ => bool_decide (sig = pk);
     CService_ToString := fun a => pretty (ip a) +:+ ":" +:+ pretty (port a);
     CKeyID_ToString := fun pk => pretty (Z.of_nat (length pk));
     CTxIn_ToString := fun i => pretty (hash (prevout i)) +:+ "-" +:+ pretty (n (prevout i));
     uint256_ToString := fun h => pretty h;
     GetScriptForDestination := fun pk => pk;
     CMerchantnodePing_default := null_ping;
     CMerchantnodePing_eq := fun a b =>
       bool_decide (ping_vin a = ping_vin b) &&
       bool_decide (ping_blockHash a = ping_blockHash b);
     CMerchantnodeBroadcast_GetHash := fun mnb => hash (prevout (vin mnb)) + sigTime mnb;
     CMerchantnodePing_GetHash := fun mnp => ping_blockHash mnp + ping_sigTime mnp |}.

Definition ex_outpoint : COutPoint := {| hash := 77; n := 0 |}.
Definition ex_key_collateral : bytes := [x01; x02].
Definition ex_key_service : bytes := [x03; x04].

(** Block 900 of a chain whose tip is at height 1000, and block 990. *)
Definition ex_block_old : CBlockIndex :=
  {| bi_nHeight := 900; GetBlockHash := 9900; GetBlockTime := 90000 |}.
Definition ex_block_recent : CBlockIndex :=
  {| bi_nHeight := 990; GetBlockHash := 9990; GetBlockTime := 99000 |}.

(** The unspent output at [ex_outpoint]: [v] coins, confirmed at height 500. *)
Definition ex_coins (v : Z) : gmap COutPoint Coin :=
  {[ ex_outpoint := {| out := {| nValue := v * 100000000;
                                 scriptPubKey := ex_key_collateral |};
                       nHeight := 500 |} ]}.

(** A node at height [height] and time 100000 whose unspent outputs are
    [coins], fully synced or not at all; it is not a merchant node itself. *)
Definition ex_env_at (coins : gmap COutPoint Coin) (height : Z) (synced : bool)
    : Env :=
  {| ShutdownRequested := false;
     GetTime := 100000;
     GetAdjustedTime := 100000;
     lockMain := true;
     pcoinsTip := coins;
     chainActive_Height := height;
     chainActive := fun h =>
       if bool_decide (0 <= h <= height)
       then Some {| bi_nHeight := h; GetBlockHash := 9000 + h; GetBlockTime := 100 * h |}
       else None;
     mapBlockIndex := {[ 9900 := Some ex_block_old; 9990 := Some ex_block_recent ]};
     GetTransaction := fun _ => None;
     merchantnodeman_size := 40;
     IsWatchdogActive := false;
     IsMerchantnodeListSynced := synced;
     IsSynced := synced;
     fMerchantNode := false;
     activeMerchantnode_pubKeyMerchantnode := [];
     activeMerchantnode_outpoint := {| hash := 0; n := 4294967295 |} |}.

(** Synced, at height 1000, with the collateral in place and after it was
    spent. *)
Definition ex_env : Env := ex_env_at (ex_coins 1000) 1000 true.
Definition ex_env_spent : Env := ex_env_at ∅ 1000 true.

(** A ping for [ex_outpoint] naming the block with hash [bh], signed at [t]
    (validly, under the toy scheme, for [ex_key_service]). *)
Definition ex_ping (bh t : Z) : CMerchantnodePing :=
  {| ping_vin := {| prevout := ex_outpoint; scriptSig := [] |};
     ping_blockHash := bh; ping_sigTime := t; ping_vchSig := ex_key_service |}.

(** A record for [ex_outpoint], announced at [t], in state [s], with ban
    score [score], ban height [banHeight] and test-mode flag [test]; its
    last ping is from time 99900. *)
Definition ex_record (s : state) (t : Z) (score banHeight : Z) (test : bool)
    : CMerchantnode :=
  {| nActiveState := s;
     nProtocolVersion := 70208;
     sigTime := t;
     vin := {| prevout := ex_outpoint; scriptSig := [] |};
     addr := {| ip := 167772161%N; port := 9999 |};
     pubKeyCollateralAddress := ex_key_collateral;
     pubKeyMerchantnode := ex_key_service;
     nTimeLastWatchdogVote := t;
     nTimeLastChecked := 0;
     lastPing := ex_ping 9990 99900;
     vchSig := ex_key_collateral;
     nCollateralMinConfBlockHash := 9514;
     nBlockLastPaid := 0;
     nPoSeBanScore := score;
     nPoSeBanHeight := banHeight;
     fUnitTest := test |}.

(** An announcement for [ex_outpoint] signed at [t] with collateral key
    [pk]; [sig] is its signature (valid under the toy scheme when it is
    [pk]). *)
Definition ex_mnb (t : Z) (pk sig : list Byte.byte) (recovery : bool)
    : CMerchantnodeBroadcast :=
  {| mnb_base :=
       {| nActiveState := MERCHANTNODE_ENABLED;
          nProtocolVersion := 70208;
          sigTime := t;
          vin := {| prevout := ex_outpoint; scriptSig := [] |};
          addr := {| ip := 167772162%N; port := 9999 |};
          pubKeyCollateralAddress := pk;
          pubKeyMerchantnode := [x05; x06];
          nTimeLastWatchdogVote := t;
          nTimeLastChecked := 0;
          lastPing := null_ping;
          vchSig := sig;
          nCollateralMinConfBlockHash := 0;
          nBlockLastPaid := 0;
          nPoSeBanScore := 0;
          nPoSeBanHeight := 0;
          fUnitTest := false |};
     fRecovery := recovery |}.

Definition ex_node : Node :=
  {| mapSeenMerchantnodeBroadcast := ∅; mapSeenMerchantnodePing := ∅; trace := [] |}.

(** A platform for the examples: a test network, every IPv4 address
    reachable and routable, and the toy signature scheme of
    [example_header], in which signing leaves the key in the buffer. *)
Definition example_platform : Platform :=
  {| NetworkIDString := "test";
     CBaseChainParams_MAIN := "main";
     CBaseChainParams_REGTEST := "regtest";
     mainnetDefaultPort := 62583;
     IsIPv4 := fun a => bool_decide (ip a < 2 ^ 32)%N;
     IsReachable := fun _ => true;
     IsRoutable := fun _ => true;
     SignMessage := fun _ _ key => (true, key) |}.

(** The transaction that created the collateral of [ex_outpoint]. *)
Definition ex_collateral_tx : CTransaction :=
  {| vout := [ {| nValue := 5 * 100000000; scriptPubKey := ex_key_service |};
               {| nValue := 1000 * 100000000; scriptPubKey := ex_key_collateral |} ] |}.

(** The node of [ex_env] with more of its surroundings filled in: its block
    index also knows the block 12 below the tip, it can fetch the
    collateral transaction (from a block it has no index entry for), and it
    is, or is not, itself the merchant node with service key [x05; x06]. *)
Definition ex_env_full (local : bool) : Env :=
  {| ShutdownRequested := false;
     GetTime := 100000;
     GetAdjustedTime := 100000;
     lockMain := true;
     pcoinsTip := ex_coins 1000;
     chainActive_Height := 1000;
     chainActive := chainActive ex_env;
     mapBlockIndex :=
       {[ 9900 := Some ex_block_old; 9990 := Some ex_block_recent;
          9988 := Some {| bi_nHeight := 988; GetBlockHash := 9988;
                          GetBlockTime := 98800 |} ]};
     GetTransaction := fun _ => Some (ex_collateral_tx, 9500);
     merchantnodeman_size := 40;
     IsWatchdogActive := true;
     IsMerchantnodeListSynced := true;
     IsSynced := true;
     fMerchantNode := local;
     activeMerchantnode_pubKeyMerchantnode := [x05; x06];
     activeMerchantnode_outpoint := {| hash := 78; n := 0 |} |}.

(** An announcement for [ex_outpoint] with protocol version [proto], keys
    [pkC] and [pkM], signature [sig] and embedded ping [ping]. *)
Definition ex_mnb_full (t proto : Z) (pkC pkM sig : list Byte.byte)
    (ping : CMerchantnodePing) : CMerchantnodeBroadcast :=
  {| mnb_base :=
       {| nActiveState := MERCHANTNODE_ENABLED;
          nProtocolVersion := proto;
          sigTime := t;
          vin := {| prevout := ex_outpoint; scriptSig := [] |};
          addr := {| ip := 167772162%N; port := 9999 |};
          pubKeyCollateralAddress := pkC;
          pubKeyMerchantnode := pkM;
          nTimeLastWatchdogVote := t;
          nTimeLastChecked := 0;
          lastPing := ping;
          vchSig := sig;
          nCollateralMinConfBlockHash := 0;
          nBlockLastPaid := 0;
          nPoSeBanScore := 0;
          nPoSeBanHeight := 0;
          fUnitTest := false |};
     fRecovery := false |}.

(** A key whose script, under [example_header], is 25 bytes long. *)
Definition ex_key25 (b : Byte.byte) : list Byte.byte := repeat b 25.

(** The height [Check] works with: 0 in test mode (lines 136-149). *)
Definition Check_nHeight (e : Env) (mn : CMerchantnode) : Z :=
  if fUnitTest mn then 0 else chainActive_Height e.

(** The three states whose heartbeats are relayed (line 768). *)
Definition relay_state (s : state) : bool :=
  match s with
  | MERCHANTNODE_ENABLED | MERCHANTNODE_EXPIRED | MERCHANTNODE_WATCHDOG_EXPIRED => true
  | _ => false
  end.

(** Whether the key is the one this node operates with (the
    self-recognition test of lines 71 and 476). *)
Definition is_local (e : Env) (pk : list Byte.byte) : bool :=
  fMerchantNode e && bool_decide (pk = activeMerchantnode_pubKeyMerchantnode e).

(** The record carries the announcement's service key, timestamp,
    signature, protocol version and address (lines 57-61). *)
Definition announced (mnb : CMerchantnodeBroadcast) (r : CMerchantnode) : Prop :=
  pubKeyMerchantnode r = pubKeyMerchantnode mnb /\
  sigTime r = sigTime mnb /\
  vchSig r = vchSig mnb /\
  nProtocolVersion r = nProtocolVersion mnb /\
  addr r = addr mnb.



(** The members neither a ping nor an announcement ever writes. *)
Definition same_identity (r r' : CMerchantnode) : Prop :=
  vin r' = vin r /\
  pubKeyCollateralAddress r' = pubKeyCollateralAddress r /\
  nTimeLastWatchdogVote r' = nTimeLastWatchdogVote r /\
  nCollateralMinConfBlockHash r' = nCollateralMinConfBlockHash r /\
  nBlockLastPaid r' = nBlockLastPaid r /\
  fUnitTest r' = fUnitTest r.

(** Running [Check] once per entry of [calls], each with its own inputs. *)
Definition Check_many `{Header} (calls : list (Env * bool)) (mn : CMerchantnode)
    : CMerchantnode :=
  foldl (fun r c => Check c.1 c.2 r) mn calls.

Example ex_Check_enabled :
  nActiveState (@Check example_header ex_env true
                  (ex_record MERCHANTNODE_PRE_ENABLED 90000 0 0 false))
  = MERCHANTNODE_ENABLED.
Proof. vm_compute. reflexivity. Qed.

Example ex_Check_spent :
  nActiveState (@Check example_header ex_env_spent true
                  (ex_record MERCHANTNODE_ENABLED 90000 0 0 false))
  = MERCHANTNODE_OUTPOINT_SPENT.
Proof. vm_compute. reflexivity. Qed.

(** A last ping signed at the least [int64_t]: the differences with it
    wrap, the ping counts as recent and as late after the announcement, and
    the record is ENABLED. *)
Example ex_Check_ping_int64_min :
  nActiveState (@Check example_header ex_env true
                  (set_lastPing (ex_ping 9990 (- 2 ^ 63))
                     (ex_record MERCHANTNODE_PRE_ENABLED 90000 0 0 false)))
  = MERCHANTNODE_ENABLED.
Proof. vm_compute. reflexivity. Qed.

(** A ping signed at [-1], for an EXPIRED record with no ping so far on a
    node that is not synced: it is taken, and taken again when delivered
    again, because line 736 hands [IsPingedWithin] a time that reads as
    "now". *)
Example ex_ping_signed_at_minus_one :
  let e := ex_env_at (ex_coins 1000) 1000 false in
  let mn := set_lastPing null_ping (ex_record MERCHANTNODE_EXPIRED 90000 0 0 false) in
  let r1 := @CheckAndUpdate example_header e (ex_ping 9990 (-1)) (Some mn) false ex_node in
  let r2 := @CheckAndUpdate example_header e (ex_ping 9990 (-1)) r1.1.2 false r1.2 in
  r1.1.1.1 = true /\ r2.1.1.1 = true /\
  (lastPing <$> r2.1.2) = Some (ex_ping 9990 (-1)).
Proof. vm_compute. repeat split. Qed.

(** ** Properties *)

Section Properties.
Context `{Header}.

(** *** The collateral verifier *)

Lemma CheckCollateral_not_found e o h :
  GetUTXOCoin e o = None ->
  CheckCollateral e o h = (COLLATERAL_UTXO_NOT_FOUND, h).
Proof. intros Hc. unfold CheckCollateral. by rewrite Hc. Qed.

Lemma CheckCollateral_found e o h coin :
  GetUTXOCoin e o = Some coin ->
  CheckCollateral e o h =
    if bool_decide (nValue (out coin) = 1000 * COIN)
    then (COLLATERAL_OK, nHeight coin)
    else (COLLATERAL_INVALID_AMOUNT, h).
Proof.
  intros Hc. unfold CheckCollateral. rewrite Hc.
  repeat case_bool_decide; congruence.
Qed.

Lemma CheckCollateral1_not_found e o :
  CheckCollateral1 e o = COLLATERAL_UTXO_NOT_FOUND <-> GetUTXOCoin e o = None.
Proof.
  unfold CheckCollateral1, CheckCollateral.
  destruct (GetUTXOCoin e o) as [coin|]; simpl; [|done].
  case_bool_decide; simpl; split; congruence.
Qed.

(** C8: [CheckCollateral] answers NOT_FOUND when the chain state has no
    unspent output at the outpoint (the caller's height is left as it was),
    INVALID_AMOUNT when the output is there with a value other than the
    collateral amount [1000 * COIN], and otherwise OK together with the
    height of the block that confirmed the output. *)
Theorem C8_CheckCollateral_verdicts (e : Env) (o : COutPoint) (h : Z) :
  (GetUTXOCoin e o = None ->
   CheckCollateral e o h = (COLLATERAL_UTXO_NOT_FOUND, h)) /\
  (forall coin, GetUTXOCoin e o = Some coin ->
     nValue (out coin) <> 1000 * COIN ->
     CheckCollateral e o h = (COLLATERAL_INVALID_AMOUNT, h)) /\
  (forall coin, GetUTXOCoin e o = Some coin ->
     nValue (out coin) = 1000 * COIN ->
     CheckCollateral e o h = (COLLATERAL_OK, nHeight coin)).
Proof.
  split; [apply CheckCollateral_not_found|].
  split; intros coin Hc Hv; rewrite (CheckCollateral_found _ _ _ _ Hc);
    case_bool_decide; congruence.
Qed.

(** *** Signatures *)

(** C9: a failed verification of an announcement's signature makes the
    broadcast's [CheckSignature] return false with score 100; a failed
    verification of a ping's signature makes the ping's [CheckSignature]
    return false with score 33, which is the smaller of the two. *)
Theorem C9_bad_signature_scores :
  (forall mnb : CMerchantnodeBroadcast,
     VerifyMessage (pubKeyCollateralAddress mnb) (vchSig mnb)
       (CService_ToString (addr mnb) +:+ lexical_cast (sigTime mnb)
        +:+ CKeyID_ToString (pubKeyCollateralAddress mnb)
        +:+ CKeyID_ToString (pubKeyMerchantnode mnb)
        +:+ lexical_cast (nProtocolVersion mnb)) = false ->
     CMerchantnodeBroadcast_CheckSignature mnb = (false, 100)) /\
  (forall (mnp : CMerchantnodePing) (pubKeyMasternode : list Byte.byte),
     VerifyMessage pubKeyMasternode (ping_vchSig mnp)
       (CTxIn_ToString (ping_vin mnp) +:+ uint256_ToString (ping_blockHash mnp)
        +:+ lexical_cast (ping_sigTime mnp)) = false ->
     CMerchantnodePing_CheckSignature mnp pubKeyMasternode = (false, 33)) /\
  33 < 100.
Proof.
  split; [|split; [|lia]].
  - intros mnb Hv. unfold CMerchantnodeBroadcast_CheckSignature. by rewrite Hv.
  - intros mnp pk Hv. unfold CMerchantnodePing_CheckSignature. by rewrite Hv.
Qed.

(** *** [Check] *)

(** A spent record is returned as it is, or with the time of the check. *)
Lemma Check_spent e fForce mn :
  nActiveState mn = MERCHANTNODE_OUTPOINT_SPENT ->
  Check e fForce mn = mn \/
  Check e fForce mn = set_nTimeLastChecked (GetTime e) mn.
Proof.
  intros Hs. unfold Check.
  destruct (ShutdownRequested e); [by left|].
  destruct (negb fForce && _); [by left|].
  right. unfold IsOutpointSpent. simpl. by rewrite bool_decide_eq_true_2.
Qed.

Lemma Check_spent_state e fForce mn :
  nActiveState mn = MERCHANTNODE_OUTPOINT_SPENT ->
  nActiveState (Check e fForce mn) = MERCHANTNODE_OUTPOINT_SPENT.
Proof. intros Hs. by destruct (Check_spent e fForce mn Hs) as [-> | ->]. Qed.

Lemma Check_many_spent calls mn :
  nActiveState mn = MERCHANTNODE_OUTPOINT_SPENT ->
  nActiveState (Check_many calls mn) = MERCHANTNODE_OUTPOINT_SPENT.
Proof.
  revert mn. induction calls as [|[e f] calls IH]; intros mn Hs; [done|].
  apply IH. by apply Check_spent_state.
Qed.

(** When [Check] gets as far as the collateral verifier and the verifier
    finds nothing, the record is marked spent and nothing else is looked at. *)
Lemma Check_observes_spent e fForce mn :
  ShutdownRequested e = false ->
  fForce = true \/ MERCHANTNODE_CHECK_SECONDS <= GetTime e - nTimeLastChecked mn ->
  fUnitTest mn = false ->
  lockMain e = true ->
  GetUTXOCoin e (prevout (vin mn)) = None ->
  Check e fForce mn =
    set_nActiveState MERCHANTNODE_OUTPOINT_SPENT
      (set_nTimeLastChecked (GetTime e) mn).
Proof.
  intros Hsd Hrate Hut Hlock Hc. unfold Check. rewrite Hsd.
  assert (negb fForce &&
          bool_decide (GetTime e - nTimeLastChecked mn < MERCHANTNODE_CHECK_SECONDS)
          = false) as ->.
  { destruct Hrate as [-> | Hge]; [done|].
    rewrite bool_decide_eq_false_2; [by rewrite andb_false_r | lia]. }
  unfold IsOutpointSpent. simpl. rewrite Hut, Hlock. simpl.
  rewrite (bool_decide_eq_true_2 (CheckCollateral1 _ _ = _));
    [| by apply CheckCollateral1_not_found].
  case_bool_decide as Hs; [|done].
  rewrite <- Hs at 1. by destruct mn.
Qed.

(** C1: a record in OUTPOINT_SPENT stays in OUTPOINT_SPENT through any
    sequence of [Check] calls, whatever the force flag and the inputs of
    each call; and a [Check] outside test mode that reaches the collateral
    verifier (no shutdown, forced or outside the re-check window, chain lock
    obtained) and finds the outpoint absent or spent sets OUTPOINT_SPENT and
    returns, having changed only the state and the time of the check. *)
Theorem C1_outpoint_spent_absorbing :
  (forall (calls : list (Env * bool)) (mn : CMerchantnode),
     nActiveState mn = MERCHANTNODE_OUTPOINT_SPENT ->
     nActiveState (Check_many calls mn) = MERCHANTNODE_OUTPOINT_SPENT) /\
  (forall (e : Env) (fForce : bool) (mn : CMerchantnode),
     ShutdownRequested e = false ->
     fForce = true \/ MERCHANTNODE_CHECK_SECONDS <= GetTime e - nTimeLastChecked mn ->
     fUnitTest mn = false ->
     lockMain e = true ->
     CheckCollateral1 e (prevout (vin mn)) = COLLATERAL_UTXO_NOT_FOUND ->
     Check e fForce mn =
       set_nActiveState MERCHANTNODE_OUTPOINT_SPENT
         (set_nTimeLastChecked (GetTime e) mn)).
Proof.
  split; [apply Check_many_spent|].
  intros e fForce mn ? ? ? ? Hc. apply Check_observes_spent; try done.
  by apply CheckCollateral1_not_found.
Qed.

(** The re-check reaches the state tests when nothing stops it earlier. *)
Lemma Check_reaches_states e fForce mn :
  ShutdownRequested e = false ->
  fForce = true \/ MERCHANTNODE_CHECK_SECONDS <= GetTime e - nTimeLastChecked mn ->
  nActiveState mn <> MERCHANTNODE_OUTPOINT_SPENT ->
  (fUnitTest mn = false ->
   lockMain e = true /\ is_Some (GetUTXOCoin e (prevout (vin mn)))) ->
  Check e fForce mn =
    Check_states e (Check_nHeight e mn) (set_nTimeLastChecked (GetTime e) mn).
Proof.
  intros Hsd Hrate Hns Hcoll. unfold Check, Check_nHeight. rewrite Hsd.
  assert (negb fForce &&
          bool_decide (GetTime e - nTimeLastChecked mn < MERCHANTNODE_CHECK_SECONDS)
          = false) as ->.
  { destruct Hrate as [-> | Hge]; [done|].
    rewrite bool_decide_eq_false_2; [by rewrite andb_false_r | lia]. }
  unfold IsOutpointSpent. simpl. rewrite bool_decide_eq_false_2 by done.
  destruct (fUnitTest mn); [done|].
  destruct Hcoll as [-> [coin Hcoin]]; [done|]. simpl.
  rewrite bool_decide_eq_false_2; [done|].
  rewrite CheckCollateral1_not_found. congruence.
Qed.

Lemma Check_states_bans e h mn :
  nActiveState mn <> MERCHANTNODE_POSE_BAN ->
  MERCHANTNODE_POSE_BAN_MAX_SCORE <= nPoSeBanScore mn ->
  Check_states e h mn =
    set_nPoSeBanHeight (h + merchantnodeman_size e)
      (set_nActiveState MERCHANTNODE_POSE_BAN mn).
Proof.
  intros Hnb Hscore. unfold Check_states, IsPoSeBanned.
  rewrite bool_decide_eq_false_2 by done.
  rewrite bool_decide_eq_true_2 by lia. done.
Qed.

Lemma Check_states_banned_early e h mn :
  nActiveState mn = MERCHANTNODE_POSE_BAN ->
  h < nPoSeBanHeight mn ->
  Check_states e h mn = mn.
Proof.
  intros Hb Hh. unfold Check_states, IsPoSeBanned.
  rewrite bool_decide_eq_true_2 by done.
  rewrite bool_decide_eq_true_2 by done. done.
Qed.

(** A banned record below its ban height keeps everything but the time of
    the check, unless its collateral is found missing. *)
Lemma Check_banned_early e fForce mn :
  nActiveState mn = MERCHANTNODE_POSE_BAN ->
  Check_nHeight e mn < nPoSeBanHeight mn ->
  (fUnitTest mn = false -> lockMain e = true ->
   is_Some (GetUTXOCoin e (prevout (vin mn)))) ->
  Check e fForce mn = mn \/
  Check e fForce mn = set_nTimeLastChecked (GetTime e) mn.
Proof.
  intros Hb Hh Hcoll. unfold Check, Check_nHeight in *.
  destruct (ShutdownRequested e); [by left|].
  destruct (negb fForce && _); [by left|].
  right. unfold IsOutpointSpent. simpl.
  rewrite bool_decide_eq_false_2 by congruence.
  destruct (fUnitTest mn).
  { by apply Check_states_banned_early. }
  destruct (lockMain e); [|done]. simpl.
  destruct Hcoll as [coin Hcoin]; [done..|].
  rewrite bool_decide_eq_false_2.
  - by apply Check_states_banned_early.
  - rewrite CheckCollateral1_not_found. congruence.
Qed.

(** C2 (amended): when a re-check is not cut short before the ban test (no
    shutdown, forced or outside the re-check window, the record not
    OUTPOINT_SPENT and, outside test mode, the chain lock obtained and the
    collateral found), a record that is not PoSe-banned and whose ban score
    has reached the maximum becomes POSE_BAN with [poseBanHeight] equal to
    the height of the check (the chain height, 0 in test mode) plus the
    network size, and nothing else but the time of the check changes; and a
    PoSe-banned record whose ban height is above the height of the check
    keeps all its fields except the time of the check, provided its
    collateral is not found missing. *)
Theorem C2_pose_ban_amended :
  (forall (e : Env) (fForce : bool) (mn : CMerchantnode),
     ShutdownRequested e = false ->
     fForce = true \/ MERCHANTNODE_CHECK_SECONDS <= GetTime e - nTimeLastChecked mn ->
     nActiveState mn <> MERCHANTNODE_OUTPOINT_SPENT ->
     (fUnitTest mn = false ->
      lockMain e = true /\ is_Some (GetUTXOCoin e (prevout (vin mn)))) ->
     nActiveState mn <> MERCHANTNODE_POSE_BAN ->
     MERCHANTNODE_POSE_BAN_MAX_SCORE <= nPoSeBanScore mn ->
     Check e fForce mn =
       set_nPoSeBanHeight (Check_nHeight e mn + merchantnodeman_size e)
         (set_nActiveState MERCHANTNODE_POSE_BAN
            (set_nTimeLastChecked (GetTime e) mn))) /\
  (forall (e : Env) (fForce : bool) (mn : CMerchantnode),
     nActiveState mn = MERCHANTNODE_POSE_BAN ->
     Check_nHeight e mn < nPoSeBanHeight mn ->
     (fUnitTest mn = false -> lockMain e = true ->
      is_Some (GetUTXOCoin e (prevout (vin mn)))) ->
     Check e fForce mn = mn \/
     Check e fForce mn = set_nTimeLastChecked (GetTime e) mn).
Proof.
  split.
  - intros e fForce mn Hsd Hrate Hns Hcoll Hnb Hscore.
    rewrite Check_reaches_states by done.
    by apply Check_states_bans.
  - apply Check_banned_early.
Qed.

(** [Check] writes the state, the ban score and height and the time of the
    check, and nothing else. *)
Lemma Check_frame e fForce mn :
  pubKeyMerchantnode (Check e fForce mn) = pubKeyMerchantnode mn /\
  sigTime (Check e fForce mn) = sigTime mn /\
  vchSig (Check e fForce mn) = vchSig mn /\
  nProtocolVersion (Check e fForce mn) = nProtocolVersion mn /\
  addr (Check e fForce mn) = addr mn /\
  pubKeyCollateralAddress (Check e fForce mn) = pubKeyCollateralAddress mn /\
  vin (Check e fForce mn) = vin mn /\
  lastPing (Check e fForce mn) = lastPing mn.
Proof.
  unfold Check, Check_states, DecreasePoSeBanScore.
  repeat (case_match; simpl; try done).
Qed.

Lemma announced_Check e fForce mnb r :
  announced mnb r -> announced mnb (Check e fForce r).
Proof.
  intros (? & ? & ? & ? & ?). unfold announced.
  destruct (Check_frame e fForce r) as (-> & -> & -> & -> & -> & _).
  by repeat split.
Qed.

(** *** [CheckAndUpdate] *)

(** The outcomes of [CheckAndUpdate_found]: a refusal that leaves the record
    as it was, or the ping stored and the record re-checked with force. *)
Lemma CheckAndUpdate_found_cases e mnp mn fFrom nDos st :
  let '(r, _, mn', st') := CheckAndUpdate_found e mnp mn fFrom nDos st in
  (r = false /\ mn' = mn /\ st' = st) \/
  (mn' = Check e true (set_lastPing mnp mn) /\
   r = relay_state (nActiveState mn') /\
   (r = false -> relayed st' = relayed st)).
Proof.
  unfold CheckAndUpdate_found.
  destruct (negb fFrom && IsUpdateRequired mn); [by left|].
  destruct (negb fFrom && IsNewStartRequired mn); [by left|].
  destruct (match mapBlockIndex e !! ping_blockHash mnp with
            | Some (Some pindex) => _ | _ => false end); [by left|].
  destruct (IsPingedWithin e mn _ (ping_sigTime mnp)); [by left|].
  destruct (CMerchantnodePing_CheckSignature mnp (pubKeyMerchantnode mn))
    as [fSig nDos'].
  destruct fSig; simpl; [|by left].
  set (mn1 := Check e true (set_lastPing mnp mn)).
  set (st1 := if _ && _ then _ else st).
  assert (relayed st1 = relayed st) as Hst1.
  { subst st1. by destruct (_ && _). }
  set (st2 := match _ !! _ with Some _ => _ | None => st1 end).
  assert (relayed st2 = relayed st) as Hst2.
  { subst st2. destruct (_ !! _) as [[t b]|]; by rewrite <- Hst1. }
  unfold IsEnabled, IsExpired, IsWatchdogExpired.
  destruct (nActiveState mn1) eqn:Hs; simpl; right; rewrite ?Hs; repeat split;
    try done.
Qed.

Lemma CheckAndUpdate_Some e mnp mn fFrom st r nDos pmn' st' :
  CheckAndUpdate e mnp (Some mn) fFrom st = (r, nDos, pmn', st') ->
  pmn' = Some mn \/ pmn' = Some (Check e true (set_lastPing mnp mn)).
Proof.
  unfold CheckAndUpdate.
  destruct (CMerchantnodePing_SimpleCheck e mnp) as [fSimple nDos0].
  destruct fSimple; simpl; [|intros; simplify_eq; by left].
  pose proof (CheckAndUpdate_found_cases e mnp mn fFrom nDos0 st) as Hcases.
  destruct (CheckAndUpdate_found _ _ _ _ _ _) as [[[r1 d1] mn1] st1].
  intros; simplify_eq.
  destruct Hcases as [(_ & -> & _) | (-> & _)]; auto.
Qed.

(** C5: a ping whose block hash resolves to a block more than 24 blocks
    below the tip makes [CheckAndUpdate] return false; the target record
    (so its [lastPing]) and the node are left as they were. *)
Theorem C5_old_block_ping_rejected
    (e : Env) (mnp : CMerchantnodePing) (pmn : option CMerchantnode)
    (fFromNewBroadcast : bool) (st : Node) (pindex : CBlockIndex) :
  mapBlockIndex e !! ping_blockHash mnp = Some (Some pindex) ->
  bi_nHeight pindex < chainActive_Height e - 24 ->
  exists nDos,
    CheckAndUpdate e mnp pmn fFromNewBroadcast st = (false, nDos, pmn, st).
Proof.
  intros Hblock Hold. unfold CheckAndUpdate, CMerchantnodePing_SimpleCheck.
  case_bool_decide; [by eexists|]. rewrite Hblock. simpl.
  destruct pmn as [mn|]; [|by eexists].
  unfold CheckAndUpdate_found. rewrite Hblock.
  rewrite (bool_decide_eq_true_2 _ Hold).
  destruct (negb _ && IsUpdateRequired mn); [by eexists|].
  destruct (negb _ && IsNewStartRequired mn); by eexists.
Qed.

(** C6: [CheckAndUpdate] returns true only after the ping has been stored as
    the record's [lastPing] and [Check(true)] has run, and only when the
    state of the record is then ENABLED, EXPIRED or WATCHDOG_EXPIRED; in
    every other resulting state it returns false, and whenever it returns
    false nothing is relayed. *)
Theorem C6_relay_only_for_live_states
    (e : Env) (mnp : CMerchantnodePing) (pmn : option CMerchantnode)
    (fFromNewBroadcast : bool) (st : Node)
    (r : bool) (nDos : Z) (pmn' : option CMerchantnode) (st' : Node) :
  CheckAndUpdate e mnp pmn fFromNewBroadcast st = (r, nDos, pmn', st') ->
  (r = true ->
   exists mn, pmn = Some mn /\
     pmn' = Some (Check e true (set_lastPing mnp mn)) /\
     lastPing (Check e true (set_lastPing mnp mn)) = mnp /\
     relay_state (nActiveState (Check e true (set_lastPing mnp mn))) = true) /\
  (r = false -> relayed st' = relayed st) /\
  (forall mn', pmn' = Some mn' -> relay_state (nActiveState mn') = false ->
     r = false /\ relayed st' = relayed st).
Proof.
  intros Hrun.
  assert ((r = true ->
           exists mn, pmn = Some mn /\
             pmn' = Some (Check e true (set_lastPing mnp mn)) /\
             relay_state (nActiveState (Check e true (set_lastPing mnp mn))) = true) /\
          (r = false -> relayed st' = relayed st)) as [Htrue Hfalse].
  { unfold CheckAndUpdate in Hrun.
    destruct (CMerchantnodePing_SimpleCheck e mnp) as [fSimple nDos0].
    destruct fSimple; simpl in Hrun; [|by simplify_eq].
    destruct pmn as [mn|]; [|by simplify_eq].
    pose proof (CheckAndUpdate_found_cases e mnp mn fFromNewBroadcast nDos0 st)
      as Hcases.
    destruct (CheckAndUpdate_found _ _ _ _ _ _) as [[[r1 d1] mn1] st1].
    simplify_eq.
    destruct Hcases as [(-> & -> & ->) | (-> & -> & Hrel)]; [done|].
    split; [|done]. intros Hr. exists mn. by rewrite Hr. }
  split; [|split; [done|]].
  - intros Hr. destruct (Htrue Hr) as (mn & -> & -> & Hst).
    exists mn. repeat split; try done.
    by destruct (Check_frame e true (set_lastPing mnp mn))
      as (_ & _ & _ & _ & _ & _ & _ & ->).
  - intros mn' -> Hst. destruct r; [|by auto].
    destruct (Htrue eq_refl) as (mn & _ & [= ->] & Hst'). congruence.
Qed.

(** *** [Update]: the timestamp gates *)

(** C3: an announcement whose [sigTime] is strictly below the record's is
    rejected by [Update] with score 0; the record and the node are left as
    they were, whatever the signature and the recovery flag. *)
Theorem C3_older_announcement_rejected
    (e : Env) (mnb : CMerchantnodeBroadcast) (pmn : CMerchantnode) (st : Node) :
  sigTime mnb < sigTime pmn ->
  Update e mnb pmn st = (false, 0, pmn, st).
Proof.
  intros Hlt. unfold Update.
  rewrite (bool_decide_eq_false_2 (sigTime pmn = sigTime mnb)) by lia.
  simpl. by rewrite bool_decide_eq_true_2 by lia.
Qed.

Lemma Update_equal_no_recovery e (mnb : CMerchantnodeBroadcast) pmn st :
  sigTime mnb = sigTime pmn ->
  fRecovery mnb = false ->
  Update e mnb pmn st = (false, 0, pmn, st).
Proof.
  intros Heq Hr. unfold Update.
  by rewrite bool_decide_eq_true_2, Hr by done.
Qed.

(** Past its timestamp test, [UpdateFromNewBroadcast] takes the
    announcement's fields. *)
Lemma UpdateFromNewBroadcast_announced e mn (mnb : CMerchantnodeBroadcast) st :
  sigTime mn < sigTime mnb \/ fRecovery mnb = true ->
  announced mnb (UpdateFromNewBroadcast e mn mnb st).1.2.
Proof.
  intros Htime. unfold UpdateFromNewBroadcast.
  assert (bool_decide (sigTime mnb <= sigTime mn) && negb (fRecovery mnb) = false)
    as ->.
  { destruct Htime as [Hlt | ->].
    - by rewrite bool_decide_eq_false_2 by lia.
    - by rewrite andb_false_r. }
  assert (announced mnb (take_fields mnb mn)) as Hq0 by (by repeat split).
  set (step := if CMerchantnodePing_eq _ _ then _ else _).
  assert (exists fPing mn1 st1, step = (fPing, mn1, st1) /\ announced mnb mn1)
    as (fPing & mn1 & st1 & -> & Hq1).
  { subst step. destruct (CMerchantnodePing_eq _ _); [by eauto|].
    destruct (CheckAndUpdate _ _ _ _ _) as [[[r0 d0] pmn0] st0] eqn:Hcu.
    do 3 eexists. split; [done|].
    destruct (CheckAndUpdate_Some _ _ _ _ _ _ _ _ _ Hcu) as [-> | ->]; simpl;
      [done|].
    by apply announced_Check. }
  set (step2 := if fPing then _ else _).
  assert (exists mn2 st2, step2 = (mn2, st2) /\ announced mnb mn2)
    as (mn2 & st2 & -> & Hq2).
  { subst step2. destruct fPing; by eauto. }
  destruct (fMerchantNode e && _); [|done]. simpl.
  by destruct (bool_decide (nProtocolVersion mn2 = PROTOCOL_VERSION)).
Qed.

(** Past the timestamp gates, [Update] returns true once the re-checked
    record is not banned, the collateral keys agree and the signature
    verifies; the announcement's fields are then on the record if the
    record's own announcement is old enough or the key is the local node's. *)
Lemma Update_accepts e (mnb : CMerchantnodeBroadcast) pmn st :
  sigTime pmn < sigTime mnb \/
  (sigTime pmn = sigTime mnb /\ fRecovery mnb = true) ->
  IsPoSeBanned (Check e false pmn) = false ->
  pubKeyCollateralAddress pmn = pubKeyCollateralAddress mnb ->
  CMerchantnodeBroadcast_CheckSignature mnb = (true, 0) ->
  exists pmn' st',
    Update e mnb pmn st = (true, 0, pmn', st') /\
    (IsBroadcastedWithin e pmn MERCHANTNODE_MIN_MNB_SECONDS = false \/
     is_local e (pubKeyMerchantnode mnb) = true ->
     announced mnb pmn').
Proof.
  intros Htime Hban Hkey Hsig. unfold Update.
  assert (bool_decide (sigTime pmn = sigTime mnb) && negb (fRecovery mnb) = false)
    as ->.
  { destruct Htime as [Hlt | [_ ->]].
    - by rewrite bool_decide_eq_false_2 by lia.
    - by rewrite andb_false_r. }
  rewrite (bool_decide_eq_false_2 (sigTime pmn > sigTime mnb)) by lia.
  rewrite Hban.
  destruct (Check_frame e false pmn) as (_ & Hst & _ & _ & _ & Hkey' & _).
  rewrite bool_decide_eq_false_2 by (intros Hne; apply Hne; congruence).
  rewrite Hsig. simpl.
  assert (IsBroadcastedWithin e (Check e false pmn) MERCHANTNODE_MIN_MNB_SECONDS
          = IsBroadcastedWithin e pmn MERCHANTNODE_MIN_MNB_SECONDS) as ->.
  { unfold IsBroadcastedWithin. by rewrite Hst. }
  change (fMerchantNode e &&
          bool_decide (pubKeyMerchantnode mnb = activeMerchantnode_pubKeyMerchantnode e))
    with (is_local e (pubKeyMerchantnode mnb)).
  destruct (negb (IsBroadcastedWithin e pmn MERCHANTNODE_MIN_MNB_SECONDS) ||
            is_local e (pubKeyMerchantnode mnb)) eqn:Hgate.
  - assert (announced mnb
              (UpdateFromNewBroadcast e (Check e false pmn) mnb st).1.2) as Hann.
    { apply UpdateFromNewBroadcast_announced. rewrite Hst.
      destruct Htime as [? | [_ ?]]; auto. }
    destruct (UpdateFromNewBroadcast _ _ _ _) as [[fUpdated pmn1] st1].
    simpl in Hann.
    destruct fUpdated; do 2 eexists; (split; [done|]); intros _;
      [by apply announced_Check | done].
  - apply orb_false_elim in Hgate as [Hw Hl].
    apply negb_false_iff in Hw.
    do 2 eexists. split; [done|]. intros [? | ?]; congruence.
Qed.

Lemma CheckSignature_true_score (mnb : CMerchantnodeBroadcast) :
  (CMerchantnodeBroadcast_CheckSignature mnb).1 = true ->
  CMerchantnodeBroadcast_CheckSignature mnb = (true, 0).
Proof.
  unfold CMerchantnodeBroadcast_CheckSignature. by case_match.
Qed.

(** C4 (amended): an announcement whose [sigTime] equals the record's is a
    no-op when its recovery flag is unset ([Update] returns false with score
    0, record and node unchanged); when the flag is set the announcement
    passes the timestamp gates of [Update] and [UpdateFromNewBroadcast], and
    [Update] returns true with score 0 provided the record is not
    PoSe-banned after its re-check, the collateral public key is the one on
    file and the signature verifies; the record then carries the
    announcement's fields if its own announcement is at least
    [MERCHANTNODE_MIN_MNB_SECONDS] old or the key is the local node's. *)
Theorem C4_equal_sigTime_amended
    (e : Env) (mnb : CMerchantnodeBroadcast) (pmn : CMerchantnode) (st : Node) :
  sigTime mnb = sigTime pmn ->
  (fRecovery mnb = false -> Update e mnb pmn st = (false, 0, pmn, st)) /\
  (fRecovery mnb = true ->
   IsPoSeBanned (Check e false pmn) = false ->
   pubKeyCollateralAddress pmn = pubKeyCollateralAddress mnb ->
   (CMerchantnodeBroadcast_CheckSignature mnb).1 = true ->
   exists pmn' st',
     Update e mnb pmn st = (true, 0, pmn', st') /\
     (IsBroadcastedWithin e pmn MERCHANTNODE_MIN_MNB_SECONDS = false \/
      is_local e (pubKeyMerchantnode mnb) = true ->
      announced mnb pmn')).
Proof.
  intros Heq. split.
  - by apply Update_equal_no_recovery.
  - intros Hr Hban Hkey Hsig. apply Update_accepts; try done.
    + right. by split.
    + by apply CheckSignature_true_score.
Qed.

(** *** [CheckOutpoint] *)

(** C7: once [CheckOutpoint] gets to resolve the collateral (the
    announcement is not the local node's own, its signature verifies and the
    chain lock is obtained): if the collateral resolves OK but its depth,
    current height - output height + 1, is below the minimum number of
    confirmations, the function returns false and the announcement's hash is
    erased from the seen-broadcast map; if the collateral resolves to
    NOT_FOUND or INVALID_AMOUNT, the function returns false and the map is
    left as it was. *)
Theorem C7_CheckOutpoint_transient_vs_permanent
    (e : Env) (mnb : CMerchantnodeBroadcast) (nDos : Z) (st : Node) :
  fMerchantNode e &&
    bool_decide (prevout (vin mnb) = activeMerchantnode_outpoint e) &&
    bool_decide (pubKeyMerchantnode mnb = activeMerchantnode_pubKeyMerchantnode e)
    = false ->
  (CMerchantnodeBroadcast_CheckSignature mnb).1 = true ->
  lockMain e = true ->
  (forall coin,
     GetUTXOCoin e (prevout (vin mnb)) = Some coin ->
     nValue (out coin) = 1000 * COIN ->
     chainActive_Height e - nHeight coin + 1 < nMasternodeMinimumConfirmations ->
     exists st',
       CheckOutpoint e mnb nDos st = Some (false, 0, mnb, st') /\
       mapSeenMerchantnodeBroadcast st' =
         delete (CMerchantnodeBroadcast_GetHash mnb)
                (mapSeenMerchantnodeBroadcast st) /\
       mapSeenMerchantnodeBroadcast st' !! CMerchantnodeBroadcast_GetHash mnb = None) /\
  (CheckCollateral1 e (prevout (vin mnb)) = COLLATERAL_UTXO_NOT_FOUND \/
   CheckCollateral1 e (prevout (vin mnb)) = COLLATERAL_INVALID_AMOUNT ->
   CheckOutpoint e mnb nDos st = Some (false, 0, mnb, st)).
Proof.
  intros Hown Hsig Hlock. apply CheckSignature_true_score in Hsig.
  unfold CheckOutpoint. rewrite Hown, Hsig, Hlock. simpl. split.
  - intros coin Hcoin Hval Hdepth.
    rewrite (CheckCollateral_found _ _ _ _ Hcoin).
    rewrite (bool_decide_eq_true_2 _ Hval). simpl.
    rewrite (bool_decide_eq_true_2 _ Hdepth).
    eexists. split; [done|]. simpl. split; [done|]. apply lookup_delete_eq.
  - unfold CheckCollateral1.
    destruct (CheckCollateral e (prevout (vin mnb)) 0) as [err h]. simpl.
    by intros [-> | ->].
Qed.

(** *** [Update] on a spent record *)










End Properties.

(** ** The theorems at concrete inputs *)

(** C8 at the example chain: no output, an output of 999 coins, and the
    collateral itself. *)
Lemma C8_witness :
  @CheckCollateral example_header ex_env_spent ex_outpoint 7
    = (COLLATERAL_UTXO_NOT_FOUND, 7) /\
  @CheckCollateral example_header (ex_env_at (ex_coins 999) 1000 true) ex_outpoint 7
    = (COLLATERAL_INVALID_AMOUNT, 7) /\
  @CheckCollateral example_header ex_env ex_outpoint 7 = (COLLATERAL_OK, 500).
Proof.
  split; [|split].
  - apply (@C8_CheckCollateral_verdicts example_header ex_env_spent ex_outpoint 7).
    reflexivity.
  - apply (proj1 (proj2 (@C8_CheckCollateral_verdicts example_header
                           (ex_env_at (ex_coins 999) 1000 true) ex_outpoint 7))
             {| out := {| nValue := 999 * 100000000;
                          scriptPubKey := ex_key_collateral |};
                nHeight := 500 |}).
    + vm_compute. reflexivity.
    + vm_compute. discriminate.
  - apply (proj2 (proj2 (@C8_CheckCollateral_verdicts example_header
                           ex_env ex_outpoint 7))
             {| out := {| nValue := 1000 * 100000000;
                          scriptPubKey := ex_key_collateral |};
                nHeight := 500 |}).
    + vm_compute. reflexivity.
    + vm_compute. reflexivity.
Defined.

(** C9 at an announcement and a ping with empty signatures. *)
Lemma C9_witness :
  @CMerchantnodeBroadcast_CheckSignature example_header
    (ex_mnb 90000 ex_key_collateral [] false) = (false, 100) /\
  @CMerchantnodePing_CheckSignature example_header
    {| ping_vin := {| prevout := ex_outpoint; scriptSig := [] |};
       ping_blockHash := 9990; ping_sigTime := 99900; ping_vchSig := [] |}
    ex_key_service = (false, 33).
Proof.
  destruct (@C9_bad_signature_scores example_header) as (A & B & _).
  split; [apply A | apply B]; vm_compute; reflexivity.
Defined.

(** C1 at a spent record checked twice, and at an enabled record whose
    collateral has gone. *)
Lemma C1_witness :
  nActiveState
    (@Check_many example_header [(ex_env, true); (ex_env_spent, false)]
       (ex_record MERCHANTNODE_OUTPOINT_SPENT 90000 0 0 false))
    = MERCHANTNODE_OUTPOINT_SPENT /\
  @Check example_header ex_env_spent true
    (ex_record MERCHANTNODE_ENABLED 90000 0 0 false)
    = set_nActiveState MERCHANTNODE_OUTPOINT_SPENT
        (set_nTimeLastChecked 100000
           (ex_record MERCHANTNODE_ENABLED 90000 0 0 false)).
Proof.
  destruct (@C1_outpoint_spent_absorbing example_header) as [A B].
  split.
  - apply A. reflexivity.
  - apply (B ex_env_spent true (ex_record MERCHANTNODE_ENABLED 90000 0 0 false)).
    + reflexivity.
    + left. reflexivity.
    + reflexivity.
    + reflexivity.
    + vm_compute. reflexivity.
Defined.

(** C2 (amended) at an enabled record with ban score 5 and at a record banned
    until height 1040, both checked at height 1000. *)
Lemma C2_witness :
  @Check example_header ex_env true (ex_record MERCHANTNODE_ENABLED 90000 5 0 false)
    = set_nPoSeBanHeight (1000 + 40)
        (set_nActiveState MERCHANTNODE_POSE_BAN
           (set_nTimeLastChecked 100000
              (ex_record MERCHANTNODE_ENABLED 90000 5 0 false))) /\
  (@Check example_header ex_env true (ex_record MERCHANTNODE_POSE_BAN 90000 5 1040 false)
     = ex_record MERCHANTNODE_POSE_BAN 90000 5 1040 false \/
   @Check example_header ex_env true (ex_record MERCHANTNODE_POSE_BAN 90000 5 1040 false)
     = set_nTimeLastChecked 100000
         (ex_record MERCHANTNODE_POSE_BAN 90000 5 1040 false)).
Proof.
  destruct (@C2_pose_ban_amended example_header) as [A B].
  split.
  - apply (A ex_env true (ex_record MERCHANTNODE_ENABLED 90000 5 0 false)).
    + reflexivity.
    + left. reflexivity.
    + discriminate.
    + intros _. split; [reflexivity|]. vm_compute. eauto.
    + discriminate.
    + vm_compute. discriminate.
  - apply (B ex_env true (ex_record MERCHANTNODE_POSE_BAN 90000 5 1040 false)).
    + reflexivity.
    + vm_compute. reflexivity.
    + intros _ _. vm_compute. eauto.
Defined.

(** C2 as stated fails: with the ban score at the maximum, (1) a spent
    record stays OUTPOINT_SPENT, (2) an unforced check one second after the
    last one changes nothing, (3) in test mode the ban height is 0 + size,
    not the chain height + size, (4) a record that is not banned but whose
    collateral is gone becomes OUTPOINT_SPENT; and (5) a record banned until
    height 1040 leaves POSE_BAN at height 1000 when its collateral is
    gone. *)
Lemma C2_counterexample :
  (@MERCHANTNODE_POSE_BAN_MAX_SCORE example_header
     <= nPoSeBanScore (ex_record MERCHANTNODE_OUTPOINT_SPENT 90000 5 0 false) /\
   nActiveState
     (@Check example_header ex_env true
        (ex_record MERCHANTNODE_OUTPOINT_SPENT 90000 5 0 false))
     = MERCHANTNODE_OUTPOINT_SPENT) /\
  @Check example_header ex_env false
    (set_nTimeLastChecked 99999 (ex_record MERCHANTNODE_ENABLED 90000 5 0 false))
    = set_nTimeLastChecked 99999 (ex_record MERCHANTNODE_ENABLED 90000 5 0 false) /\
  (chainActive_Height ex_env + merchantnodeman_size ex_env = 1040 /\
   nPoSeBanHeight
     (@Check example_header ex_env true
        (ex_record MERCHANTNODE_ENABLED 90000 5 0 true)) = 40) /\
  nActiveState
    (@Check example_header ex_env_spent true
       (ex_record MERCHANTNODE_ENABLED 90000 5 0 false))
    = MERCHANTNODE_OUTPOINT_SPENT /\
  (chainActive_Height ex_env_spent
     < nPoSeBanHeight (ex_record MERCHANTNODE_POSE_BAN 90000 5 1040 false) /\
   nActiveState
     (@Check example_header ex_env_spent true
        (ex_record MERCHANTNODE_POSE_BAN 90000 5 1040 false))
     = MERCHANTNODE_OUTPOINT_SPENT).
Proof. vm_compute. repeat split; discriminate. Qed.

(** C3 at an announcement from time 80000 for a record announced at 90000. *)
Lemma C3_witness :
  @Update example_header ex_env
    (ex_mnb 80000 ex_key_collateral ex_key_collateral true)
    (ex_record MERCHANTNODE_ENABLED 90000 0 0 false) ex_node
  = (false, 0, ex_record MERCHANTNODE_ENABLED 90000 0 0 false, ex_node).
Proof.
  apply (@C3_older_announcement_rejected example_header).
  vm_compute. reflexivity.
Defined.

(** C4 (amended) at announcements from the record's own time 90000, without
    and with the recovery flag. *)
Lemma C4_witness :
  @Update example_header ex_env
    (ex_mnb 90000 ex_key_collateral ex_key_collateral false)
    (ex_record MERCHANTNODE_ENABLED 90000 0 0 false) ex_node
  = (false, 0, ex_record MERCHANTNODE_ENABLED 90000 0 0 false, ex_node) /\
  exists pmn' st',
    @Update example_header ex_env
      (ex_mnb 90000 ex_key_collateral ex_key_collateral true)
      (ex_record MERCHANTNODE_ENABLED 90000 0 0 false) ex_node
    = (true, 0, pmn', st') /\
    (@IsBroadcastedWithin ex_env (ex_record MERCHANTNODE_ENABLED 90000 0 0 false)
       (@MERCHANTNODE_MIN_MNB_SECONDS example_header) = false \/
     is_local ex_env
       (pubKeyMerchantnode (ex_mnb 90000 ex_key_collateral ex_key_collateral true))
       = true ->
     announced (ex_mnb 90000 ex_key_collateral ex_key_collateral true) pmn').
Proof.
  split.
  - apply (@C4_equal_sigTime_amended example_header ex_env
             (ex_mnb 90000 ex_key_collateral ex_key_collateral false)
             (ex_record MERCHANTNODE_ENABLED 90000 0 0 false) ex_node);
      reflexivity.
  - apply (@C4_equal_sigTime_amended example_header ex_env
             (ex_mnb 90000 ex_key_collateral ex_key_collateral true)
             (ex_record MERCHANTNODE_ENABLED 90000 0 0 false) ex_node);
      vm_compute; reflexivity.
Defined.

(** C4 as stated fails: an announcement with the record's [sigTime] and the
    recovery flag set is turned down (1) with a valid signature and the key
    on file, when the record is banned until height 1040 at height 1000,
    (2) with score 100 when its signature does not verify, (3) with score 33
    when it carries another collateral key. *)
Lemma C4_counterexample :
  (@Update example_header ex_env
     (ex_mnb 90000 ex_key_collateral ex_key_collateral true)
     (ex_record MERCHANTNODE_POSE_BAN 90000 5 1040 false) ex_node).1.1
  = (false, 0) /\
  (@Update example_header ex_env
     (ex_mnb 90000 ex_key_collateral [] true)
     (ex_record MERCHANTNODE_ENABLED 90000 0 0 false) ex_node).1.1
  = (false, 100) /\
  (@Update example_header ex_env
     (ex_mnb 90000 [x09] [x09] true)
     (ex_record MERCHANTNODE_ENABLED 90000 0 0 false) ex_node).1.1
  = (false, 33).
Proof. vm_compute. repeat split. Qed.

(** C5 at a ping naming block 900 when the tip is at 1000. *)
Lemma C5_witness :
  exists nDos,
    @CheckAndUpdate example_header ex_env (ex_ping 9900 100500)
      (Some (ex_record MERCHANTNODE_ENABLED 90000 0 0 false)) false ex_node
    = (false, nDos, Some (ex_record MERCHANTNODE_ENABLED 90000 0 0 false), ex_node).
Proof.
  apply (@C5_old_block_ping_rejected example_header ex_env (ex_ping 9900 100500)
           (Some (ex_record MERCHANTNODE_ENABLED 90000 0 0 false)) false ex_node
           ex_block_old).
  - vm_compute. reflexivity.
  - vm_compute. reflexivity.
Defined.

(** C6 at a fresh ping for an enabled record: stored, re-checked, found
    ENABLED and relayed. *)
Lemma C6_witness :
  lastPing
    (@Check example_header ex_env true
       (set_lastPing (ex_ping 9990 100500)
          (ex_record MERCHANTNODE_ENABLED 90000 0 0 false)))
    = ex_ping 9990 100500 /\
  relay_state
    (nActiveState
       (@Check example_header ex_env true
          (set_lastPing (ex_ping 9990 100500)
             (ex_record MERCHANTNODE_ENABLED 90000 0 0 false)))) = true.
Proof.
  destruct (@C6_relay_only_for_live_states example_header ex_env
              (ex_ping 9990 100500)
              (Some (ex_record MERCHANTNODE_ENABLED 90000 0 0 false)) false ex_node
              true 0
              (Some (@Check example_header ex_env true
                       (set_lastPing (ex_ping 9990 100500)
                          (ex_record MERCHANTNODE_ENABLED 90000 0 0 false))))
              (emit (RelayInv MSG_MERCHANTNODE_PING 110490) ex_node))
    as (A & _ & _).
  - vm_compute. reflexivity.
  - destruct (A eq_refl) as (mn & Hmn & _ & Hping & Hst).
    injection Hmn as <-. split; [exact Hping | exact Hst].
Defined.

(** C7 at an announcement whose collateral, confirmed at height 500, is
    looked at when the tip is at 510 (11 confirmations of the 15 required),
    and at one whose collateral has been spent. *)
Lemma C7_witness :
  (exists st',
     @CheckOutpoint example_header (ex_env_at (ex_coins 1000) 510 true)
       (ex_mnb 90000 ex_key_collateral ex_key_collateral false) 7
       (set_mapSeenMerchantnodeBroadcast
          {[ 90077 := (0, ex_mnb 90000 ex_key_collateral ex_key_collateral false) ]}
          ex_node)
     = Some (false, 0, ex_mnb 90000 ex_key_collateral ex_key_collateral false, st') /\
     mapSeenMerchantnodeBroadcast st' !! 90077 = None) /\
  @CheckOutpoint example_header ex_env_spent
    (ex_mnb 90000 ex_key_collateral ex_key_collateral false) 7 ex_node
  = Some (false, 0, ex_mnb 90000 ex_key_collateral ex_key_collateral false, ex_node).
Proof.
  split.
  - destruct (@C7_CheckOutpoint_transient_vs_permanent example_header
                (ex_env_at (ex_coins 1000) 510 true)
                (ex_mnb 90000 ex_key_collateral ex_key_collateral false) 7
                (set_mapSeenMerchantnodeBroadcast
                   {[ 90077 := (0, ex_mnb 90000 ex_key_collateral
                                      ex_key_collateral false) ]}
                   ex_node))
      as (A & _); [reflexivity | vm_compute; reflexivity | reflexivity |].
    destruct (A {| out := {| nValue := 1000 * 100000000;
                             scriptPubKey := ex_key_collateral |};
                   nHeight := 500 |}) as (st' & Hrun & _ & Hgone).
    + vm_compute. reflexivity.
    + vm_compute. reflexivity.
    + vm_compute. reflexivity.
    + exists st'. split; [exact Hrun | exact Hgone].
  - apply (@C7_CheckOutpoint_transient_vs_permanent example_header ex_env_spent
             (ex_mnb 90000 ex_key_collateral ex_key_collateral false) 7 ex_node);
      [reflexivity | vm_compute; reflexivity | reflexivity |].
    left. vm_compute. reflexivity.
Defined.



(** ** Further properties of the code *)

Section MoreProperties.
Context `{Header} `{Platform}.

(** *** [Check] *)

(** [Check] either returns at one of its first two tests, or stamps the
    record with the time of the check. *)
Lemma Check_stamps e fForce mn :
  ((ShutdownRequested e = true \/
    (fForce = false /\
     GetTime e - nTimeLastChecked mn < MERCHANTNODE_CHECK_SECONDS)) /\
   Check e fForce mn = mn) \/
  (ShutdownRequested e = false /\
   nTimeLastChecked (Check e fForce mn) = GetTime e).
Proof.
  unfold Check. destruct (ShutdownRequested e); [left; by auto|].
  destruct fForce; simpl.
  - right. split; [done|].
    unfold Check_states, DecreasePoSeBanScore.
    repeat (case_match; simpl; try done).
  - case_bool_decide; [left; by auto|].
    right. split; [done|].
    unfold Check_states, DecreasePoSeBanScore.
    repeat (case_match; simpl; try done).
Qed.

(** X1: an unforced [Check] that follows any [Check] on the same clock is
    inside the re-check window and returns the record as it is. *)
Theorem X1_Check_recheck_is_noop (e : Env) (fForce : bool) (mn : CMerchantnode) :
  0 < MERCHANTNODE_CHECK_SECONDS ->
  Check e false (Check e fForce mn) = Check e fForce mn.
Proof.
  intros Hpos.
  destruct (Check_stamps e fForce mn) as [[Hearly ->] | [Hsd Ht]].
  - unfold Check. destruct Hearly as [-> | [_ Hwin]]; [done|].
    destruct (ShutdownRequested e); [done|]. simpl.
    by rewrite bool_decide_eq_true_2.
  - unfold Check at 1. rewrite Hsd, Ht. simpl.
    rewrite bool_decide_eq_true_2; [done | lia].
Qed.

Lemma Check_frame_all e fForce mn :
  nProtocolVersion (Check e fForce mn) = nProtocolVersion mn /\
  sigTime (Check e fForce mn) = sigTime mn /\
  vin (Check e fForce mn) = vin mn /\
  addr (Check e fForce mn) = addr mn /\
  pubKeyCollateralAddress (Check e fForce mn) = pubKeyCollateralAddress mn /\
  pubKeyMerchantnode (Check e fForce mn) = pubKeyMerchantnode mn /\
  nTimeLastWatchdogVote (Check e fForce mn) = nTimeLastWatchdogVote mn /\
  lastPing (Check e fForce mn) = lastPing mn /\
  vchSig (Check e fForce mn) = vchSig mn /\
  nCollateralMinConfBlockHash (Check e fForce mn) = nCollateralMinConfBlockHash mn /\
  nBlockLastPaid (Check e fForce mn) = nBlockLastPaid mn /\
  fUnitTest (Check e fForce mn) = fUnitTest mn.
Proof.
  unfold Check, Check_states, DecreasePoSeBanScore.
  repeat (case_match; simpl; try done).
Qed.

(** X2: [Check] writes the lifecycle state, the ban score, the ban height
    and the time of the check; the other twelve members are left alone. *)
Theorem X2_Check_frame (e : Env) (fForce : bool) (mn : CMerchantnode) :
  nProtocolVersion (Check e fForce mn) = nProtocolVersion mn /\
  sigTime (Check e fForce mn) = sigTime mn /\
  vin (Check e fForce mn) = vin mn /\
  addr (Check e fForce mn) = addr mn /\
  pubKeyCollateralAddress (Check e fForce mn) = pubKeyCollateralAddress mn /\
  pubKeyMerchantnode (Check e fForce mn) = pubKeyMerchantnode mn /\
  nTimeLastWatchdogVote (Check e fForce mn) = nTimeLastWatchdogVote mn /\
  lastPing (Check e fForce mn) = lastPing mn /\
  vchSig (Check e fForce mn) = vchSig mn /\
  nCollateralMinConfBlockHash (Check e fForce mn) = nCollateralMinConfBlockHash mn /\
  nBlockLastPaid (Check e fForce mn) = nBlockLastPaid mn /\
  fUnitTest (Check e fForce mn) = fUnitTest mn.
Proof. apply Check_frame_all. Qed.

Lemma set_nActiveState_id (mn : CMerchantnode) :
  set_nActiveState (nActiveState mn) mn = mn.
Proof. by destruct mn. Qed.

Lemma DecreasePoSeBanScore_state mn :
  nActiveState (DecreasePoSeBanScore mn) = nActiveState mn.
Proof. unfold DecreasePoSeBanScore. by case_match. Qed.

(** The three ways through [Check_states]: a banned record below its ban
    height is returned as it is; a record that is not banned and has the
    maximum score is banned; any other record gets a state other than
    OUTPOINT_SPENT and POSE_BAN, after its score has decayed if it was
    banned. *)
Lemma Check_states_shape e h mn :
  (nActiveState mn = MERCHANTNODE_POSE_BAN /\ h < nPoSeBanHeight mn /\
   Check_states e h mn = mn) \/
  (nActiveState mn <> MERCHANTNODE_POSE_BAN /\
   MERCHANTNODE_POSE_BAN_MAX_SCORE <= nPoSeBanScore mn /\
   Check_states e h mn =
     set_nPoSeBanHeight (h + merchantnodeman_size e)
       (set_nActiveState MERCHANTNODE_POSE_BAN mn)) \/
  (exists mn' s,
     Check_states e h mn = set_nActiveState s mn' /\
     s <> MERCHANTNODE_OUTPOINT_SPENT /\ s <> MERCHANTNODE_POSE_BAN /\
     ((nActiveState mn = MERCHANTNODE_POSE_BAN /\ nPoSeBanHeight mn <= h /\
       mn' = DecreasePoSeBanScore mn) \/
      (nActiveState mn <> MERCHANTNODE_POSE_BAN /\
       nPoSeBanScore mn < MERCHANTNODE_POSE_BAN_MAX_SCORE /\ mn' = mn))).
Proof.
  unfold Check_states, IsPoSeBanned. cbv zeta.
  case_bool_decide as Hban.
  - case_bool_decide as Hh; [left; by auto|].
    right; right. exists (DecreasePoSeBanScore mn).
    pose proof (DecreasePoSeBanScore_state mn) as Hst. rewrite Hban in Hst.
    assert (forall s, s <> MERCHANTNODE_OUTPOINT_SPENT -> s <> MERCHANTNODE_POSE_BAN ->
            exists s0, set_nActiveState s (DecreasePoSeBanScore mn)
                       = set_nActiveState s0 (DecreasePoSeBanScore mn) /\
              s0 <> MERCHANTNODE_OUTPOINT_SPENT /\ s0 <> MERCHANTNODE_POSE_BAN /\
              ((MERCHANTNODE_POSE_BAN = MERCHANTNODE_POSE_BAN /\
                nPoSeBanHeight mn <= h /\
                DecreasePoSeBanScore mn = DecreasePoSeBanScore mn) \/
               (MERCHANTNODE_POSE_BAN <> MERCHANTNODE_POSE_BAN /\
                nPoSeBanScore mn < MERCHANTNODE_POSE_BAN_MAX_SCORE /\
                DecreasePoSeBanScore mn = mn))) as Hset.
    { intros s ? ?. exists s. repeat split; try done. left. repeat split. lia. }
    rewrite Hban.
    unfold IsExpired, IsWatchdogExpired, IsNewStartRequired. rewrite Hst.
    rewrite !(bool_decide_eq_false_2 (MERCHANTNODE_POSE_BAN = _)) by done.
    rewrite !andb_false_r.
    repeat (case_match; try (apply Hset; done)).
  - case_bool_decide as Hmax; [right; left; repeat split; [done | lia]|].
    right; right. exists mn.
    assert (forall s, s <> MERCHANTNODE_OUTPOINT_SPENT -> s <> MERCHANTNODE_POSE_BAN ->
            exists s0, set_nActiveState s mn = set_nActiveState s0 mn /\
              s0 <> MERCHANTNODE_OUTPOINT_SPENT /\ s0 <> MERCHANTNODE_POSE_BAN /\
              ((nActiveState mn = MERCHANTNODE_POSE_BAN /\
                nPoSeBanHeight mn <= h /\ mn = DecreasePoSeBanScore mn) \/
               (nActiveState mn <> MERCHANTNODE_POSE_BAN /\
                nPoSeBanScore mn < MERCHANTNODE_POSE_BAN_MAX_SCORE /\ mn = mn)))
      as Hset.
    { intros s ? ?. exists s. repeat split; try done. right. repeat split; [done | lia]. }
    destruct (_ && bool_decide (nProtocolVersion mn < PROTOCOL_VERSION));
      [by apply Hset|].
    match goal with
    | |- context [if ?c && (IsExpired mn || IsWatchdogExpired mn
                            || IsNewStartRequired mn) then _ else _] =>
        destruct (c && (IsExpired mn || IsWatchdogExpired mn
                        || IsNewStartRequired mn)) eqn:Hwait
    end.
    + exists (nActiveState mn). rewrite set_nActiveState_id.
      split; [done|]. split; [|split; [done|]].
      * apply andb_prop in Hwait as [_ Hw].
        unfold IsExpired, IsWatchdogExpired, IsNewStartRequired in Hw.
        intros Hs. rewrite Hs in Hw. done.
      * right. repeat split; [done | lia].
    + repeat (case_match; try (apply Hset; done)).
Qed.

(** What [Check_states] does to the ban score and the ban height. *)
Lemma Check_states_ban_fields e h mn :
  (nPoSeBanScore (Check_states e h mn) = nPoSeBanScore mn \/
   (nActiveState mn = MERCHANTNODE_POSE_BAN /\
    nPoSeBanHeight mn <= h /\
    - MERCHANTNODE_POSE_BAN_MAX_SCORE < nPoSeBanScore mn /\
    nPoSeBanScore (Check_states e h mn) = nPoSeBanScore mn - 1)) /\
  (nPoSeBanHeight (Check_states e h mn) = nPoSeBanHeight mn \/
   (nActiveState mn <> MERCHANTNODE_POSE_BAN /\
    MERCHANTNODE_POSE_BAN_MAX_SCORE <= nPoSeBanScore mn /\
    nActiveState (Check_states e h mn) = MERCHANTNODE_POSE_BAN /\
    nPoSeBanHeight (Check_states e h mn) = h + merchantnodeman_size e)).
Proof.
  destruct (Check_states_shape e h mn)
    as [(Hb & Hh & ->) | [(Hnb & Hmax & ->) | (mn' & s & -> & _ & _ & Hmn')]].
  - by auto.
  - split; [by left | right]. by repeat split.
  - simpl. destruct Hmn' as [(Hb & Hh & ->) | (Hnb & Hsc & ->)]; [|by auto].
    unfold DecreasePoSeBanScore. case_bool_decide; simpl; [|by auto].
    split; [right | left]; repeat split; try done; lia.
Qed.

(** X3: [Check] never raises the ban score.  It lowers it, by one, only for
    a banned record whose ban height the check has reached and whose score
    is above minus the maximum; and it rewrites the ban height only when it
    bans a record that was not banned, to the height of the check plus the
    network size. *)
Theorem X3_Check_ban_bookkeeping (e : Env) (fForce : bool) (mn : CMerchantnode) :
  (nPoSeBanScore (Check e fForce mn) = nPoSeBanScore mn \/
   (nActiveState mn = MERCHANTNODE_POSE_BAN /\
    nPoSeBanHeight mn <= Check_nHeight e mn /\
    - MERCHANTNODE_POSE_BAN_MAX_SCORE < nPoSeBanScore mn /\
    nPoSeBanScore (Check e fForce mn) = nPoSeBanScore mn - 1)) /\
  (nPoSeBanHeight (Check e fForce mn) = nPoSeBanHeight mn \/
   (nActiveState mn <> MERCHANTNODE_POSE_BAN /\
    MERCHANTNODE_POSE_BAN_MAX_SCORE <= nPoSeBanScore mn /\
    nActiveState (Check e fForce mn) = MERCHANTNODE_POSE_BAN /\
    nPoSeBanHeight (Check e fForce mn) = Check_nHeight e mn + merchantnodeman_size e)).
Proof.
  unfold Check, Check_nHeight.
  destruct (ShutdownRequested e); [by auto|].
  destruct (negb fForce && _); [by auto|].
  destruct (IsOutpointSpent _); [by auto|].
  change (fUnitTest (set_nTimeLastChecked (GetTime e) mn)) with (fUnitTest mn).
  destruct (fUnitTest mn).
  { apply (Check_states_ban_fields e 0 (set_nTimeLastChecked (GetTime e) mn)). }
  destruct (negb (lockMain e)); [by auto|].
  case_bool_decide; [by auto|].
  apply (Check_states_ban_fields e (chainActive_Height e)
           (set_nTimeLastChecked (GetTime e) mn)).
Qed.

(** X4: when the check is not cut short and has reached the ban height of
    a PoSe-banned record, the record leaves POSE_BAN for one of the ordinary
    states, and its ban score is one lower, unless it already was at minus
    the maximum. *)
Theorem X4_Check_lifts_ban (e : Env) (fForce : bool) (mn : CMerchantnode) :
  ShutdownRequested e = false ->
  fForce = true \/ MERCHANTNODE_CHECK_SECONDS <= GetTime e - nTimeLastChecked mn ->
  (fUnitTest mn = false ->
   lockMain e = true /\ is_Some (GetUTXOCoin e (prevout (vin mn)))) ->
  nActiveState mn = MERCHANTNODE_POSE_BAN ->
  nPoSeBanHeight mn <= Check_nHeight e mn ->
  nActiveState (Check e fForce mn) <> MERCHANTNODE_POSE_BAN /\
  nActiveState (Check e fForce mn) <> MERCHANTNODE_OUTPOINT_SPENT /\
  nPoSeBanScore (Check e fForce mn) =
    (if bool_decide (- MERCHANTNODE_POSE_BAN_MAX_SCORE < nPoSeBanScore mn)
     then nPoSeBanScore mn - 1 else nPoSeBanScore mn) /\
  nPoSeBanHeight (Check e fForce mn) = nPoSeBanHeight mn.
Proof.
  intros Hsd Hrate Hcoll Hban Hh.
  rewrite Check_reaches_states by (done || congruence).
  destruct (Check_states_shape e (Check_nHeight e mn)
              (set_nTimeLastChecked (GetTime e) mn))
    as [(_ & Hlt & _) | [(Hnb & _) | (mn' & s & -> & Hs1 & Hs2 & Hmn')]];
    simpl in *; [lia | done |].
  destruct Hmn' as [(_ & _ & ->) | (Hnb & _)]; [|done].
  repeat split; try done.
  - unfold DecreasePoSeBanScore. simpl.
    repeat case_bool_decide; simpl; try done; lia.
  - unfold DecreasePoSeBanScore. by case_bool_decide.
Qed.

Lemma Check_states_not_spent e h mn :
  nActiveState mn <> MERCHANTNODE_OUTPOINT_SPENT ->
  nActiveState (Check_states e h mn) <> MERCHANTNODE_OUTPOINT_SPENT.
Proof.
  intros Hns.
  by destruct (Check_states_shape e h mn)
    as [(_ & _ & ->) | [(_ & _ & ->) | (mn' & s & -> & Hs1 & _)]].
Qed.

(** X5: after a [Check] the record is OUTPOINT_SPENT exactly when it was
    already, or when the check, not shut down, not inside the re-check
    window, outside test mode and with the chain lock, found no unspent
    output at the collateral outpoint.  No other path marks a record
    spent. *)
Theorem X5_Check_spent_iff (e : Env) (fForce : bool) (mn : CMerchantnode) :
  nActiveState (Check e fForce mn) = MERCHANTNODE_OUTPOINT_SPENT <->
  nActiveState mn = MERCHANTNODE_OUTPOINT_SPENT \/
  (ShutdownRequested e = false /\
   (fForce = true \/
    MERCHANTNODE_CHECK_SECONDS <= GetTime e - nTimeLastChecked mn) /\
   fUnitTest mn = false /\ lockMain e = true /\
   GetUTXOCoin e (prevout (vin mn)) = None).
Proof.
  split.
  - destruct (decide (nActiveState mn = MERCHANTNODE_OUTPOINT_SPENT)) as [|Hns];
      [by left|].
    intros Hspent. right. revert Hspent. unfold Check.
    destruct (ShutdownRequested e); [done|].
    destruct fForce; simpl.
    + unfold IsOutpointSpent. simpl. rewrite bool_decide_eq_false_2 by done.
      destruct (fUnitTest mn).
      { intros Hs. by apply Check_states_not_spent in Hs. }
      destruct (lockMain e); simpl; [|done].
      case_bool_decide as Hc.
      * intros _. apply CheckCollateral1_not_found in Hc. by auto.
      * intros Hs. by apply Check_states_not_spent in Hs.
    + case_bool_decide as Hwin; [done|].
      unfold IsOutpointSpent. simpl. rewrite bool_decide_eq_false_2 by done.
      destruct (fUnitTest mn).
      { intros Hs. by apply Check_states_not_spent in Hs. }
      destruct (lockMain e); simpl; [|done].
      case_bool_decide as Hc.
      * intros _. apply CheckCollateral1_not_found in Hc.
        repeat split; try done. right. lia.
      * intros Hs. by apply Check_states_not_spent in Hs.
  - intros [Hs | (Hsd & Hrate & Hut & Hlock & Hc)].
    + by apply Check_spent_state.
    + by rewrite Check_observes_spent.
Qed.

Lemma Check_states_silent e h mn :
  IsMerchantnodeListSynced e = true ->
  IsPingedWithin e mn MERCHANTNODE_EXPIRATION_SECONDS (-1) = false ->
  nActiveState (Check_states e h mn) <> MERCHANTNODE_ENABLED /\
  nActiveState (Check_states e h mn) <> MERCHANTNODE_PRE_ENABLED.
Proof.
  intros Hsync Hping.
  assert (forall x, IsPingedWithin e (set_nPoSeBanScore x mn)
                      MERCHANTNODE_EXPIRATION_SECONDS (-1) = false) as Hping'
    by done.
  unfold Check_states, IsPoSeBanned, DecreasePoSeBanScore. cbv zeta.
  rewrite Hsync. simpl.
  case_bool_decide as Hban.
  - case_bool_decide; [by rewrite Hban|].
    repeat (case_match; simpl; try done);
      match goal with
      | Hn : negb (IsPingedWithin _ _ MERCHANTNODE_EXPIRATION_SECONDS (-1)) = false
        |- _ => rewrite ?Hping', ?Hping in Hn; done
      end.
  - case_bool_decide; [done|]. rewrite Hping. simpl.
    repeat (case_match; simpl; try done).
Qed.

(** X6: on a node whose peer list is synced, a check that is not cut short
    never leaves a record ENABLED or PRE_ENABLED when
    [IsPingedWithin(MERCHANTNODE_EXPIRATION_SECONDS)] is false for it: its
    last ping is the empty one, or the [int64_t] difference between the
    adjusted time and the ping's [sigTime] is at least the threshold. *)
Theorem X6_Check_silent_peer_not_live (e : Env) (fForce : bool) (mn : CMerchantnode) :
  ShutdownRequested e = false ->
  fForce = true \/ MERCHANTNODE_CHECK_SECONDS <= GetTime e - nTimeLastChecked mn ->
  nActiveState mn <> MERCHANTNODE_OUTPOINT_SPENT ->
  (fUnitTest mn = false ->
   lockMain e = true /\ is_Some (GetUTXOCoin e (prevout (vin mn)))) ->
  IsMerchantnodeListSynced e = true ->
  IsPingedWithin e mn MERCHANTNODE_EXPIRATION_SECONDS (-1) = false ->
  nActiveState (Check e fForce mn) <> MERCHANTNODE_ENABLED /\
  nActiveState (Check e fForce mn) <> MERCHANTNODE_PRE_ENABLED.
Proof.
  intros Hsd Hrate Hns Hcoll Hsync Hping.
  rewrite Check_reaches_states by done.
  by apply Check_states_silent.
Qed.

(** X7: on a node whose peer list is synced, a check that is not cut short
    leaves a record that is not banned and whose ban score is below the
    maximum ENABLED exactly when it is not the local node's record with an
    outdated protocol version, its last ping is within the new-start and the
    expiration thresholds, its watchdog vote has not expired while the
    watchdog is active, and the [int64_t] difference between its last
    ping's [sigTime] and its announcement's is at least
    [MERCHANTNODE_MIN_MNP_SECONDS].  The time since the watchdog vote is
    taken within the range of [int64_t]. *)
Theorem X7_Check_enabled_iff (e : Env) (fForce : bool) (mn : CMerchantnode) :
  ShutdownRequested e = false ->
  fForce = true \/ MERCHANTNODE_CHECK_SECONDS <= GetTime e - nTimeLastChecked mn ->
  nActiveState mn <> MERCHANTNODE_OUTPOINT_SPENT ->
  (fUnitTest mn = false ->
   lockMain e = true /\ is_Some (GetUTXOCoin e (prevout (vin mn)))) ->
  IsMerchantnodeListSynced e = true ->
  nActiveState mn <> MERCHANTNODE_POSE_BAN ->
  nPoSeBanScore mn < MERCHANTNODE_POSE_BAN_MAX_SCORE ->
  - 2 ^ 63 <= GetAdjustedTime e - nTimeLastWatchdogVote mn < 2 ^ 63 ->
  nActiveState (Check e fForce mn) = MERCHANTNODE_ENABLED <->
  ~ (fMerchantNode e = true /\
     activeMerchantnode_pubKeyMerchantnode e = pubKeyMerchantnode mn /\
     nProtocolVersion mn < PROTOCOL_VERSION) /\
  IsPingedWithin e mn MERCHANTNODE_NEW_START_REQUIRED_SECONDS (-1) = true /\
  ~ (IsSynced e = true /\ IsWatchdogActive e = true /\
     GetAdjustedTime e - nTimeLastWatchdogVote mn
       > MERCHANTNODE_WATCHDOG_MAX_SECONDS) /\
  IsPingedWithin e mn MERCHANTNODE_EXPIRATION_SECONDS (-1) = true /\
  MERCHANTNODE_MIN_MNP_SECONDS <= int64_sub (ping_sigTime (lastPing mn)) (sigTime mn).
Proof.
  intros Hsd Hrate Hns Hcoll Hsync Hnb Hscore _.
  rewrite Check_reaches_states by done.
  unfold Check_states, IsPoSeBanned. cbv zeta. simpl.
  rewrite bool_decide_eq_false_2 by done.
  rewrite bool_decide_eq_false_2 by lia.
  rewrite Hsync. simpl.
  change (IsPingedWithin e (set_nTimeLastChecked (GetTime e) mn))
    with (IsPingedWithin e mn).
  destruct (fMerchantNode e); simpl;
    destruct (IsSynced e); simpl;
    destruct (IsWatchdogActive e); simpl;
    destruct (IsPingedWithin e mn MERCHANTNODE_NEW_START_REQUIRED_SECONDS (-1));
    destruct (IsPingedWithin e mn MERCHANTNODE_EXPIRATION_SECONDS (-1));
    simpl; repeat case_bool_decide; simpl; split; intros Hx;
    try done; try (repeat split; try done; try lia; intros (? & ? & ?); done || lia);
    try (destruct Hx as (Hn1 & ? & Hn2 & ? & ?);
         first [lia | exfalso; apply Hn1; by auto | exfalso; apply Hn2; by auto]).
Qed.

(** *** [CheckAndUpdate] *)

(** The record and node [CheckAndUpdate_found] returns, by the way it
    returns. *)
Lemma CheckAndUpdate_found_inv e mnp mn fFrom nDos st r nDos' mn' st' :
  CheckAndUpdate_found e mnp mn fFrom nDos st = (r, nDos', mn', st') ->
  (r = false /\ mn' = mn /\ st' = st /\
   (nDos' = nDos \/
    (nDos' = 33 /\
     CMerchantnodePing_CheckSignature mnp (pubKeyMerchantnode mn) = (false, 33)))) \/
  (nDos' = 0 /\
   (negb fFrom && (IsUpdateRequired mn || IsNewStartRequired mn)) = false /\
   match mapBlockIndex e !! ping_blockHash mnp with
   | Some (Some pindex) => chainActive_Height e - 24 <= bi_nHeight pindex
   | _ => True
   end /\
   IsPingedWithin e mn (MERCHANTNODE_MIN_MNP_SECONDS - 60)
     (ping_sigTime mnp) = false /\
   CMerchantnodePing_CheckSignature mnp (pubKeyMerchantnode mn) = (true, 0) /\
   mn' = Check e true (set_lastPing mnp mn) /\
   r = relay_state (nActiveState mn') /\
   mapSeenMerchantnodePing st' = mapSeenMerchantnodePing st /\
   (forall h,
      mapSeenMerchantnodeBroadcast st' !! h = mapSeenMerchantnodeBroadcast st !! h \/
      exists t mnb,
        h = CMerchantnodeBroadcast_GetHash
              (CMerchantnodeBroadcast_of (set_lastPing mnp mn)) /\
        mapSeenMerchantnodeBroadcast st !! h = Some (t, mnb) /\
        mapSeenMerchantnodeBroadcast st' !! h
          = Some (t, {| mnb_base := set_lastPing mnp (mnb_base mnb);
                        fRecovery := fRecovery mnb |})) /\
   relayed st' =
     (if r && IsSynced e
      then (MSG_MERCHANTNODE_PING, CMerchantnodePing_GetHash mnp) :: relayed st
      else relayed st)).
Proof.
  unfold CheckAndUpdate_found.
  destruct (negb fFrom && IsUpdateRequired mn) eqn:Hur;
    [intros; simplify_eq; left; by auto|].
  destruct (negb fFrom && IsNewStartRequired mn) eqn:Hnsr;
    [intros; simplify_eq; left; by auto|].
  destruct (match mapBlockIndex e !! ping_blockHash mnp with
            | Some (Some pindex) => _ | _ => false end) eqn:Hage;
    [intros; simplify_eq; left; by auto|].
  destruct (IsPingedWithin e mn _ (ping_sigTime mnp)) eqn:Hearly;
    [intros; simplify_eq; left; by auto|].
  unfold CMerchantnodePing_CheckSignature at 1.
  destruct (negb (VerifyMessage _ _ _)) eqn:Hsig; simpl.
  { intros; simplify_eq. left. repeat split; try done. right. split; [done|].
    unfold CMerchantnodePing_CheckSignature. by rewrite Hsig. }
  set (st1 := if _ && _ then _ else st).
  assert (mapSeenMerchantnodePing st1 = mapSeenMerchantnodePing st /\
          mapSeenMerchantnodeBroadcast st1 = mapSeenMerchantnodeBroadcast st /\
          relayed st1 = relayed st) as (Hp1 & Hb1 & Hr1).
  { subst st1. destruct (negb _ && negb _); by repeat split. }
  set (hh := CMerchantnodeBroadcast_GetHash _).
  set (st2 := match _ !! hh with Some _ => _ | None => st1 end).
  assert (mapSeenMerchantnodePing st2 = mapSeenMerchantnodePing st /\
          relayed st2 = relayed st /\
          forall h,
            mapSeenMerchantnodeBroadcast st2 !! h
              = mapSeenMerchantnodeBroadcast st !! h \/
            exists t mnb,
              h = hh /\
              mapSeenMerchantnodeBroadcast st !! h = Some (t, mnb) /\
              mapSeenMerchantnodeBroadcast st2 !! h
                = Some (t, {| mnb_base := set_lastPing mnp (mnb_base mnb);
                              fRecovery := fRecovery mnb |}))
    as (Hp2 & Hr2 & Hb2).
  { subst st2. destruct (mapSeenMerchantnodeBroadcast st1 !! hh) as [[t b]|] eqn:Hl.
    - repeat split; try done. intros h. simpl.
      destruct (decide (h = hh)) as [-> | Hne].
      + right. exists t, b. rewrite lookup_insert_eq. by rewrite <- Hb1.
      + left. rewrite lookup_insert_ne by done. by rewrite Hb1.
    - repeat split; try done. intros h. left. by rewrite Hb1. }
  set (mn1 := Check e true (set_lastPing mnp mn)).
  intros Hrun. right.
  assert (negb fFrom && (IsUpdateRequired mn || IsNewStartRequired mn) = false)
    as Hstale.
  { destruct fFrom; simpl in *; [done|]. by rewrite Hur, Hnsr. }
  assert (match mapBlockIndex e !! ping_blockHash mnp with
          | Some (Some pindex) => chainActive_Height e - 24 <= bi_nHeight pindex
          | _ => True
          end) as Hage'.
  { destruct (mapBlockIndex e !! ping_blockHash mnp) as [[pindex|]|]; try done.
    apply bool_decide_eq_false_1 in Hage. lia. }
  assert (CMerchantnodePing_CheckSignature mnp (pubKeyMerchantnode mn) = (true, 0))
    as Hsig'.
  { unfold CMerchantnodePing_CheckSignature. by rewrite Hsig. }
  unfold IsEnabled, IsExpired, IsWatchdogExpired in Hrun.
  clear Hp1 Hb1 Hr1. clearbody st2. clear st1.
  assert (forall k h0 s, relayed (Relay e k h0 s)
                         = if IsSynced e then (k, h0) :: relayed s else relayed s)
    as Hrelay.
  { intros k h0 s. unfold Relay. by destruct (IsSynced e). }
  assert (forall k h0 s,
            mapSeenMerchantnodePing (Relay e k h0 s) = mapSeenMerchantnodePing s /\
            mapSeenMerchantnodeBroadcast (Relay e k h0 s)
              = mapSeenMerchantnodeBroadcast s) as Hmaps.
  { intros k h0 s. unfold Relay. by destruct (IsSynced e). }
  destruct (nActiveState mn1) eqn:Hs; simpl in Hrun; simplify_eq;
    rewrite ?Hs; simpl; rewrite ?Hrelay, ?Hr2;
    rewrite ?(proj1 (Hmaps _ _ _)), ?(proj2 (Hmaps _ _ _)); by repeat split.
Qed.

Lemma CheckAndUpdate_inv e mnp pmn fFrom st r nDos pmn' st' :
  CheckAndUpdate e mnp pmn fFrom st = (r, nDos, pmn', st') ->
  (r = false /\ pmn' = pmn /\ st' = st /\
   (nDos = 0 \/
    (nDos = 1 /\ ping_sigTime mnp > GetAdjustedTime e + 60 * 60) \/
    (nDos = 33 /\ exists mn, pmn = Some mn /\
       CMerchantnodePing_CheckSignature mnp (pubKeyMerchantnode mn) = (false, 33)))) \/
  (exists mn mn' nDos0,
     pmn = Some mn /\ pmn' = Some mn' /\
     CMerchantnodePing_SimpleCheck e mnp = (true, 0) /\ nDos = 0 /\
     CheckAndUpdate_found e mnp mn fFrom nDos0 st = (r, nDos, mn', st') /\
     mn' = Check e true (set_lastPing mnp mn)).
Proof.
  unfold CheckAndUpdate.
  destruct (CMerchantnodePing_SimpleCheck e mnp) as [fSimple nDos0] eqn:Hsimple.
  assert (fSimple = true -> nDos0 = 0) as Hd0.
  { revert Hsimple. unfold CMerchantnodePing_SimpleCheck.
    repeat case_match; intros; simplify_eq; done. }
  destruct fSimple; simpl.
  - rewrite (Hd0 eq_refl) in *.
    destruct pmn as [mn|]; [|intros; simplify_eq; left; by auto].
    destruct (CheckAndUpdate_found e mnp mn fFrom 0 st) as [[[r1 d1] mn1] st1] eqn:Hf.
    intros; simplify_eq.
    destruct (CheckAndUpdate_found_inv _ _ _ _ _ _ _ _ _ _ Hf)
      as [(-> & -> & -> & Hd) | (-> & _ & _ & _ & _ & -> & _)].
    + left. repeat split; try done.
      destruct Hd as [-> | [-> Hs]]; [by left|]. right; right. by eauto.
    + right. exists mn, (Check e true (set_lastPing mnp mn)), 0. by repeat split.
  - intros; simplify_eq. left. repeat split; try done.
    revert Hsimple. unfold CMerchantnodePing_SimpleCheck.
    case_bool_decide; [intros; simplify_eq; right; left; by auto|].
    case_match; intros; simplify_eq. by left.
Qed.

(** X8: the score [CheckAndUpdate] suggests is 0, 1 or 33.  It is 1 only for
    a ping signed more than an hour ahead and 33 only for a ping whose
    signature does not verify under the record's service key; and a nonzero
    score always comes with a refusal that leaves the record and the node
    as they were. *)
Theorem X8_CheckAndUpdate_scores
    (e : Env) (mnp : CMerchantnodePing) (pmn : option CMerchantnode)
    (fFromNewBroadcast : bool) (st : Node)
    (r : bool) (nDos : Z) (pmn' : option CMerchantnode) (st' : Node) :
  CheckAndUpdate e mnp pmn fFromNewBroadcast st = (r, nDos, pmn', st') ->
  (nDos = 0 \/ nDos = 1 \/ nDos = 33) /\
  (nDos = 1 -> ping_sigTime mnp > GetAdjustedTime e + 60 * 60) /\
  (nDos = 33 -> exists mn, pmn = Some mn /\
     CMerchantnodePing_CheckSignature mnp (pubKeyMerchantnode mn) = (false, 33)) /\
  (nDos <> 0 -> r = false /\ pmn' = pmn /\ st' = st).
Proof.
  intros Hrun.
  destruct (CheckAndUpdate_inv _ _ _ _ _ _ _ _ _ Hrun)
    as [(-> & -> & -> & [-> | [[-> Hf] | [-> Hs]]])
       | (mn & mn' & d0 & -> & -> & _ & -> & _)];
    repeat split; auto; try done.
Qed.

(** X9: [CheckAndUpdate] never touches the seen-ping map and never adds to
    or removes from the seen-broadcast map: the only entry it may rewrite is
    the one filed under the record's announcement hash, and there it replaces
    the stored announcement's last ping and nothing else. *)
Theorem X9_CheckAndUpdate_seen_maps
    (e : Env) (mnp : CMerchantnodePing) (pmn : option CMerchantnode)
    (fFromNewBroadcast : bool) (st : Node)
    (r : bool) (nDos : Z) (pmn' : option CMerchantnode) (st' : Node) :
  CheckAndUpdate e mnp pmn fFromNewBroadcast st = (r, nDos, pmn', st') ->
  mapSeenMerchantnodePing st' = mapSeenMerchantnodePing st /\
  dom (mapSeenMerchantnodeBroadcast st') = dom (mapSeenMerchantnodeBroadcast st) /\
  (forall h,
     mapSeenMerchantnodeBroadcast st' !! h = mapSeenMerchantnodeBroadcast st !! h \/
     exists t mnb mn,
       pmn = Some mn /\
       h = CMerchantnodeBroadcast_GetHash
             (CMerchantnodeBroadcast_of (set_lastPing mnp mn)) /\
       mapSeenMerchantnodeBroadcast st !! h = Some (t, mnb) /\
       mapSeenMerchantnodeBroadcast st' !! h
         = Some (t, on_base (set_lastPing mnp) mnb)).
Proof.
  intros Hrun.
  assert (mapSeenMerchantnodePing st' = mapSeenMerchantnodePing st /\
          forall h,
            mapSeenMerchantnodeBroadcast st' !! h
              = mapSeenMerchantnodeBroadcast st !! h \/
            exists t mnb mn,
              pmn = Some mn /\
              h = CMerchantnodeBroadcast_GetHash
                    (CMerchantnodeBroadcast_of (set_lastPing mnp mn)) /\
              mapSeenMerchantnodeBroadcast st !! h = Some (t, mnb) /\
              mapSeenMerchantnodeBroadcast st' !! h
                = Some (t, on_base (set_lastPing mnp) mnb)) as [Hp Hb].
  { destruct (CheckAndUpdate_inv _ _ _ _ _ _ _ _ _ Hrun)
      as [(_ & _ & -> & _) | (mn & mn' & d0 & -> & -> & _ & _ & Hf & _)];
      [by auto|].
    destruct (CheckAndUpdate_found_inv _ _ _ _ _ _ _ _ _ _ Hf)
      as [(_ & _ & -> & _) | (_ & _ & _ & _ & _ & _ & _ & Hp & Hb & _)];
      [by auto|].
    split; [done|]. intros h.
    destruct (Hb h) as [? | (t & b & ? & ? & ?)]; [by left|].
    right. exists t, b, mn. by repeat split. }
  split; [done|]. split; [|done].
  apply set_eq. intros h. rewrite !elem_of_dom.
  destruct (Hb h) as [-> | (t & b & mn & _ & _ & -> & ->)]; [done|].
  split; intros _; by eexists.
Qed.

Lemma CheckAndUpdate_accepts
    (e : Env) (mnp : CMerchantnodePing) (mn : CMerchantnode)
    (fFromNewBroadcast : bool) (st : Node) (entry : option CBlockIndex) :
  ping_sigTime mnp <= GetAdjustedTime e + 60 * 60 ->
  mapBlockIndex e !! ping_blockHash mnp = Some entry ->
  (forall pindex, entry = Some pindex ->
     chainActive_Height e - 24 <= bi_nHeight pindex) ->
  fFromNewBroadcast = true \/
    (nActiveState mn <> MERCHANTNODE_UPDATE_REQUIRED /\
     nActiveState mn <> MERCHANTNODE_NEW_START_REQUIRED) ->
  IsPingedWithin e mn (MERCHANTNODE_MIN_MNP_SECONDS - 60)
    (ping_sigTime mnp) = false ->
  CMerchantnodePing_CheckSignature mnp (pubKeyMerchantnode mn) = (true, 0) ->
  exists st',
    CheckAndUpdate e mnp (Some mn) fFromNewBroadcast st
      = (relay_state (nActiveState (Check e true (set_lastPing mnp mn))), 0,
         Some (Check e true (set_lastPing mnp mn)), st') /\
    lastPing (Check e true (set_lastPing mnp mn)) = mnp.
Proof.
  intros Htime Hblock Hage Hstate Hearly Hsig.
  unfold CheckAndUpdate, CMerchantnodePing_SimpleCheck.
  rewrite bool_decide_eq_false_2 by lia. rewrite Hblock. simpl.
  unfold CheckAndUpdate_found. rewrite Hblock, Hearly, Hsig. simpl.
  assert (negb fFromNewBroadcast && IsUpdateRequired mn = false) as ->.
  { destruct Hstate as [-> | [Hur _]]; [done|].
    unfold IsUpdateRequired. rewrite bool_decide_eq_false_2 by done.
    apply andb_false_r. }
  assert (negb fFromNewBroadcast && IsNewStartRequired mn = false) as ->.
  { destruct Hstate as [-> | [_ Hnsr]]; [done|].
    unfold IsNewStartRequired. rewrite bool_decide_eq_false_2 by done.
    apply andb_false_r. }
  assert (match entry with
          | Some pindex => bool_decide (bi_nHeight pindex < chainActive_Height e - 24)
          | None => false
          end = false) as ->.
  { destruct entry as [pindex|]; [|done].
    apply bool_decide_eq_false_2. specialize (Hage pindex eq_refl). lia. }
  set (mn1 := Check e true (set_lastPing mnp mn)).
  assert (lastPing mn1 = mnp) as Hlast.
  { subst mn1.
    by destruct (Check_frame_all e true (set_lastPing mnp mn))
      as (_ & _ & _ & _ & _ & _ & _ & -> & _). }
  unfold IsEnabled, IsExpired, IsWatchdogExpired.
  destruct (nActiveState mn1); simpl; eexists; by split.
Qed.

(** X10: a ping is stored when nothing stands in its way: signed no more
    than an hour ahead, naming a known block that is not more than 24 below
    the tip (or whose index entry is null), for a record that, unless the
    ping comes inside a new announcement, neither requires an update nor a
    new start, for which the test of line 736,
    [IsPingedWithin(MERCHANTNODE_MIN_MNP_SECONDS - 60, sigTime)], is false
    (with that helper's reading of a [sigTime] of [-1] as the adjusted time
    and its [int64_t] difference), and with a signature that verifies under
    the record's service key.  [CheckAndUpdate] then makes it the record's
    [lastPing], runs the forced [Check], suggests score 0, and returns
    whether the resulting state is ENABLED, EXPIRED or WATCHDOG_EXPIRED. *)
Theorem X10_CheckAndUpdate_accepts
    (e : Env) (mnp : CMerchantnodePing) (mn : CMerchantnode)
    (fFromNewBroadcast : bool) (st : Node) (entry : option CBlockIndex) :
  ping_sigTime mnp <= GetAdjustedTime e + 60 * 60 ->
  mapBlockIndex e !! ping_blockHash mnp = Some entry ->
  (forall pindex, entry = Some pindex ->
     chainActive_Height e - 24 <= bi_nHeight pindex) ->
  fFromNewBroadcast = true \/
    (nActiveState mn <> MERCHANTNODE_UPDATE_REQUIRED /\
     nActiveState mn <> MERCHANTNODE_NEW_START_REQUIRED) ->
  IsPingedWithin e mn (MERCHANTNODE_MIN_MNP_SECONDS - 60)
    (ping_sigTime mnp) = false ->
  CMerchantnodePing_CheckSignature mnp (pubKeyMerchantnode mn) = (true, 0) ->
  exists st',
    CheckAndUpdate e mnp (Some mn) fFromNewBroadcast st
      = (relay_state (nActiveState (Check e true (set_lastPing mnp mn))), 0,
         Some (Check e true (set_lastPing mnp mn)), st') /\
    lastPing (Check e true (set_lastPing mnp mn)) = mnp.
Proof. apply CheckAndUpdate_accepts. Qed.

Lemma int64_sub_diag a : int64_sub a a = 0.
Proof. unfold int64_sub. by rewrite Z.sub_diag. Qed.

(** X11: once a ping has been accepted with relay, delivering the same ping
    again to the record it left is refused and changes nothing, on any
    node and at any later time, provided the ping is not the empty one, its
    [sigTime] is not [-1] (which line 736 hands to [IsPingedWithin] as "the
    current time") and the minimum ping interval exceeds 60 seconds. *)
Theorem X11_ping_redelivery_refused
    (e : Env) (mnp : CMerchantnodePing) (mn : CMerchantnode) (fFrom : bool)
    (st : Node) (nDos : Z) (mn' : CMerchantnode) (st' : Node) :
  CheckAndUpdate e mnp (Some mn) fFrom st = (true, nDos, Some mn', st') ->
  CMerchantnodePing_eq mnp CMerchantnodePing_default = false ->
  ping_sigTime mnp <> -1 ->
  60 < MERCHANTNODE_MIN_MNP_SECONDS ->
  forall (e2 : Env) (fFrom2 : bool) (st2 : Node),
    exists nDos2,
      CheckAndUpdate e2 mnp (Some mn') fFrom2 st2 = (false, nDos2, Some mn', st2).
Proof.
  intros Hrun Hne Hsent Hmin e2 fFrom2 st2.
  assert (lastPing mn' = mnp) as Hlast.
  { destruct (CheckAndUpdate_inv _ _ _ _ _ _ _ _ _ Hrun)
      as [(? & _) | (mn0 & mn1 & d0 & ? & ? & _ & _ & _ & Hmn1)]; [done|].
    simplify_eq.
    by destruct (Check_frame_all e true (set_lastPing mnp mn0))
      as (_ & _ & _ & _ & _ & _ & _ & -> & _). }
  unfold CheckAndUpdate.
  destruct (CMerchantnodePing_SimpleCheck e2 mnp) as [fSimple d2].
  destruct fSimple; simpl; [|by eexists].
  unfold CheckAndUpdate_found.
  assert (IsPingedWithin e2 mn' (MERCHANTNODE_MIN_MNP_SECONDS - 60)
            (ping_sigTime mnp) = true) as ->.
  { unfold IsPingedWithin. rewrite Hlast, Hne. simpl.
    rewrite (bool_decide_eq_false_2 (ping_sigTime mnp = -1)) by done.
    rewrite int64_sub_diag. apply bool_decide_eq_true_2. lia. }
  repeat case_match; simplify_eq; by eexists.
Qed.

(** X12: whatever [CheckAndUpdate] does with a ping, the record keeps its
    outpoint, address, both public keys, protocol version, announcement
    timestamp and signature, watchdog vote time, confirmation block hash,
    last-paid block and test flag. *)
Theorem X12_CheckAndUpdate_frame
    (e : Env) (mnp : CMerchantnodePing) (mn : CMerchantnode) (fFrom : bool)
    (st : Node) (r : bool) (nDos : Z) (pmn' : option CMerchantnode) (st' : Node) :
  CheckAndUpdate e mnp (Some mn) fFrom st = (r, nDos, pmn', st') ->
  exists mn',
    pmn' = Some mn' /\
    nProtocolVersion mn' = nProtocolVersion mn /\
    sigTime mn' = sigTime mn /\
    vin mn' = vin mn /\
    addr mn' = addr mn /\
    pubKeyCollateralAddress mn' = pubKeyCollateralAddress mn /\
    pubKeyMerchantnode mn' = pubKeyMerchantnode mn /\
    nTimeLastWatchdogVote mn' = nTimeLastWatchdogVote mn /\
    vchSig mn' = vchSig mn /\
    nCollateralMinConfBlockHash mn' = nCollateralMinConfBlockHash mn /\
    nBlockLastPaid mn' = nBlockLastPaid mn /\
    fUnitTest mn' = fUnitTest mn.
Proof.
  intros Hrun.
  destruct (CheckAndUpdate_Some _ _ _ _ _ _ _ _ _ Hrun) as [-> | ->];
    eexists; (split; [done|]); [by repeat split|].
  destruct (Check_frame_all e true (set_lastPing mnp mn))
    as (-> & -> & -> & -> & -> & -> & -> & _ & -> & -> & -> & ->).
  by repeat split.
Qed.

(** *** [UpdateFromNewBroadcast] and [Update] *)

Lemma same_identity_Check e fForce r0 r :
  same_identity r0 r -> same_identity r0 (Check e fForce r).
Proof.
  intros (? & ? & ? & ? & ? & ?). unfold same_identity.
  destruct (Check_frame_all e fForce r)
    as (_ & _ & -> & _ & -> & _ & -> & _ & _ & -> & -> & ->).
  by repeat split.
Qed.

Lemma CheckAndUpdate_relayed e mnp pmn fFrom st r nDos pmn' st' :
  CheckAndUpdate e mnp pmn fFrom st = (r, nDos, pmn', st') ->
  relayed st' =
    if r && IsSynced e
    then (MSG_MERCHANTNODE_PING, CMerchantnodePing_GetHash mnp) :: relayed st
    else relayed st.
Proof.
  intros Hrun.
  destruct (CheckAndUpdate_inv _ _ _ _ _ _ _ _ _ Hrun)
    as [(-> & _ & -> & _) | (mn & mn' & d0 & -> & -> & _ & _ & Hf & _)]; [done|].
  by destruct (CheckAndUpdate_found_inv _ _ _ _ _ _ _ _ _ _ Hf)
    as [(-> & _ & -> & _) | (_ & _ & _ & _ & _ & _ & _ & _ & _ & ->)].
Qed.

(** The two ways through [UpdateFromNewBroadcast]. *)
Lemma UpdateFromNewBroadcast_inv e mn (mnb : CMerchantnodeBroadcast) st ok mn' st' :
  UpdateFromNewBroadcast e mn mnb st = (ok, mn', st') ->
  (sigTime mnb <= sigTime mn /\ fRecovery mnb = false /\
   ok = false /\ mn' = mn /\ st' = st) \/
  ((sigTime mn < sigTime mnb \/ fRecovery mnb = true) /\
   announced mnb mn' /\ same_identity mn mn' /\
   ok = (negb (is_local e (pubKeyMerchantnode mnb)) ||
         bool_decide (nProtocolVersion mnb = PROTOCOL_VERSION)) /\
   (is_local e (pubKeyMerchantnode mnb) = true ->
    nPoSeBanScore mn' = - MERCHANTNODE_POSE_BAN_MAX_SCORE) /\
   (IsSynced e = false -> relayed st' = relayed st)).
Proof.
  unfold UpdateFromNewBroadcast.
  destruct (bool_decide (sigTime mnb <= sigTime mn) && negb (fRecovery mnb)) eqn:Hgate.
  { intros; simplify_eq. left.
    apply andb_prop in Hgate as [Hle Hr].
    apply bool_decide_eq_true_1 in Hle. apply negb_true_iff in Hr. by auto. }
  assert (sigTime mn < sigTime mnb \/ fRecovery mnb = true) as Htime.
  { apply andb_false_iff in Hgate as [Hle | Hr].
    - left. apply bool_decide_eq_false_1 in Hle. lia.
    - right. by apply negb_false_iff in Hr. }
  pose (Q := fun (r : CMerchantnode) (s : Node) =>
               announced mnb r /\ same_identity mn r /\
               (IsSynced e = false -> relayed s = relayed st)).
  assert (Q (take_fields mnb mn) st) as Hq0 by (by repeat split).
  set (step := if CMerchantnodePing_eq _ _ then _ else _).
  assert (exists fPing mn1 st1, step = (fPing, mn1, st1) /\ Q mn1 st1)
    as (fPing & mn1 & st1 & -> & Hq1).
  { subst step. destruct (CMerchantnodePing_eq _ _); [by eauto|].
    destruct (CheckAndUpdate _ _ _ _ _) as [[[r0 d0] pmn0] st0] eqn:Hcu.
    do 3 eexists. split; [done|].
    pose proof (CheckAndUpdate_relayed _ _ _ _ _ _ _ _ _ Hcu) as Hrel.
    destruct Hq0 as (Ha & Hi & _).
    destruct (CheckAndUpdate_Some _ _ _ _ _ _ _ _ _ Hcu) as [-> | ->]; simpl.
    - repeat split; try done. intros Hs. rewrite Hrel, Hs. by rewrite andb_false_r.
    - split; [by apply announced_Check|].
      split; [by apply same_identity_Check|].
      intros Hs. rewrite Hrel, Hs. by rewrite andb_false_r. }
  set (step2 := if fPing then _ else _).
  assert (exists mn2 st2, step2 = (mn2, st2) /\ Q mn2 st2)
    as (mn2 & st2 & -> & Hq2).
  { subst step2. destruct fPing; [|by eauto].
    do 2 eexists. split; [done|].
    destruct Hq1 as ((? & ? & ? & ? & ?) & (? & ? & ? & ? & ? & ?) & ?).
    by repeat split. }
  destruct Hq2 as ((Hpk & Hrest) & (? & ? & ? & ? & ? & ?) & Hrel).
  unfold is_local. rewrite Hpk.
  destruct (fMerchantNode e && _) eqn:Hloc; simpl.
  - destruct Hrest as (? & ? & Hv & ?). rewrite Hv.
    destruct (bool_decide (nProtocolVersion mnb = PROTOCOL_VERSION));
      intros; simplify_eq; right; by repeat split.
  - destruct Hrest as (? & ? & ? & ?).
    intros; simplify_eq; right. by repeat split.
Qed.

(** The ways through [Update]: the timestamp, ban, key and signature
    refusals; acceptance without applying; acceptance with
    [UpdateFromNewBroadcast]. *)
Lemma Update_inv e (mnb : CMerchantnodeBroadcast) pmn st r nDos pmn' st' :
  Update e mnb pmn st = (r, nDos, pmn', st') ->
  (r = false /\ st' = st /\
   ((nDos = 0 /\ pmn' = pmn /\
     (sigTime mnb < sigTime pmn \/
      (sigTime mnb = sigTime pmn /\ fRecovery mnb = false))) \/
    (pmn' = Check e false pmn /\
     ((nDos = 0 /\ nActiveState (Check e false pmn) = MERCHANTNODE_POSE_BAN) \/
      (nDos = 33 /\ pubKeyCollateralAddress pmn <> pubKeyCollateralAddress mnb) \/
      (nDos = 100 /\ CMerchantnodeBroadcast_CheckSignature mnb = (false, 100)))))) \/
  (r = true /\ nDos = 0 /\
   sigTime pmn <= sigTime mnb /\
   (sigTime pmn = sigTime mnb -> fRecovery mnb = true) /\
   nActiveState (Check e false pmn) <> MERCHANTNODE_POSE_BAN /\
   pubKeyCollateralAddress pmn = pubKeyCollateralAddress mnb /\
   CMerchantnodeBroadcast_CheckSignature mnb = (true, 0) /\
   ((IsBroadcastedWithin e pmn MERCHANTNODE_MIN_MNB_SECONDS = true /\
     is_local e (pubKeyMerchantnode mnb) = false /\
     pmn' = Check e false pmn /\ st' = st) \/
    ((IsBroadcastedWithin e pmn MERCHANTNODE_MIN_MNB_SECONDS = false \/
      is_local e (pubKeyMerchantnode mnb) = true) /\
     exists fUpdated pmn1 st1,
       UpdateFromNewBroadcast e (Check e false pmn) mnb st = (fUpdated, pmn1, st1) /\
       pmn' = (if fUpdated then Check e false pmn1 else pmn1) /\
       st' = emit (BumpAssetLastTime "CMerchantnodeBroadcast::Update")
               (if fUpdated
                then Relay e MSG_MERCHANTNODE_ANNOUNCE
                       (CMerchantnodeBroadcast_GetHash mnb) st1
                else st1)))).
Proof.
  unfold Update.
  destruct (bool_decide (sigTime pmn = sigTime mnb) && negb (fRecovery mnb)) eqn:Heq.
  { intros; simplify_eq. left. repeat split. left. repeat split.
    apply andb_prop in Heq as [Hs Hr]. apply bool_decide_eq_true_1 in Hs.
    apply negb_true_iff in Hr. right. by split. }
  destruct (bool_decide (sigTime pmn > sigTime mnb)) eqn:Hold.
  { apply bool_decide_eq_true_1 in Hold.
    intros; simplify_eq. left. repeat split. left. repeat split. left. lia. }
  apply bool_decide_eq_false_1 in Hold.
  assert (sigTime pmn = sigTime mnb -> fRecovery mnb = true) as Hrec.
  { intros Hs. apply andb_false_iff in Heq as [Hne | Hr].
    - by apply bool_decide_eq_false_1 in Hne.
    - by apply negb_false_iff in Hr. }
  unfold IsPoSeBanned at 1.
  destruct (bool_decide (nActiveState (Check e false pmn) = MERCHANTNODE_POSE_BAN))
    eqn:Hban.
  { apply bool_decide_eq_true_1 in Hban.
    intros; simplify_eq. left. repeat split. right. split; [done|]. left. by auto. }
  apply bool_decide_eq_false_1 in Hban.
  destruct (Check_frame_all e false pmn) as (_ & Hst & _ & _ & Hkey & _).
  rewrite Hkey.
  destruct (bool_decide (pubKeyCollateralAddress pmn ≠ pubKeyCollateralAddress mnb))
    eqn:Hk.
  { apply bool_decide_eq_true_1 in Hk.
    intros; simplify_eq. left. repeat split. right. split; [done|].
    right; left. by auto. }
  apply bool_decide_eq_false_1 in Hk.
  assert (pubKeyCollateralAddress pmn = pubKeyCollateralAddress mnb) as Hk'.
  { destruct (decide (pubKeyCollateralAddress pmn = pubKeyCollateralAddress mnb));
      [done|]. by destruct Hk. }
  destruct (CMerchantnodeBroadcast_CheckSignature mnb) as [fSig d] eqn:Hsig.
  assert ((fSig = true /\ d = 0) \/ (fSig = false /\ d = 100)) as Hsd.
  { revert Hsig. unfold CMerchantnodeBroadcast_CheckSignature.
    case_match; intros; simplify_eq; by auto. }
  destruct Hsd as [[-> ->] | [-> ->]]; simpl.
  2:{ intros; simplify_eq. left. repeat split. right. split; [done|].
      right; right. by auto. }
  assert (IsBroadcastedWithin e (Check e false pmn) MERCHANTNODE_MIN_MNB_SECONDS
          = IsBroadcastedWithin e pmn MERCHANTNODE_MIN_MNB_SECONDS) as ->.
  { unfold IsBroadcastedWithin. by rewrite Hst. }
  change (fMerchantNode e &&
          bool_decide (pubKeyMerchantnode mnb = activeMerchantnode_pubKeyMerchantnode e))
    with (is_local e (pubKeyMerchantnode mnb)).
  destruct (negb (IsBroadcastedWithin e pmn MERCHANTNODE_MIN_MNB_SECONDS) ||
            is_local e (pubKeyMerchantnode mnb)) eqn:Hgate.
  - destruct (UpdateFromNewBroadcast _ _ _ _) as [[fUpdated pmn1] st1] eqn:Hu.
    intros Hrun. right.
    assert (IsBroadcastedWithin e pmn MERCHANTNODE_MIN_MNB_SECONDS = false \/
            is_local e (pubKeyMerchantnode mnb) = true) as Hg.
    { apply orb_prop in Hgate as [Hw | Hl]; [left | by right].
      by apply negb_true_iff in Hw. }
    destruct fUpdated; simplify_eq; repeat split; try done; try lia;
      right; (split; [done|]); by do 3 eexists.
  - intros; simplify_eq. right.
    apply orb_false_elim in Hgate as [Hw Hl]. apply negb_false_iff in Hw.
    repeat split; try done; try lia. left. by repeat split.
Qed.

(** What [Update] leaves in the record, by cases. *)
Lemma Update_record e (mnb : CMerchantnodeBroadcast) pmn st r nDos pmn' st' :
  Update e mnb pmn st = (r, nDos, pmn', st') ->
  same_identity pmn pmn' /\
  (sigTime pmn' = sigTime pmn \/
   (r = true /\ sigTime pmn <= sigTime mnb /\ announced mnb pmn')).
Proof.
  intros Hrun.
  assert (same_identity pmn pmn) as Hid0 by (by repeat split).
  destruct (Check_frame_all e false pmn) as (_ & Hst & _).
  destruct (Update_inv _ _ _ _ _ _ _ _ Hrun)
    as [(_ & _ & [(_ & -> & _) | (-> & _)])
       | (-> & _ & Hle & _ & _ & _ & _ &
          [(_ & _ & -> & _) | (_ & fU & pmn1 & st1 & Hu & -> & _)])].
  - by auto.
  - split; [by apply same_identity_Check | by left].
  - split; [by apply same_identity_Check | by left].
  - destruct (UpdateFromNewBroadcast_inv _ _ _ _ _ _ _ Hu)
      as [(_ & _ & -> & -> & _) | (_ & Ha & Hid & _)].
    + split; [by apply same_identity_Check | by left].
    + assert (same_identity pmn pmn1) as Hid1.
      { destruct Hid as (Hi1 & Hi2 & Hi3 & Hi4 & Hi5 & Hi6).
        destruct (Check_frame_all e false pmn)
          as (_ & _ & Hf1 & _ & Hf2 & _ & Hf3 & _ & _ & Hf4 & Hf5 & Hf6).
        unfold same_identity. by rewrite Hi1, Hi2, Hi3, Hi4, Hi5, Hi6. }
      destruct fU.
      * split; [by apply same_identity_Check|].
        right. split; [done|]. split; [done|]. by apply announced_Check.
      * split; [done|]. right. split; [done|]. by split.
Qed.

(** X13: [Update] never moves a record's announcement timestamp backwards:
    afterwards [sigTime] is what it was, or it is the announcement's, which
    is then at least as large. *)
Theorem X13_Update_sigTime_monotone
    (e : Env) (mnb : CMerchantnodeBroadcast) (pmn : CMerchantnode) (st : Node)
    (r : bool) (nDos : Z) (pmn' : CMerchantnode) (st' : Node) :
  Update e mnb pmn st = (r, nDos, pmn', st') ->
  sigTime pmn <= sigTime pmn' /\
  (sigTime pmn' = sigTime pmn \/ sigTime pmn' = sigTime mnb).
Proof.
  intros Hrun.
  destruct (Update_record _ _ _ _ _ _ _ _ Hrun)
    as [_ [-> | (_ & Hle & _ & -> & _)]]; split; auto; lia.
Qed.

(** X14: whatever [Update] does with an announcement, the record keeps its
    outpoint and its collateral public key, and also its watchdog vote
    time, confirmation block hash, last-paid block and test flag. *)
Theorem X14_Update_keeps_identity
    (e : Env) (mnb : CMerchantnodeBroadcast) (pmn : CMerchantnode) (st : Node)
    (r : bool) (nDos : Z) (pmn' : CMerchantnode) (st' : Node) :
  Update e mnb pmn st = (r, nDos, pmn', st') ->
  vin pmn' = vin pmn /\
  pubKeyCollateralAddress pmn' = pubKeyCollateralAddress pmn /\
  nTimeLastWatchdogVote pmn' = nTimeLastWatchdogVote pmn /\
  nCollateralMinConfBlockHash pmn' = nCollateralMinConfBlockHash pmn /\
  nBlockLastPaid pmn' = nBlockLastPaid pmn /\
  fUnitTest pmn' = fUnitTest pmn.
Proof.
  intros Hrun. by destruct (Update_record _ _ _ _ _ _ _ _ Hrun) as [Hid _].
Qed.

(** X15: the score [Update] suggests is 0, 33 or 100, and a nonzero score
    always comes with a refusal.  A refusal leaves the node as it was and
    the record either untouched or only re-checked: 33 means the collateral
    key differs from the one on file, 100 that the signature does not
    verify. *)
Theorem X15_Update_refusals
    (e : Env) (mnb : CMerchantnodeBroadcast) (pmn : CMerchantnode) (st : Node)
    (r : bool) (nDos : Z) (pmn' : CMerchantnode) (st' : Node) :
  Update e mnb pmn st = (r, nDos, pmn', st') ->
  (nDos = 0 \/ nDos = 33 \/ nDos = 100) /\
  (nDos <> 0 -> r = false) /\
  (nDos = 33 -> pubKeyCollateralAddress pmn <> pubKeyCollateralAddress mnb) /\
  (nDos = 100 -> CMerchantnodeBroadcast_CheckSignature mnb = (false, 100)) /\
  (r = false -> st' = st /\ (pmn' = pmn \/ pmn' = Check e false pmn)).
Proof.
  intros Hrun.
  destruct (Update_inv _ _ _ _ _ _ _ _ Hrun)
    as [(-> & -> & [(-> & -> & _)
                   | (-> & [(-> & _) | [(-> & Hk) | (-> & Hs)]])])
       | (-> & -> & _)];
    repeat split; auto; try done.
Qed.

(** X16: [Update] returns true only for an announcement that is not older
    than the record, carries the recovery flag if it is of the same age, has
    the collateral key on file and a signature that verifies, and only when
    the re-checked record is not PoSe-banned; the score is then 0. *)
Theorem X16_Update_true_only_if
    (e : Env) (mnb : CMerchantnodeBroadcast) (pmn : CMerchantnode) (st : Node)
    (nDos : Z) (pmn' : CMerchantnode) (st' : Node) :
  Update e mnb pmn st = (true, nDos, pmn', st') ->
  nDos = 0 /\
  sigTime pmn <= sigTime mnb /\
  (sigTime pmn = sigTime mnb -> fRecovery mnb = true) /\
  nActiveState (Check e false pmn) <> MERCHANTNODE_POSE_BAN /\
  pubKeyCollateralAddress pmn = pubKeyCollateralAddress mnb /\
  CMerchantnodeBroadcast_CheckSignature mnb = (true, 0).
Proof.
  intros Hrun.
  destruct (Update_inv _ _ _ _ _ _ _ _ Hrun)
    as [(? & _) | (_ & -> & ? & ? & ? & ? & ? & _)]; [done|].
  by repeat split.
Qed.

(** X17: an announcement that carries the local node's own service key but
    not the current protocol version is still written into the record:
    [UpdateFromNewBroadcast] returns false, so nothing is relayed for it,
    but the record has the announcement's fields and its ban score is
    minus the maximum. *)
Theorem X17_own_outdated_announcement_is_applied
    (e : Env) (mn : CMerchantnode) (mnb : CMerchantnodeBroadcast) (st : Node) :
  sigTime mn < sigTime mnb \/ fRecovery mnb = true ->
  is_local e (pubKeyMerchantnode mnb) = true ->
  nProtocolVersion mnb <> PROTOCOL_VERSION ->
  exists mn' st',
    UpdateFromNewBroadcast e mn mnb st = (false, mn', st') /\
    announced mnb mn' /\
    nPoSeBanScore mn' = - MERCHANTNODE_POSE_BAN_MAX_SCORE /\
    vin mn' = vin mn.
Proof.
  intros Htime Hloc Hver.
  destruct (UpdateFromNewBroadcast e mn mnb st) as [[ok mn'] st'] eqn:Hu.
  destruct (UpdateFromNewBroadcast_inv _ _ _ _ _ _ _ Hu)
    as [(Hle & Hr & _) | (_ & Ha & (Hv & _) & -> & Hscore & _)].
  - destruct Htime; [lia | congruence].
  - rewrite Hloc. simpl. rewrite bool_decide_eq_false_2 by done.
    exists mn', st'. split; [done|]. split; [done|]. split; [by apply Hscore | done].
Qed.

(** X18: on a node that is not fully synced neither a ping nor an
    announcement is relayed, whatever else [CheckAndUpdate] and [Update]
    do. *)
Theorem X18_nothing_relayed_until_synced (e : Env) (st : Node) :
  IsSynced e = false ->
  (forall mnp pmn fFrom, relayed (CheckAndUpdate e mnp pmn fFrom st).2 = relayed st) /\
  (forall mnb pmn, relayed (Update e mnb pmn st).2 = relayed st).
Proof.
  intros Hsync. split.
  - intros mnp pmn fFrom.
    destruct (CheckAndUpdate e mnp pmn fFrom st) as [[[r d] pmn'] st'] eqn:Hrun.
    simpl. rewrite (CheckAndUpdate_relayed _ _ _ _ _ _ _ _ _ Hrun), Hsync.
    by rewrite andb_false_r.
  - intros mnb pmn.
    destruct (Update e mnb pmn st) as [[[r d] pmn'] st'] eqn:Hrun. simpl.
    destruct (Update_inv _ _ _ _ _ _ _ _ Hrun)
      as [(_ & -> & _)
         | (_ & _ & _ & _ & _ & _ & _ &
            [(_ & _ & _ & ->) | (_ & fU & pmn1 & st1 & Hu & _ & ->)])];
      try done.
    assert (relayed st1 = relayed st) as Hst1.
    { destruct (UpdateFromNewBroadcast_inv _ _ _ _ _ _ _ Hu)
        as [(_ & _ & _ & _ & ->) | (_ & _ & _ & _ & _ & Hrel)]; auto. }
    unfold Relay. rewrite Hsync. simpl. by destruct fU.
Qed.

(** *** [CheckOutpoint] *)

(** X19: [CheckOutpoint] succeeds only for an announcement that is not the
    local node's own, whose signature verifies, whose collateral is an
    unspent output of exactly [1000 * COIN] with at least the minimum
    number of confirmations, and whose spawning transaction pays that amount
    to the collateral key.  The announcement then carries the hash of the
    block at which the collateral reached the minimum depth, the score is
    0 and the node is as it was. *)
Theorem X19_CheckOutpoint_success_only_if
    (e : Env) (mnb : CMerchantnodeBroadcast) (nDos : Z) (st : Node)
    (d : Z) (mnb' : CMerchantnodeBroadcast) (st' : Node) :
  CheckOutpoint e mnb nDos st = Some (true, d, mnb', st') ->
  d = 0 /\ st' = st /\
  (fMerchantNode e &&
     bool_decide (prevout (vin mnb) = activeMerchantnode_outpoint e) &&
     bool_decide (pubKeyMerchantnode mnb = activeMerchantnode_pubKeyMerchantnode e)
   = false) /\
  CMerchantnodeBroadcast_CheckSignature mnb = (true, 0) /\
  lockMain e = true /\
  exists coin pindex,
    GetUTXOCoin e (prevout (vin mnb)) = Some coin /\
    nValue (out coin) = 1000 * COIN /\
    nMasternodeMinimumConfirmations <= chainActive_Height e - nHeight coin + 1 /\
    chainActive e (nHeight coin + nMasternodeMinimumConfirmations - 1) = Some pindex /\
    mnb' = on_base (set_nCollateralMinConfBlockHash (GetBlockHash pindex)) mnb /\
    IsInputAssociatedWithPubkey e mnb = true.
Proof.
  unfold CheckOutpoint.
  destruct (fMerchantNode e && _ && _) eqn:Hown; [done|].
  destruct (CMerchantnodeBroadcast_CheckSignature mnb) as [fSig d0] eqn:Hsig.
  assert (fSig = true -> d0 = 0) as Hd0.
  { revert Hsig. unfold CMerchantnodeBroadcast_CheckSignature.
    case_match; intros; by simplify_eq. }
  destruct fSig; simpl; [|done]. rewrite (Hd0 eq_refl) in *.
  destruct (lockMain e); simpl; [|done].
  unfold CheckCollateral.
  destruct (GetUTXOCoin e (prevout (vin mnb))) as [coin|]; simpl; [|done].
  destruct (bool_decide (nValue (out coin) ≠ 1000 * COIN)) eqn:Hval; simpl; [done|].
  apply bool_decide_eq_false_1 in Hval.
  destruct (bool_decide (chainActive_Height e - nHeight coin + 1
                         < nMasternodeMinimumConfirmations)) eqn:Hdepth; [done|].
  apply bool_decide_eq_false_1 in Hdepth.
  destruct (chainActive e (nHeight coin + nMasternodeMinimumConfirmations - 1))
    as [pindex|] eqn:Hconf; [|done].
  change (IsInputAssociatedWithPubkey e
            (set_nCollateralMinConfBlockHash (GetBlockHash pindex) mnb))
    with (IsInputAssociatedWithPubkey e mnb).
  destruct (IsInputAssociatedWithPubkey e mnb) eqn:Hin; simpl; [|done].
  intros Hrun.
  assert (d = 0 /\
          mnb' = on_base (set_nCollateralMinConfBlockHash (GetBlockHash pindex)) mnb /\
          st' = st) as (-> & -> & ->).
  { revert Hrun. repeat case_match; intros; by simplify_eq. }
  repeat split; try done.
  exists coin, pindex. repeat split; try done.
  - destruct (decide (nValue (out coin) = 1000 * COIN)); [done | by destruct Hval].
  - lia.
Qed.

(** X20: whatever its outcome, [CheckOutpoint] makes no outgoing call and
    leaves the seen-ping map alone.  It changes the seen-broadcast map only
    by erasing the announcement's own hash, only together with a refusal,
    and only when the chain lock was not obtained or the collateral, an
    unspent output of the right amount, has too few confirmations.  The
    announcement changes at most in its confirmation block hash, and the
    score is the caller's, 0, 33 or 100. *)
Theorem X20_CheckOutpoint_effects
    (e : Env) (mnb : CMerchantnodeBroadcast) (nDos : Z) (st : Node)
    (r : bool) (d : Z) (mnb' : CMerchantnodeBroadcast) (st' : Node) :
  CheckOutpoint e mnb nDos st = Some (r, d, mnb', st') ->
  trace st' = trace st /\
  mapSeenMerchantnodePing st' = mapSeenMerchantnodePing st /\
  (st' = st \/
   (r = false /\
    mapSeenMerchantnodeBroadcast st' =
      delete (CMerchantnodeBroadcast_GetHash mnb) (mapSeenMerchantnodeBroadcast st) /\
    (lockMain e = false \/
     exists coin,
       GetUTXOCoin e (prevout (vin mnb)) = Some coin /\
       nValue (out coin) = 1000 * COIN /\
       chainActive_Height e - nHeight coin + 1 < nMasternodeMinimumConfirmations))) /\
  (mnb' = mnb \/
   exists h, mnb' = on_base (set_nCollateralMinConfBlockHash h) mnb) /\
  (d = nDos \/ d = 0 \/ d = 33 \/ d = 100).
Proof.
  unfold CheckOutpoint.
  destruct (fMerchantNode e && _ && _); [intros; simplify_eq; by auto 10|].
  destruct (CMerchantnodeBroadcast_CheckSignature mnb) as [fSig d0] eqn:Hsig.
  assert (d0 = 0 \/ d0 = 100) as Hd0.
  { revert Hsig. unfold CMerchantnodeBroadcast_CheckSignature.
    case_match; intros; simplify_eq; by auto. }
  destruct fSig; simpl; [|intros; simplify_eq; repeat split; by intuition].
  destruct (lockMain e) eqn:Hlock; simpl.
  2:{ intros; simplify_eq. repeat split; try done; [|by left | by intuition].
      right. by auto. }
  unfold CheckCollateral.
  destruct (GetUTXOCoin e (prevout (vin mnb))) as [coin|]; simpl;
    [|intros; simplify_eq; repeat split; by intuition].
  destruct (bool_decide (nValue (out coin) ≠ 1000 * COIN)) eqn:Hval; simpl;
    [intros; simplify_eq; repeat split; by intuition|].
  apply bool_decide_eq_false_1 in Hval.
  assert (nValue (out coin) = 1000 * COIN) as Hval'.
  { destruct (decide (nValue (out coin) = 1000 * COIN)); [done | by destruct Hval]. }
  destruct (bool_decide (chainActive_Height e - nHeight coin + 1
                         < nMasternodeMinimumConfirmations)) eqn:Hdepth.
  { apply bool_decide_eq_true_1 in Hdepth.
    intros; simplify_eq. repeat split; try done; [|by left | by intuition].
    right. split; [done|]. split; [done|]. right. by exists coin. }
  destruct (chainActive e (nHeight coin + nMasternodeMinimumConfirmations - 1))
    as [pindex|]; [|done].
  set (mnb1 := {| mnb_base := _; fRecovery := _ |}).
  assert (mnb1 = on_base (set_nCollateralMinConfBlockHash (GetBlockHash pindex)) mnb)
    as Hmnb1 by done.
  clearbody mnb1.
  intros Hrun.
  assert (st' = st /\ mnb' = mnb1 /\ (d = d0 \/ d = 33)) as (-> & -> & Hd).
  { revert Hrun. repeat case_match; intros; simplify_eq.
    all: repeat split; auto. }
  split; [done|]. split; [done|]. split; [by left|].
  split; [right; by eexists|].
  destruct Hd as [-> | ->]; [destruct Hd0 as [-> | ->]|]; auto.
Qed.

(** *** State names, watchdog votes, signing and structural checks *)

(** X21: [StateToString] gives the eight states eight different names, none
    of them the "UNKNOWN" it answers for any other integer. *)
Theorem X21_StateToString_injective (a b : option state) :
  StateToString a = StateToString b -> a = b.
Proof.
  destruct a as [[]|], b as [[]|]; simpl; intros Heq; try done;
    by inversion Heq.
Qed.

Lemma Check_watchdog e fForce mn :
  nActiveState mn <> MERCHANTNODE_WATCHDOG_EXPIRED ->
  GetAdjustedTime e - nTimeLastWatchdogVote mn <= MERCHANTNODE_WATCHDOG_MAX_SECONDS ->
  nActiveState (Check e fForce mn) <> MERCHANTNODE_WATCHDOG_EXPIRED.
Proof.
  intros Hs Hvote.
  assert (bool_decide (GetAdjustedTime e - nTimeLastWatchdogVote mn
                       > MERCHANTNODE_WATCHDOG_MAX_SECONDS) = false) as Hb
    by (apply bool_decide_eq_false_2; lia).
  unfold Check, Check_states, DecreasePoSeBanScore. cbv zeta.
  repeat (case_match; simpl in *; try done);
    rewrite ?Hb, ?andb_false_r in *; done.
Qed.

Lemma int64_of_uint64_id v :
  - 2 ^ 63 <= v < 2 ^ 63 -> int64_of_uint64 v = v.
Proof.
  intros Hv. unfold int64_of_uint64.
  destruct (decide (0 <= v)).
  - rewrite Z.mod_small by lia. rewrite bool_decide_eq_true_2; lia.
  - replace (v mod 2 ^ 64) with (v + 2 ^ 64).
    + rewrite bool_decide_eq_false_2; lia.
    + apply Z.mod_unique with (q := -1); lia.
Qed.

(** X22: after [UpdateWatchdogVoteTime], with a vote time of 0 (meaning now)
    or a vote time no more than [MERCHANTNODE_WATCHDOG_MAX_SECONDS] in the
    past, a [Check] on the same clock does not turn the record
    WATCHDOG_EXPIRED (times within the range of [int64_t]). *)
Theorem X22_watchdog_vote_prevents_expiry
    (e : Env) (fForce : bool) (nVoteTime : Z) (mn : CMerchantnode) :
  - 2 ^ 63 <= GetAdjustedTime e < 2 ^ 63 ->
  0 <= nVoteTime < 2 ^ 63 ->
  0 <= MERCHANTNODE_WATCHDOG_MAX_SECONDS ->
  (nVoteTime <> 0 ->
   GetAdjustedTime e - nVoteTime <= MERCHANTNODE_WATCHDOG_MAX_SECONDS) ->
  nActiveState mn <> MERCHANTNODE_WATCHDOG_EXPIRED ->
  nTimeLastWatchdogVote (UpdateWatchdogVoteTime e nVoteTime mn)
    = (if bool_decide (nVoteTime = 0) then GetAdjustedTime e else nVoteTime) /\
  nActiveState (Check e fForce (UpdateWatchdogVoteTime e nVoteTime mn))
    <> MERCHANTNODE_WATCHDOG_EXPIRED.
Proof.
  intros Hadj Hvote Hmax Hrecent Hs.
  assert (nTimeLastWatchdogVote (UpdateWatchdogVoteTime e nVoteTime mn)
          = (if bool_decide (nVoteTime = 0) then GetAdjustedTime e else nVoteTime))
    as Hval.
  { unfold UpdateWatchdogVoteTime. simpl. apply int64_of_uint64_id.
    case_bool_decide; lia. }
  split; [done|].
  apply Check_watchdog; [done|]. rewrite Hval.
  case_bool_decide; [lia | by apply Hrecent].
Qed.

(** X23: an announcement that [Sign] has signed with success passes
    [CheckSignature] with score 0; [Sign] has stamped it with the adjusted
    time and changed nothing else but the signature. *)
Theorem X23_signed_announcement_verifies
    (e : Env) (mnb : CMerchantnodeBroadcast) (keyCollateralAddress : list Byte.byte)
    (mnb' : CMerchantnodeBroadcast) :
  CMerchantnodeBroadcast_Sign e mnb keyCollateralAddress = (true, mnb') ->
  CMerchantnodeBroadcast_CheckSignature mnb' = (true, 0) /\
  sigTime mnb' = GetAdjustedTime e /\
  mnb' = on_base (set_vchSig (vchSig mnb'))
           (on_base (set_sigTime (GetAdjustedTime e)) mnb).
Proof.
  unfold CMerchantnodeBroadcast_Sign, CMerchantnodeBroadcast_CheckSignature.
  simpl.
  destruct (SignMessage _ _ _) as [fSigned sig]. simpl.
  destruct fSigned; simpl; [|done].
  destruct (VerifyMessage _ _ _) eqn:Hv; simpl; [|done].
  intros [= <-]. simpl. by rewrite Hv.
Qed.

(** X24: a ping that [Sign] has signed with success for a service key passes
    [CheckSignature] under that key with score 0; [Sign] has stamped it with
    the adjusted time and changed nothing else but the signature. *)
Theorem X24_signed_ping_verifies
    (e : Env) (mnp : CMerchantnodePing)
    (keyMasternode pubKeyMasternode : list Byte.byte) (mnp' : CMerchantnodePing) :
  CMerchantnodePing_Sign e mnp keyMasternode pubKeyMasternode = (true, mnp') ->
  CMerchantnodePing_CheckSignature mnp' pubKeyMasternode = (true, 0) /\
  ping_sigTime mnp' = GetAdjustedTime e /\
  ping_vin mnp' = ping_vin mnp /\
  ping_blockHash mnp' = ping_blockHash mnp.
Proof.
  unfold CMerchantnodePing_Sign, CMerchantnodePing_CheckSignature. simpl.
  destruct (SignMessage _ _ _) as [fSigned sig]. simpl.
  destruct fSigned; simpl; [|done].
  destruct (VerifyMessage _ _ _) eqn:Hv; simpl; [|done].
  intros [= <-]. simpl. by rewrite Hv.
Qed.

Lemma SimpleCheck_ping_step e (mnb : CMerchantnodeBroadcast) :
  exists d mnb1,
    (if CMerchantnodePing_eq (lastPing mnb) CMerchantnodePing_default
     then (on_base (set_nActiveState MERCHANTNODE_EXPIRED) mnb, 0)
     else
       let '(fPing, nDos) := CMerchantnodePing_SimpleCheck e (lastPing mnb) in
       if negb fPing
       then (on_base (set_nActiveState MERCHANTNODE_EXPIRED) mnb, nDos)
       else (mnb, nDos)) = (mnb1, d) /\
    (d = 0 \/
     (d = 1 /\ CMerchantnodePing_eq (lastPing mnb) CMerchantnodePing_default = false /\
      ping_sigTime (lastPing mnb) > GetAdjustedTime e + 60 * 60 /\
      mnb1 = on_base (set_nActiveState MERCHANTNODE_EXPIRED) mnb)) /\
    (mnb1 = mnb \/ mnb1 = on_base (set_nActiveState MERCHANTNODE_EXPIRED) mnb).
Proof.
  destruct (CMerchantnodePing_eq _ _); [by eauto 10|].
  unfold CMerchantnodePing_SimpleCheck.
  case_bool_decide; simpl; [do 2 eexists; split; [done|]; by auto 10|].
  destruct (mapBlockIndex e !! ping_blockHash (lastPing mnb)); simpl;
    do 2 eexists; (split; [done|]); split; auto.
Qed.

(** X25: the announcement's [SimpleCheck] succeeds only for an address that
    is valid for the network, a [sigTime] no more than an hour ahead, a
    protocol version that is not below the current one, two 25-byte scripts,
    an empty unlock script, and the main network's default port exactly on
    the main network.  Whatever the outcome, the score is 0, 1 or 100, with
    100 only on failure, and the announcement is as it was or has its state
    set to EXPIRED. *)
Theorem X25_broadcast_SimpleCheck
    (e : Env) (mnb : CMerchantnodeBroadcast)
    (r : bool) (d : Z) (mnb' : CMerchantnodeBroadcast) :
  CMerchantnodeBroadcast_SimpleCheck e mnb = (r, d, mnb') ->
  (d = 0 \/ d = 1 \/ d = 100) /\
  (d = 100 -> r = false) /\
  (mnb' = mnb \/ mnb' = on_base (set_nActiveState MERCHANTNODE_EXPIRED) mnb) /\
  (r = true ->
   IsValidNetAddr (addr mnb) = true /\
   sigTime mnb <= GetAdjustedTime e + 60 * 60 /\
   PROTOCOL_VERSION <= nProtocolVersion mnb /\
   length (GetScriptForDestination (pubKeyCollateralAddress mnb)) = 25%nat /\
   length (GetScriptForDestination (pubKeyMerchantnode mnb)) = 25%nat /\
   scriptSig (vin mnb) = [] /\
   (NetworkIDString = CBaseChainParams_MAIN <->
    port (addr mnb) = mainnetDefaultPort)).
Proof.
  unfold CMerchantnodeBroadcast_SimpleCheck.
  destruct (IsValidNetAddr (addr mnb)) eqn:Haddr; simpl;
    [|intros; simplify_eq; repeat split; auto; done].
  destruct (bool_decide (sigTime mnb > GetAdjustedTime e + 60 * 60)) eqn:Hfut;
    [intros; simplify_eq; repeat split; auto; done|].
  apply bool_decide_eq_false_1 in Hfut.
  destruct (SimpleCheck_ping_step e mnb) as (d0 & mnb1 & -> & Hd0 & Hmnb1).
  assert (d0 = 0 \/ d0 = 1) as Hd0' by (destruct Hd0 as [? | (? & _)]; auto).
  assert (nProtocolVersion mnb1 = nProtocolVersion mnb /\
          pubKeyCollateralAddress mnb1 = pubKeyCollateralAddress mnb /\
          pubKeyMerchantnode mnb1 = pubKeyMerchantnode mnb /\
          vin mnb1 = vin mnb /\ addr mnb1 = addr mnb)
    as (-> & -> & -> & -> & ->).
  { by destruct Hmnb1 as [-> | ->]. }
  destruct (bool_decide (nProtocolVersion mnb < PROTOCOL_VERSION)) eqn:Hver.
  { apply bool_decide_eq_true_1 in Hver.
    intros; simplify_eq. split; [by intuition|].
    split; [done|]. split; [done|]. done. }
  apply bool_decide_eq_false_1 in Hver.
  destruct (bool_decide (Z.of_nat (length (GetScriptForDestination
                                             (pubKeyCollateralAddress mnb))) ≠ 25))
    eqn:Hl1; [intros; simplify_eq; repeat split; auto; done|].
  apply bool_decide_eq_false_1 in Hl1.
  destruct (bool_decide (Z.of_nat (length (GetScriptForDestination
                                             (pubKeyMerchantnode mnb))) ≠ 25))
    eqn:Hl2; [intros; simplify_eq; repeat split; auto; done|].
  apply bool_decide_eq_false_1 in Hl2.
  destruct (bool_decide (scriptSig (vin mnb) = [])) eqn:Hsc; simpl;
    [|intros; simplify_eq; repeat split; auto; done].
  apply bool_decide_eq_true_1 in Hsc.
  assert (forall res, res = (r, d, mnb') ->
            res = (false, d0, mnb1) \/
            (res = (true, d0, mnb1) /\
             (NetworkIDString = CBaseChainParams_MAIN <->
              port (addr mnb) = mainnetDefaultPort)) ->
            (d = 0 \/ d = 1 \/ d = 100) /\ (d = 100 -> r = false) /\
            (mnb' = mnb \/
             mnb' = on_base (set_nActiveState MERCHANTNODE_EXPIRED) mnb) /\
            (r = true ->
             true = true /\ sigTime mnb <= GetAdjustedTime e + 60 * 60 /\
             PROTOCOL_VERSION <= nProtocolVersion mnb /\
             length (GetScriptForDestination (pubKeyCollateralAddress mnb)) = 25%nat /\
             length (GetScriptForDestination (pubKeyMerchantnode mnb)) = 25%nat /\
             scriptSig (vin mnb) = [] /\
             (NetworkIDString = CBaseChainParams_MAIN <->
              port (addr mnb) = mainnetDefaultPort))) as Hfin.
  { intros res -> [Hres | [Hres Hport]]; simplify_eq;
      (split; [by intuition|]); (split; [intros ->; by destruct Hd0'|]);
      (split; [done|]); [done|].
    intros _. repeat split; try done; try lia; apply Hport. }
  intros Hrun. eapply Hfin; [exact Hrun|].
  repeat case_bool_decide; try (by left); right; (split; [done|]); by split.
Qed.

(** X26: a structurally sound announcement whose embedded ping is signed
    more than an hour ahead passes [SimpleCheck], but with score 1 (the
    ping's) and with its state set to EXPIRED. *)
Theorem X26_broadcast_SimpleCheck_future_ping
    (e : Env) (mnb : CMerchantnodeBroadcast) :
  IsValidNetAddr (addr mnb) = true ->
  sigTime mnb <= GetAdjustedTime e + 60 * 60 ->
  CMerchantnodePing_eq (lastPing mnb) CMerchantnodePing_default = false ->
  ping_sigTime (lastPing mnb) > GetAdjustedTime e + 60 * 60 ->
  PROTOCOL_VERSION <= nProtocolVersion mnb ->
  length (GetScriptForDestination (pubKeyCollateralAddress mnb)) = 25%nat ->
  length (GetScriptForDestination (pubKeyMerchantnode mnb)) = 25%nat ->
  scriptSig (vin mnb) = [] ->
  (NetworkIDString = CBaseChainParams_MAIN <->
   port (addr mnb) = mainnetDefaultPort) ->
  CMerchantnodeBroadcast_SimpleCheck e mnb
    = (true, 1, on_base (set_nActiveState MERCHANTNODE_EXPIRED) mnb).
Proof.
  intros Haddr Hsig Hne Hfut Hver Hl1 Hl2 Hsc Hport.
  unfold CMerchantnodeBroadcast_SimpleCheck, CMerchantnodePing_SimpleCheck.
  rewrite Haddr, Hne. simpl.
  rewrite (bool_decide_eq_false_2 (sigTime mnb > _)) by lia.
  rewrite (bool_decide_eq_true_2 (ping_sigTime (lastPing mnb) > _)) by done.
  simpl.
  rewrite (bool_decide_eq_false_2 (nProtocolVersion mnb < _)) by lia.
  rewrite Hl1, Hl2, Hsc. simpl.
  destruct (bool_decide (NetworkIDString = CBaseChainParams_MAIN)) eqn:Hnet.
  - apply bool_decide_eq_true_1 in Hnet.
    rewrite bool_decide_eq_false_2; [done|]. intros Hne'. apply Hne'. by apply Hport.
  - apply bool_decide_eq_false_1 in Hnet.
    rewrite bool_decide_eq_false_2; [done|]. intros Hp. apply Hnet. by apply Hport.
Qed.

(** X27: a ping made for an outpoint on a chain at least 12 blocks high and
    signed with success for a record's service key is accepted by
    [CheckAndUpdate] on a node with the same chain and clock, whose block
    index knows the block 12 below the tip at its height: it becomes the
    record's [lastPing], unless the record requires an update or a new
    start, or [IsPingedWithin(MERCHANTNODE_MIN_MNP_SECONDS - 60, sigTime)]
    holds of it, where the ping's [sigTime] is the adjusted time it was
    stamped with.  The ping names the outpoint and that block. *)
Theorem X27_fresh_ping_is_accepted
    (e : Env) (outpoint : COutPoint) (key : list Byte.byte) (mn : CMerchantnode)
    (fFrom : bool) (st : Node)
    (tip pindex : CBlockIndex) (mnp0 mnp : CMerchantnodePing) :
  chainActive e (chainActive_Height e) = Some tip ->
  12 <= chainActive_Height e ->
  chainActive e (chainActive_Height e - 12) = Some pindex ->
  mapBlockIndex e !! GetBlockHash pindex = Some (Some pindex) ->
  bi_nHeight pindex = chainActive_Height e - 12 ->
  CMerchantnodePing_new e outpoint = Some mnp0 ->
  CMerchantnodePing_Sign e mnp0 key (pubKeyMerchantnode mn) = (true, mnp) ->
  fFrom = true \/
    (nActiveState mn <> MERCHANTNODE_UPDATE_REQUIRED /\
     nActiveState mn <> MERCHANTNODE_NEW_START_REQUIRED) ->
  IsPingedWithin e mn (MERCHANTNODE_MIN_MNP_SECONDS - 60)
    (GetAdjustedTime e) = false ->
  prevout (ping_vin mnp) = outpoint /\
  ping_blockHash mnp = GetBlockHash pindex /\
  exists st',
    CheckAndUpdate e mnp (Some mn) fFrom st
      = (relay_state (nActiveState (Check e true (set_lastPing mnp mn))), 0,
         Some (Check e true (set_lastPing mnp mn)), st') /\
    lastPing (Check e true (set_lastPing mnp mn)) = mnp.
Proof.
  intros Htip Hh Hblock Hindex Hheight Hnew Hsign Hstate Hearly.
  unfold CMerchantnodePing_new in Hnew.
  rewrite Htip, Hblock in Hnew.
  rewrite bool_decide_eq_false_2 in Hnew by lia.
  injection Hnew as <-.
  assert (CMerchantnodePing_CheckSignature mnp (pubKeyMerchantnode mn) = (true, 0) /\
          ping_sigTime mnp = GetAdjustedTime e /\
          prevout (ping_vin mnp) = outpoint /\
          ping_blockHash mnp = GetBlockHash pindex) as (Hsig & Ht & Hvin & Hbh).
  { revert Hsign.
    unfold CMerchantnodePing_Sign, CMerchantnodePing_CheckSignature. simpl.
    destruct (SignMessage _ _ _) as [fSigned sig]. simpl.
    destruct fSigned; simpl; [|done].
    destruct (VerifyMessage _ _ _) eqn:Hv; simpl; [|done].
    intros [= <-]. simpl. by rewrite Hv. }
  split; [done|]. split; [done|].
  apply (CheckAndUpdate_accepts e mnp mn fFrom st (Some pindex)).
  - rewrite Ht. lia.
  - by rewrite Hbh.
  - intros ? [= <-]. lia.
  - done.
  - by rewrite Ht.
  - done.
Qed.

End MoreProperties.

(** ** The further properties at concrete inputs *)

Lemma X1_witness :
  @Check example_header ex_env false
    (@Check example_header ex_env true (ex_record MERCHANTNODE_PRE_ENABLED 90000 0 0 false))
  = @Check example_header ex_env true (ex_record MERCHANTNODE_PRE_ENABLED 90000 0 0 false).
Proof.
  apply (@X1_Check_recheck_is_noop example_header). vm_compute. reflexivity.
Defined.

(** A record banned until height 1000, checked at height 1000. *)
Lemma X4_witness :
  nActiveState (@Check example_header (ex_env_full false) true
                  (ex_record MERCHANTNODE_POSE_BAN 90000 5 1000 false))
    <> MERCHANTNODE_POSE_BAN /\
  nPoSeBanScore (@Check example_header (ex_env_full false) true
                   (ex_record MERCHANTNODE_POSE_BAN 90000 5 1000 false)) = 4.
Proof.
  destruct (@X4_Check_lifts_ban example_header (ex_env_full false) true
              (ex_record MERCHANTNODE_POSE_BAN 90000 5 1000 false))
    as (A & _ & B & _).
  - reflexivity.
  - left. reflexivity.
  - intros _. split; [reflexivity|]. vm_compute. eauto.
  - reflexivity.
  - vm_compute. discriminate.
  - split; [exact A | exact B].
Defined.

(** A record whose last ping, from time 99900, is looked at a day later. *)
Lemma X6_witness :
  nActiveState
    (@Check example_header
       {| ShutdownRequested := false; GetTime := 186400; GetAdjustedTime := 186400;
          lockMain := true; pcoinsTip := ex_coins 1000;
          chainActive_Height := 1000; chainActive := chainActive ex_env;
          mapBlockIndex := mapBlockIndex ex_env; GetTransaction := fun _ => None;
          merchantnodeman_size := 40; IsWatchdogActive := false;
          IsMerchantnodeListSynced := true; IsSynced := true;
          fMerchantNode := false; activeMerchantnode_pubKeyMerchantnode := [];
          activeMerchantnode_outpoint := {| hash := 0; n := 4294967295 |} |}
       true (ex_record MERCHANTNODE_ENABLED 90000 0 0 false))
    <> MERCHANTNODE_ENABLED.
Proof.
  apply (@X6_Check_silent_peer_not_live example_header).
  - reflexivity.
  - left. reflexivity.
  - discriminate.
  - intros _. split; [reflexivity|]. vm_compute. eauto.
  - reflexivity.
  - vm_compute. reflexivity.
Defined.

(** A record announced at 99000 and pinged at 99900, checked at 100000. *)
Lemma X7_witness :
  nActiveState (@Check example_header (ex_env_full false) true
                  (ex_record MERCHANTNODE_PRE_ENABLED 99000 0 0 false))
    = MERCHANTNODE_ENABLED.
Proof.
  apply (@X7_Check_enabled_iff example_header (ex_env_full false) true
           (ex_record MERCHANTNODE_PRE_ENABLED 99000 0 0 false)).
  - reflexivity.
  - left. reflexivity.
  - discriminate.
  - intros _. split; [reflexivity|]. vm_compute. eauto.
  - reflexivity.
  - discriminate.
  - vm_compute. reflexivity.
  - vm_compute. split; [discriminate | reflexivity].
  - split; [intros (Hf & _); discriminate Hf|].
    split; [vm_compute; reflexivity|].
    split; [intros (_ & _ & Hw); vm_compute in Hw; discriminate Hw|].
    split; [vm_compute; reflexivity|].
    vm_compute. discriminate.
Defined.

(** A ping whose signature does not verify under the record's service key. *)
Lemma X8_witness :
  exists mn,
    Some (ex_record MERCHANTNODE_ENABLED 90000 0 0 false) = Some mn /\
    @CMerchantnodePing_CheckSignature example_header
      (set_ping_vchSig [] (ex_ping 9990 100500)) (pubKeyMerchantnode mn) = (false, 33).
Proof.
  destruct (@X8_CheckAndUpdate_scores example_header ex_env
              (set_ping_vchSig [] (ex_ping 9990 100500))
              (Some (ex_record MERCHANTNODE_ENABLED 90000 0 0 false)) false ex_node
              false 33 (Some (ex_record MERCHANTNODE_ENABLED 90000 0 0 false)) ex_node)
    as (_ & _ & A & _).
  - vm_compute. reflexivity.
  - apply A. reflexivity.
Defined.

(** An accepted ping, on a node that has the record's announcement in its
    seen map. *)
Lemma X9_witness :
  dom (mapSeenMerchantnodeBroadcast
         (@CheckAndUpdate example_header ex_env (ex_ping 9990 100500)
            (Some (ex_record MERCHANTNODE_ENABLED 90000 0 0 false)) false
            (set_mapSeenMerchantnodeBroadcast
               {[ 90077 := (5, ex_mnb 90000 ex_key_collateral ex_key_collateral false) ]}
               ex_node)).2)
  = dom (mapSeenMerchantnodeBroadcast
           (set_mapSeenMerchantnodeBroadcast
              {[ 90077 := (5, ex_mnb 90000 ex_key_collateral ex_key_collateral false) ]}
              ex_node)).
Proof.
  destruct (@CheckAndUpdate example_header ex_env (ex_ping 9990 100500)
              (Some (ex_record MERCHANTNODE_ENABLED 90000 0 0 false)) false
              (set_mapSeenMerchantnodeBroadcast
                 {[ 90077 := (5, ex_mnb 90000 ex_key_collateral ex_key_collateral false) ]}
                 ex_node)) as [[[r d] pmn'] st'] eqn:Hrun.
  exact (proj1 (proj2 (@X9_CheckAndUpdate_seen_maps example_header _ _ _ _ _ _ _ _ _ Hrun))).
Defined.

Lemma X10_witness :
  exists st',
    @CheckAndUpdate example_header ex_env (ex_ping 9990 100500)
      (Some (ex_record MERCHANTNODE_ENABLED 90000 0 0 false)) false ex_node
    = (relay_state
         (nActiveState
            (@Check example_header ex_env true
               (set_lastPing (ex_ping 9990 100500)
                  (ex_record MERCHANTNODE_ENABLED 90000 0 0 false)))), 0,
       Some (@Check example_header ex_env true
               (set_lastPing (ex_ping 9990 100500)
                  (ex_record MERCHANTNODE_ENABLED 90000 0 0 false))), st') /\
    lastPing (@Check example_header ex_env true
                (set_lastPing (ex_ping 9990 100500)
                   (ex_record MERCHANTNODE_ENABLED 90000 0 0 false)))
      = ex_ping 9990 100500.
Proof.
  apply (@X10_CheckAndUpdate_accepts example_header ex_env (ex_ping 9990 100500)
           (ex_record MERCHANTNODE_ENABLED 90000 0 0 false) false ex_node
           (Some ex_block_recent)).
  - vm_compute. discriminate.
  - vm_compute. reflexivity.
  - intros pindex [= <-]. vm_compute. discriminate.
  - right. split; discriminate.
  - vm_compute. reflexivity.
  - vm_compute. reflexivity.
Defined.

(** An accepted ping, delivered again, inside a new announcement, to a node
    that no longer sees the collateral. *)
Lemma X11_witness :
  exists nDos2,
    @CheckAndUpdate example_header ex_env_spent (ex_ping 9990 100500)
      (Some (@Check example_header ex_env true
               (set_lastPing (ex_ping 9990 100500)
                  (ex_record MERCHANTNODE_ENABLED 90000 0 0 false)))) true ex_node
    = (false, nDos2,
       Some (@Check example_header ex_env true
               (set_lastPing (ex_ping 9990 100500)
                  (ex_record MERCHANTNODE_ENABLED 90000 0 0 false))), ex_node).
Proof.
  apply (@X11_ping_redelivery_refused example_header ex_env (ex_ping 9990 100500)
           (ex_record MERCHANTNODE_ENABLED 90000 0 0 false) false ex_node 0
           (@Check example_header ex_env true
              (set_lastPing (ex_ping 9990 100500)
                 (ex_record MERCHANTNODE_ENABLED 90000 0 0 false)))
           (emit (RelayInv MSG_MERCHANTNODE_PING 110490) ex_node)).
  - vm_compute. reflexivity.
  - vm_compute. reflexivity.
  - vm_compute. discriminate.
  - vm_compute. reflexivity.
Defined.

Lemma X12_witness :
  exists mn',
    Some (@Check example_header ex_env true
            (set_lastPing (ex_ping 9990 100500)
               (ex_record MERCHANTNODE_ENABLED 90000 0 0 false))) = Some mn' /\
    sigTime mn' = 90000 /\ vin mn' = {| prevout := ex_outpoint; scriptSig := [] |}.
Proof.
  destruct (@X12_CheckAndUpdate_frame example_header ex_env (ex_ping 9990 100500)
              (ex_record MERCHANTNODE_ENABLED 90000 0 0 false) false ex_node
              true 0
              (Some (@Check example_header ex_env true
                       (set_lastPing (ex_ping 9990 100500)
                          (ex_record MERCHANTNODE_ENABLED 90000 0 0 false))))
              (emit (RelayInv MSG_MERCHANTNODE_PING 110490) ex_node))
    as (mn' & A & _ & B & C & _).
  - vm_compute. reflexivity.
  - exists mn'. split; [exact A|]. split; [exact B | exact C].
Defined.

(** A newer valid announcement for a record announced 100 seconds ago:
    accepted, not applied. *)
Lemma X13_witness :
  sigTime (ex_record MERCHANTNODE_OUTPOINT_SPENT 99900 3 0 false)
    <= sigTime (set_nTimeLastChecked 100000
                  (ex_record MERCHANTNODE_OUTPOINT_SPENT 99900 3 0 false)).
Proof.
  apply (@X13_Update_sigTime_monotone example_header ex_env
           (ex_mnb 99950 ex_key_collateral ex_key_collateral false)
           (ex_record MERCHANTNODE_OUTPOINT_SPENT 99900 3 0 false) ex_node
           true 0
           (set_nTimeLastChecked 100000
              (ex_record MERCHANTNODE_OUTPOINT_SPENT 99900 3 0 false))
           ex_node).
  vm_compute. reflexivity.
Defined.

(** A newer valid announcement that is applied to an enabled record. *)
Lemma X14_witness :
  vin (@Update example_header ex_env
         (ex_mnb 95000 ex_key_collateral ex_key_collateral false)
         (ex_record MERCHANTNODE_ENABLED 90000 0 0 false) ex_node).1.2
    = vin (ex_record MERCHANTNODE_ENABLED 90000 0 0 false) /\
  pubKeyCollateralAddress
    (@Update example_header ex_env
       (ex_mnb 95000 ex_key_collateral ex_key_collateral false)
       (ex_record MERCHANTNODE_ENABLED 90000 0 0 false) ex_node).1.2
    = ex_key_collateral.
Proof.
  destruct (@Update example_header ex_env
              (ex_mnb 95000 ex_key_collateral ex_key_collateral false)
              (ex_record MERCHANTNODE_ENABLED 90000 0 0 false) ex_node)
    as [[[r d] pmn'] st'] eqn:Hrun.
  destruct (@X14_Update_keeps_identity example_header _ _ _ _ _ _ _ _ Hrun)
    as (A & B & _).
  split; [exact A | exact B].
Defined.

(** An announcement with another collateral key. *)
Lemma X15_witness :
  pubKeyCollateralAddress (ex_record MERCHANTNODE_ENABLED 90000 0 0 false)
    <> pubKeyCollateralAddress (ex_mnb 95000 [x09] [x09] false).
Proof.
  destruct (@X15_Update_refusals example_header ex_env
              (ex_mnb 95000 [x09] [x09] false)
              (ex_record MERCHANTNODE_ENABLED 90000 0 0 false) ex_node
              false 33
              (@Check example_header ex_env false
                 (ex_record MERCHANTNODE_ENABLED 90000 0 0 false))
              ex_node) as (_ & _ & A & _).
  - vm_compute. reflexivity.
  - apply A. reflexivity.
Defined.

Lemma X16_witness :
  sigTime (ex_record MERCHANTNODE_OUTPOINT_SPENT 99900 3 0 false) <= 99950 /\
  @CMerchantnodeBroadcast_CheckSignature example_header
    (ex_mnb 99950 ex_key_collateral ex_key_collateral false) = (true, 0).
Proof.
  destruct (@X16_Update_true_only_if example_header ex_env
              (ex_mnb 99950 ex_key_collateral ex_key_collateral false)
              (ex_record MERCHANTNODE_OUTPOINT_SPENT 99900 3 0 false) ex_node
              0
              (set_nTimeLastChecked 100000
                 (ex_record MERCHANTNODE_OUTPOINT_SPENT 99900 3 0 false))
              ex_node) as (_ & A & _ & _ & _ & B).
  - vm_compute. reflexivity.
  - split; [exact A | exact B].
Defined.

(** The local node, with service key [x05; x06], receives its own
    announcement with protocol version 70207. *)
Lemma X17_witness :
  exists mn' st',
    @UpdateFromNewBroadcast example_header (ex_env_full true)
      (ex_record MERCHANTNODE_ENABLED 90000 2 0 false)
      (ex_mnb_full 95000 70207 ex_key_collateral [x05; x06] ex_key_collateral null_ping)
      ex_node = (false, mn', st') /\
    sigTime mn' = 95000 /\ nProtocolVersion mn' = 70207 /\ nPoSeBanScore mn' = -5.
Proof.
  destruct (@X17_own_outdated_announcement_is_applied example_header (ex_env_full true)
              (ex_record MERCHANTNODE_ENABLED 90000 2 0 false)
              (ex_mnb_full 95000 70207 ex_key_collateral [x05; x06]
                 ex_key_collateral null_ping)
              ex_node) as (mn' & st' & Hrun & (_ & A & _ & B & _) & C & _).
  - left. vm_compute. reflexivity.
  - vm_compute. reflexivity.
  - vm_compute. discriminate.
  - exists mn', st'. split; [exact Hrun|]. split; [exact A|]. split; [exact B|exact C].
Defined.

Lemma X18_witness :
  relayed (@Update example_header (ex_env_at (ex_coins 1000) 1000 false)
             (ex_mnb 95000 ex_key_collateral ex_key_collateral false)
             (ex_record MERCHANTNODE_ENABLED 90000 0 0 false) ex_node).2
  = relayed ex_node.
Proof.
  apply (@X18_nothing_relayed_until_synced example_header
           (ex_env_at (ex_coins 1000) 1000 false) ex_node).
  reflexivity.
Defined.

(** The collateral of [ex_outpoint], 501 blocks deep, paid to the
    announcement's collateral key. *)
Lemma X19_witness :
  exists coin pindex,
    GetUTXOCoin (ex_env_full false) ex_outpoint = Some coin /\
    nHeight coin = 500 /\
    chainActive (ex_env_full false) (500 + 15 - 1) = Some pindex /\
    GetBlockHash pindex = 9514.
Proof.
  destruct (@X19_CheckOutpoint_success_only_if example_header (ex_env_full false)
              (ex_mnb 90000 ex_key_collateral ex_key_collateral false) 7 ex_node
              0
              (on_base (set_nCollateralMinConfBlockHash 9514)
                 (ex_mnb 90000 ex_key_collateral ex_key_collateral false))
              ex_node)
    as (_ & _ & _ & _ & _ & coin & pindex & Hc & _ & _ & Hp & _ & _).
  - vm_compute. reflexivity.
  - exists coin, pindex.
    assert (coin = {| out := {| nValue := 1000 * 100000000;
                                scriptPubKey := ex_key_collateral |};
                      nHeight := 500 |}) as ->.
    { vm_compute in Hc. by injection Hc as <-. }
    split; [exact Hc|]. split; [reflexivity|]. split; [exact Hp|].
    vm_compute in Hp. by injection Hp as <-.
Defined.

(** A collateral with 11 of the 15 confirmations required. *)
Lemma X20_witness :
  trace (set_mapSeenMerchantnodeBroadcast
           (delete 90077
              {[ 90077 := (0, ex_mnb 90000 ex_key_collateral ex_key_collateral false) ]})
           ex_node)
  = trace ex_node.
Proof.
  destruct (@X20_CheckOutpoint_effects example_header
              (ex_env_at (ex_coins 1000) 510 true)
              (ex_mnb 90000 ex_key_collateral ex_key_collateral false) 7
              (set_mapSeenMerchantnodeBroadcast
                 {[ 90077 := (0, ex_mnb 90000 ex_key_collateral
                                    ex_key_collateral false) ]}
                 ex_node)
              false 0
              (ex_mnb 90000 ex_key_collateral ex_key_collateral false)
              (set_mapSeenMerchantnodeBroadcast
                 (delete 90077
                    {[ 90077 := (0, ex_mnb 90000 ex_key_collateral
                                       ex_key_collateral false) ]})
                 ex_node)) as (A & _).
  - vm_compute. reflexivity.
  - exact A.
Defined.

Lemma X21_witness :
  Some (nActiveState (ex_record MERCHANTNODE_EXPIRED 90000 0 0 false))
    = Some MERCHANTNODE_EXPIRED.
Proof.
  apply X21_StateToString_injective. reflexivity.
Defined.

(** A watchdog vote "now" for a record whose vote was 10000 seconds old,
    on a node with the watchdog active. *)
Lemma X22_witness :
  nActiveState
    (@Check example_header (ex_env_full false) true
       (UpdateWatchdogVoteTime (ex_env_full false) 0
          (ex_record MERCHANTNODE_ENABLED 90000 0 0 false)))
    <> MERCHANTNODE_WATCHDOG_EXPIRED.
Proof.
  apply (@X22_watchdog_vote_prevents_expiry example_header (ex_env_full false) true 0
           (ex_record MERCHANTNODE_ENABLED 90000 0 0 false)).
  - vm_compute. split; [discriminate | reflexivity].
  - vm_compute. split; [discriminate | reflexivity].
  - vm_compute. discriminate.
  - intros Hne. by destruct Hne.
  - discriminate.
Defined.

Lemma X23_witness :
  @CMerchantnodeBroadcast_CheckSignature example_header
    (on_base (set_vchSig ex_key_collateral)
       (on_base (set_sigTime 100000) (ex_mnb 90000 ex_key_collateral [] false)))
  = (true, 0).
Proof.
  apply (@X23_signed_announcement_verifies example_header example_platform ex_env
           (ex_mnb 90000 ex_key_collateral [] false) ex_key_collateral).
  vm_compute. reflexivity.
Defined.

Lemma X24_witness :
  @CMerchantnodePing_CheckSignature example_header
    (ex_ping 9988 100000) ex_key_service = (true, 0).
Proof.
  apply (@X24_signed_ping_verifies example_header example_platform ex_env
           (set_ping_vchSig [] (ex_ping 9988 5)) ex_key_service ex_key_service).
  vm_compute. reflexivity.
Defined.

(** An announcement with 25-byte scripts on port 9999 of the test network. *)
Lemma X25_witness :
  @IsValidNetAddr example_platform
    (addr (ex_mnb_full 90000 70208 (ex_key25 x01) (ex_key25 x02) []
             (ex_ping 9990 99900))) = true /\
  (@NetworkIDString example_platform = @CBaseChainParams_MAIN example_platform <->
   port (addr (ex_mnb_full 90000 70208 (ex_key25 x01) (ex_key25 x02) []
                 (ex_ping 9990 99900)))
     = @mainnetDefaultPort example_platform).
Proof.
  destruct (@X25_broadcast_SimpleCheck example_header example_platform ex_env
              (ex_mnb_full 90000 70208 (ex_key25 x01) (ex_key25 x02) []
                 (ex_ping 9990 99900))
              true 0
              (ex_mnb_full 90000 70208 (ex_key25 x01) (ex_key25 x02) []
                 (ex_ping 9990 99900))) as (_ & _ & _ & A).
  - vm_compute. reflexivity.
  - destruct (A eq_refl) as (B & _ & _ & _ & _ & _ & C).
    split; [exact B | exact C].
Defined.

(** The same announcement carrying a ping signed at time 200000. *)
Lemma X26_witness :
  @CMerchantnodeBroadcast_SimpleCheck example_header example_platform ex_env
    (ex_mnb_full 90000 70208 (ex_key25 x01) (ex_key25 x02) [] (ex_ping 9990 200000))
  = (true, 1,
     on_base (set_nActiveState MERCHANTNODE_EXPIRED)
       (ex_mnb_full 90000 70208 (ex_key25 x01) (ex_key25 x02) []
          (ex_ping 9990 200000))).
Proof.
  apply (@X26_broadcast_SimpleCheck_future_ping example_header example_platform).
  - vm_compute. reflexivity.
  - vm_compute. discriminate.
  - vm_compute. reflexivity.
  - vm_compute. reflexivity.
  - vm_compute. discriminate.
  - reflexivity.
  - reflexivity.
  - reflexivity.
  - split; intros Hx; vm_compute in Hx; discriminate Hx.
Defined.

(** A ping made and signed at height 1000 for a record last pinged at
    time 99000. *)
Lemma X27_witness :
  exists st',
    @CheckAndUpdate example_header (ex_env_full false) (ex_ping 9988 100000)
      (Some (set_lastPing (ex_ping 9990 99000)
               (ex_record MERCHANTNODE_ENABLED 90000 0 0 false))) false ex_node
    = (relay_state
         (nActiveState
            (@Check example_header (ex_env_full false) true
               (set_lastPing (ex_ping 9988 100000)
                  (set_lastPing (ex_ping 9990 99000)
                     (ex_record MERCHANTNODE_ENABLED 90000 0 0 false))))), 0,
       Some (@Check example_header (ex_env_full false) true
               (set_lastPing (ex_ping 9988 100000)
                  (set_lastPing (ex_ping 9990 99000)
                     (ex_record MERCHANTNODE_ENABLED 90000 0 0 false)))), st').
Proof.
  destruct (@X27_fresh_ping_is_accepted example_header example_platform
              (ex_env_full false) ex_outpoint ex_key_service
              (set_lastPing (ex_ping 9990 99000)
                 (ex_record MERCHANTNODE_ENABLED 90000 0 0 false))
              false ex_node
              {| bi_nHeight := 1000; GetBlockHash := 10000; GetBlockTime := 100000 |}
              {| bi_nHeight := 988; GetBlockHash := 9988; GetBlockTime := 98800 |}
              (set_ping_vchSig [] (ex_ping 9988 100000))
              (ex_ping 9988 100000)) as (_ & _ & st' & Hrun & _).
  - vm_compute. reflexivity.
  - vm_compute. discriminate.
  - vm_compute. reflexivity.
  - vm_compute. reflexivity.
  - reflexivity.
  - vm_compute. reflexivity.
  - vm_compute. reflexivity.
  - right. split; discriminate.
  - vm_compute. reflexivity.
  - exists st'. exact Hrun.
Defined.
